(** * notex: the retrieval core of [backend/server.go] and [backend/store.go]

    A shallow embedding of the on-demand index loader
    ([loadNotebookVectorIndex]), of the source deletion handler
    ([handleDeleteSource]) and of the transformation handler
    ([handleTransform]), together with the storage operations of
    [store.go] they call.

    The server object and the SQLite tables are an explicit [World]; every
    call to a collaborator (storage, vector store, text and image
    generation, logger) is recorded as an [Event], so that a statement can
    speak about which calls a handler made and in which order.  Outcomes
    the program does not control (a failing query, a failing embedding, the
    text of a generation, a fresh UUID, the time) come from an [Env] of
    oracles indexed by a call counter, the [clock] of the world. *)

From Stdlib Require Import ZArith Ascii String.
From stdpp Require Import gmap strings list fin_maps pretty.


(** ** Go values *)

(** A Go [(value, error)] pair: [inl msg] is a non-nil error. *)
Definition Result (A : Type) : Type := (string + A)%type.

(** The values stored in the [map[string]interface{}] metadata bags. *)
Inductive MetaValue : Type :=
| MStr (s : string)
| MStrs (l : list string)
| MTime (t : Z).

(** [\n] *)
Definition nl : string := String (ascii_of_nat 10) EmptyString.

(** ** The records of the data model *)

Module Notebook.
Record t : Type := mk {
  ID : string;
  UserID : string;
  Name : string;
}.
End Notebook.

Module Source.
Record t : Type := mk {
  ID : string;
  NotebookID : string;
  Name : string;
  Type_ : string;
  URL : string;
  Content : string;
  FileName : string;
  FileSize : Z;
  ChunkCount : nat;
  CreatedAt : Z;
  UpdatedAt : Z;
  Metadata : gmap string MetaValue;
}.

Definition setID (id : string) (s : t) : t :=
  mk id (NotebookID s) (Name s) (Type_ s) (URL s) (Content s) (FileName s)
     (FileSize s) (ChunkCount s) (CreatedAt s) (UpdatedAt s) (Metadata s).
Definition setTimes (now : Z) (s : t) : t :=
  mk (ID s) (NotebookID s) (Name s) (Type_ s) (URL s) (Content s) (FileName s)
     (FileSize s) (ChunkCount s) now now (Metadata s).
Definition setChunkCount (n : nat) (s : t) : t :=
  mk (ID s) (NotebookID s) (Name s) (Type_ s) (URL s) (Content s) (FileName s)
     (FileSize s) n (CreatedAt s) (UpdatedAt s) (Metadata s).
End Source.

Module Note.
Record t : Type := mk {
  ID : string;
  NotebookID : string;
  Title : string;
  Content : string;
  Type_ : string;
  SourceIDs : list string;
  CreatedAt : Z;
  UpdatedAt : Z;
  Metadata : gmap string MetaValue;
}.

Definition setID (id : string) (n : t) : t :=
  mk id (NotebookID n) (Title n) (Content n) (Type_ n) (SourceIDs n)
     (CreatedAt n) (UpdatedAt n) (Metadata n).
Definition setTimes (now : Z) (n : t) : t :=
  mk (ID n) (NotebookID n) (Title n) (Content n) (Type_ n) (SourceIDs n)
     now now (Metadata n).
End Note.

Module ActivityLog.
Record t : Type := mk {
  ID : string;
  UserID : string;
  Action : string;
  ResourceType : string;
  ResourceID : string;
  ResourceName : string;
  Details : string;
  IPAddress : string;
  UserAgent : string;
  CreatedAt : option Z;  (* [None] is the zero [time.Time] *)
}.

Definition setID (id : string) (l : t) : t :=
  mk id (UserID l) (Action l) (ResourceType l) (ResourceID l) (ResourceName l)
     (Details l) (IPAddress l) (UserAgent l) (CreatedAt l).
Definition setCreatedAt (now : Z) (l : t) : t :=
  mk (ID l) (UserID l) (Action l) (ResourceType l) (ResourceID l) (ResourceName l)
     (Details l) (IPAddress l) (UserAgent l) (Some now).
End ActivityLog.

Module TransformationRequest.
Record t : Type := mk {
  Type_ : string;
  Prompt : string;
  SourceIDs : list string;
  Length : string;
  Format : string;
}.

Definition setSourceIDs (ids : list string) (r : t) : t :=
  mk (Type_ r) (Prompt r) ids (Length r) (Format r).
End TransformationRequest.

Module TransformationResponse.
Record t : Type := mk { Content : string }.
End TransformationResponse.

(** One parsed slide of a deck: its content and the style descriptor. *)
Module Slide.
Record t : Type := mk { Style : string; Content : string }.
End Slide.

(** A chunk of the vector index, tagged with the notebook and the source
    name it was ingested under. *)
Module Chunk.
Record t : Type := mk {
  NotebookID : string;
  SourceName : string;
  Text : string;
}.
End Chunk.

(** ** What a handler answers *)

(** The body given to [c.JSON]. *)
Inductive Body : Type :=
| ErrorResponse (Error : string)
| NoteBody (note : Note.t).

(** [c.JSON(status, body)] and [c.Status(code)]. *)
Inductive Response : Type :=
| JSON (status : nat) (body : Body)
| Status (code : nat).

Definition StatusOK : nat := 200.
Definition StatusNoContent : nat := 204.
Definition StatusBadRequest : nat := 400.
Definition StatusForbidden : nat := 403.
Definition StatusNotFound : nat := 404.
Definition StatusConflict : nat := 409.
Definition StatusInternalServerError : nat := 500.

(** The part of [gin.Context] the handlers read.  [ShouldBindJSON] is the
    outcome of decoding the request body. *)
Module Context.
Record t : Type := mk {
  Param_id : string;
  Param_sourceId : string;
  user_id : string;
  ClientIP : string;
  UserAgent : string;
  ShouldBindJSON : Result TransformationRequest.t;
}.
End Context.

(** ** Observable calls *)

(** The call sites of [golog] in the modelled functions, each with the
    arguments of its format string. *)
Inductive LogLine : Type :=
| InfoLoadingIndex (notebookID : string)
    (* "loading vector index for notebook %s..." *)
| InfoIndexLoaded (notebookID : string) (totalDocuments : nat)
    (* "notebook %s loaded into vector store (%d total documents)" *)
| ErrLoadSource (name err : string)
    (* "failed to load source %s: %v" *)
| ErrLoadIndex (err : string)
    (* "failed to load vector index: %v" *)
| ErrInfographImage (err : string)
    (* "failed to generate infographic image: %v" *)
| ErrTooManySlides (n : nat)
    (* "ppt contains too many slides (%d), maximum allowed is 20. skipping image generation." *)
| InfoGeneratingSlides (n : nat)
    (* "generating %d slides for ppt..." *)
| InfoGeneratingSlide (i n : nat)
    (* "generating image for slide %d/%d..." *)
| ErrSlide (i : nat) (err : string)
    (* "failed to generate slide %d: %v" *)
| ErrLogActivity (err : string)
    (* "failed to log transformation activity: %v" *)
| ErrCreateInsightSource (err : string)
    (* "failed to create insight source: %v" *)
| ErrIngestInsight (err : string)
    (* "failed to ingest insight text: %v" *).

Inductive Event : Type :=
| EvListSources (notebookID : string) (r : Result (list Source.t))
| EvListNotes (notebookID : string) (r : Result (list Note.t))
| EvGetSource (id : string) (r : Result Source.t)
| EvGetNotebook (id : string) (r : Result Notebook.t)
| EvDeleteSource (id : string) (err : option string)
| EvCreateSource (s : Source.t) (err : option string)
| EvUpdateSourceChunkCount (id : string) (n : nat) (err : option string)
| EvCreateNote (n : Note.t) (err : option string)
| EvLogActivity (l : ActivityLog.t) (err : option string)
| EvIngestText (notebookID name content : string) (r : Result nat)
| EvGenerateTransformation (req : TransformationRequest.t)
    (sources : list Source.t) (r : Result TransformationResponse.t)
| EvGenerateImage (model prompt userID : string) (r : Result string)
| EvLog (l : LogLine).

(** ** The environment *)

(** Configuration and the collaborators whose code is not part of this
    development.  The first argument of an oracle is the value of the call
    counter when the call is made, so that the same call may succeed once
    and fail later. *)
Record Env : Type := {
  (* Config *)
  AllowMultipleNotesOfSameType : bool;
  ChunkSize : nat;
  ChunkOverlap : nat;
  (* database/sql: [Some msg] when the statement issued at this moment fails *)
  storageFault : nat -> option string;
  (* embedding and vector storage: [Some msg] when ingestion fails *)
  ingestFault : nat -> option string;
  (* Agent.GenerateTransformation *)
  GenerateTransformation :
    nat -> TransformationRequest.t -> list Source.t -> Result TransformationResponse.t;
  (* provider.GenerateImage(ctx, model, prompt, userID) *)
  GenerateImage : nat -> string -> string -> string -> Result string;
  (* Agent.ParsePPTSlides *)
  ParsePPTSlides : string -> list Slide.t;
  (* uuid.New().String() and time.Now().Unix() *)
  newUUID : nat -> string;
  timeNow : nat -> Z;
}.

(** ** The world: the [Server] fields and the tables behind [Store] *)

Record World : Type := mkWorld {
  loadedNotebooks : gmap string bool;
  vectorStore : list Chunk.t;
  tbl_notebooks : list Notebook.t;
  tbl_sources : list Source.t;
  tbl_notes : list Note.t;
  tbl_activity_logs : list ActivityLog.t;
  clock : nat;
}.

Definition setLoaded (m : gmap string bool) (w : World) : World :=
  mkWorld m (vectorStore w) (tbl_notebooks w) (tbl_sources w) (tbl_notes w)
          (tbl_activity_logs w) (clock w).
Definition setVectorStore (v : list Chunk.t) (w : World) : World :=
  mkWorld (loadedNotebooks w) v (tbl_notebooks w) (tbl_sources w) (tbl_notes w)
          (tbl_activity_logs w) (clock w).
Definition setSources (l : list Source.t) (w : World) : World :=
  mkWorld (loadedNotebooks w) (vectorStore w) (tbl_notebooks w) l (tbl_notes w)
          (tbl_activity_logs w) (clock w).
Definition setNotes (l : list Note.t) (w : World) : World :=
  mkWorld (loadedNotebooks w) (vectorStore w) (tbl_notebooks w) (tbl_sources w) l
          (tbl_activity_logs w) (clock w).
Definition setActivityLogs (l : list ActivityLog.t) (w : World) : World :=
  mkWorld (loadedNotebooks w) (vectorStore w) (tbl_notebooks w) (tbl_sources w)
          (tbl_notes w) l (clock w).
Definition setClock (n : nat) (w : World) : World :=
  mkWorld (loadedNotebooks w) (vectorStore w) (tbl_notebooks w) (tbl_sources w)
          (tbl_notes w) (tbl_activity_logs w) n.

(** ** The monad of the handlers

    State passing over the [World], the list of the events made, and the
    early [return] of a handler that has already written its response. *)

Definition M (A : Type) : Type := World -> (Response + A) * World * list Event.

Definition ret {A : Type} (a : A) : M A := fun w => (inr a, w, []).

Definition bind {A B : Type} (m : M A) (k : A -> M B) : M B :=
  fun w =>
    let '(r, w1, t1) := m w in
    match r with
    | inl resp => (inl resp, w1, t1)
    | inr a => let '(b, w2, t2) := k a w1 in (b, w2, t1 ++ t2)
    end.

#[global] Instance M_ret : MRet M := @ret.
#[global] Instance M_bind : MBind M := fun A B k m => bind m k.

(** [c.JSON(...); return] *)
Definition respond {A : Type} (r : Response) : M A := fun w => (inl r, w, []).

Definition get : M World := fun w => (inr w, w, []).
Definition modify (f : World -> World) : M unit := fun w => (inr tt, f w, []).
Definition emit (e : Event) : M unit := fun w => (inr tt, w, [e]).
Definition golog (l : LogLine) : M unit := emit (EvLog l).

(** Reads the call counter and advances it. *)
Definition tick : M nat :=
  fun w => (inr (clock w), setClock (S (clock w)) w, []).

(** Running a handler: the response it wrote, the world it leaves and the
    calls it made. *)
Definition serve (h : M Response) (w : World) : Response * World * list Event :=
  let '(r, w', t) := h w in
  (match r with inl resp => resp | inr resp => resp end, w', t).

(** The three components of a served request. *)
Abbreviation answerOf out := (fst (fst out)) (only parsing).
Abbreviation worldAfter out := (snd (fst out)) (only parsing).
Abbreviation callsOf out := (snd out) (only parsing).

(** ** Rows in the order of [ORDER BY created_at DESC]

    The tables are kept in insertion order; a query sorts its rows by
    decreasing creation time, rows of equal time staying in table order. *)

Section OrderBy.
Context {A : Type} (createdAt : A -> Z).

Fixpoint insertDesc (x : A) (l : list A) : list A :=
  match l with
  | [] => [x]
  | y :: l' =>
      if (createdAt y <=? createdAt x)%Z then x :: y :: l'
      else y :: insertDesc x l'
  end.

Definition orderByCreatedAtDesc (l : list A) : list A :=
  foldr insertDesc [] l.
End OrderBy.

(** ** Chunking *)

(** Modelled from the spec: the text splitter of the ingestion pipeline,
    which is not among the sources.  The content is cut into chunks of
    [size] characters, consecutive chunks sharing [overlap] characters; the
    last chunk may be shorter. *)
Fixpoint splitFrom (fuel size step : nat) (s : string) : list string :=
  match fuel with
  | O => []
  | S fuel' =>
      if String.eqb s "" then []
      else if String.length s <=? size then [s]
      else substring 0 size s
             :: splitFrom fuel' size step (substring step (String.length s - step) s)
  end.

(** Modelled from the spec: see [splitFrom].  The splitter advances by
    [size - overlap] characters, and by one when that is not positive. *)
Definition splitText (size overlap : nat) (s : string) : list string :=
  splitFrom (String.length s) size (Nat.max 1 (size - overlap)) s.

(** ** path/filepath *)

Fixpoint stripTrailingSlashes (s : string) : string :=
  match s with
  | EmptyString => EmptyString
  | String ch s' =>
      let r := stripTrailingSlashes s' in
      if String.eqb r "" && Ascii.eqb ch "/" then EmptyString else String ch r
  end.

Fixpoint afterLastSlash (acc s : string) : string :=
  match s with
  | EmptyString => acc
  | String ch s' =>
      if Ascii.eqb ch "/" then afterLastSlash EmptyString s'
      else afterLastSlash (acc +:+ String ch EmptyString) s'
  end.

(** [filepath.Base] of the Go library where the separator is [/] and paths
    have no volume name. *)
Definition filepath_Base (path : string) : string :=
  if String.eqb path "" then "."
  else
    let last := afterLastSlash EmptyString (stripTrailingSlashes path) in
    if String.eqb last "" then "/" else last.

(** ** server.go: titles *)

Definition getTitleForType (t : string) : string :=
  let titles : gmap string string :=
    list_to_map
      [ ("summary", "摘要");
        ("faq", "常见问题解答");
        ("study_guide", "学习指南");
        ("outline", "大纲");
        ("podcast", "播客脚本");
        ("timeline", "时间线");
        ("glossary", "术语表");
        ("quiz", "测验");
        ("infograph", "信息图");
        ("ppt", "幻灯片");
        ("mindmap", "思维导图");
        ("insight", "洞察报告") ] in
  match titles !! t with
  | Some title => title
  | None => "笔记"
  end.

(** The double quote, for the JSON text of an activity entry. *)
Definition dq : string := String (ascii_of_nat 34) EmptyString.

(** [SELECT ... FROM sources WHERE notebook_id = ? ORDER BY created_at DESC] *)
Definition selectSources (notebookID : string) (rows : list Source.t) : list Source.t :=
  orderByCreatedAtDesc Source.CreatedAt
    (filter (λ s, Source.NotebookID s = notebookID) rows).

(** [SELECT ... FROM notes WHERE notebook_id = ? ORDER BY created_at DESC] *)
Definition selectNotes (notebookID : string) (rows : list Note.t) : list Note.t :=
  orderByCreatedAtDesc Note.CreatedAt
    (filter (λ n, Note.NotebookID n = notebookID) rows).

Section Server.
Variable E : Env.

(** *** store.go

    Each operation issues one statement; [storageFault] says whether the
    statement issued at this moment fails.  The constraints of the schema
    (primary keys, foreign keys) are not modelled apart: a statement that
    violates one is a statement that fails. *)

Definition ListSources (notebookID : string) : M (Result (list Source.t)) :=
  t ← tick;
  w ← get;
  let r : Result (list Source.t) :=
    match storageFault E t with
    | Some err => inl err
    | None => inr (selectSources notebookID (tbl_sources w))
    end in
  emit (EvListSources notebookID r);;
  mret r.

Definition ListNotes (notebookID : string) : M (Result (list Note.t)) :=
  t ← tick;
  w ← get;
  let r : Result (list Note.t) :=
    match storageFault E t with
    | Some err => inl err
    | None => inr (selectNotes notebookID (tbl_notes w))
    end in
  emit (EvListNotes notebookID r);;
  mret r.

Definition GetSource (id : string) : M (Result Source.t) :=
  t ← tick;
  w ← get;
  let r : Result Source.t :=
    match storageFault E t with
    | Some err => inl err
    | None =>
        match find (λ s, String.eqb (Source.ID s) id) (tbl_sources w) with
        | Some src => inr src
        | None => inl "source not found"
        end
    end in
  emit (EvGetSource id r);;
  mret r.

Definition GetNotebook (id : string) : M (Result Notebook.t) :=
  t ← tick;
  w ← get;
  let r : Result Notebook.t :=
    match storageFault E t with
    | Some err => inl err
    | None =>
        match find (λ n, String.eqb (Notebook.ID n) id) (tbl_notebooks w) with
        | Some nb => inr nb
        | None => inl "notebook not found"
        end
    end in
  emit (EvGetNotebook id r);;
  mret r.

(** [DELETE FROM sources WHERE id = ?] *)
Definition DeleteSource (id : string) : M (option string) :=
  t ← tick;
  match storageFault E t with
  | Some err => emit (EvDeleteSource id (Some err));; mret (Some err)
  | None =>
      modify (λ w, setSources (filter (λ s, Source.ID s ≠ id) (tbl_sources w)) w);;
      emit (EvDeleteSource id None);;
      mret None
  end.

(** The caller's record gets its id and times whether or not the insert
    succeeds, so it is returned next to the error. *)
Definition CreateSource (source : Source.t) : M (Source.t * option string) :=
  t ← tick;
  let source := Source.setTimes (timeNow E t) (Source.setID (newUUID E t) source) in
  match storageFault E t with
  | Some err => emit (EvCreateSource source (Some err));; mret (source, Some err)
  | None =>
      modify (λ w, setSources (tbl_sources w ++ [source]) w);;
      emit (EvCreateSource source None);;
      mret (source, None)
  end.

Definition UpdateSourceChunkCount (id : string) (chunkCount : nat) : M (option string) :=
  t ← tick;
  match storageFault E t with
  | Some err => emit (EvUpdateSourceChunkCount id chunkCount (Some err));; mret (Some err)
  | None =>
      modify (λ w, setSources
                (map (λ s, if String.eqb (Source.ID s) id
                           then Source.setChunkCount chunkCount s else s)
                     (tbl_sources w)) w);;
      emit (EvUpdateSourceChunkCount id chunkCount None);;
      mret None
  end.

Definition CreateNote (note : Note.t) : M (Note.t * option string) :=
  t ← tick;
  let note := Note.setTimes (timeNow E t) (Note.setID (newUUID E t) note) in
  match storageFault E t with
  | Some err => emit (EvCreateNote note (Some err));; mret (note, Some err)
  | None =>
      modify (λ w, setNotes (tbl_notes w ++ [note]) w);;
      emit (EvCreateNote note None);;
      mret (note, None)
  end.

(** The copy written to the audit log file has no effect on the world
    and is left out. *)
Definition LogActivity (log : ActivityLog.t) : M (option string) :=
  t ← tick;
  let log := if String.eqb (ActivityLog.ID log) ""
             then ActivityLog.setID (newUUID E t) log else log in
  let log := match ActivityLog.CreatedAt log with
             | None => ActivityLog.setCreatedAt (timeNow E t) log
             | Some _ => log
             end in
  match storageFault E t with
  | Some err => emit (EvLogActivity log (Some err));; mret (Some err)
  | None =>
      modify (λ w, setActivityLogs (tbl_activity_logs w ++ [log]) w);;
      emit (EvLogActivity log None);;
      mret None
  end.

(** Modelled from the spec: the caching wrapper [CachedStore] that the
    server holds as [s.store] is not among the sources.  The spec's
    storage collaborator is the store itself, so a call through the
    wrapper is the call of [Store]. *)
Definition CachedStore_ListSources := ListSources.
(** Modelled from the spec: see [CachedStore_ListSources]. *)
Definition CachedStore_ListNotes := ListNotes.
(** Modelled from the spec: see [CachedStore_ListSources]. *)
Definition CachedStore_GetSource := GetSource.
(** Modelled from the spec: see [CachedStore_ListSources]. *)
Definition CachedStore_GetNotebook := GetNotebook.
(** Modelled from the spec: see [CachedStore_ListSources]. *)
Definition CachedStore_DeleteSource := DeleteSource.
(** Modelled from the spec: see [CachedStore_ListSources]. *)
Definition CachedStore_CreateSource := CreateSource.
(** Modelled from the spec: see [CachedStore_ListSources]. *)
Definition CachedStore_UpdateSourceChunkCount := UpdateSourceChunkCount.
(** Modelled from the spec: see [CachedStore_ListSources]. *)
Definition CachedStore_CreateNote := CreateNote.
(** Modelled from the spec: see [CachedStore_ListSources]. *)
Definition CachedStore_LogActivity := LogActivity.

(** *** The vector store *)

(** Modelled from the spec: [VectorStore.IngestText], which is not among
    the sources.  The content is split into chunks, each stored tagged
    with the notebook id and the source name; the number of chunks is
    returned.  A failing ingestion stores nothing. *)
Definition IngestText (notebookID name content : string) : M (Result nat) :=
  t ← tick;
  match ingestFault E t with
  | Some err =>
      emit (EvIngestText notebookID name content (inl err));;
      mret (inl err)
  | None =>
      let chunks := splitText (ChunkSize E) (ChunkOverlap E) content in
      modify (λ w, setVectorStore
                     (vectorStore w ++ map (Chunk.mk notebookID name) chunks) w);;
      emit (EvIngestText notebookID name content (inr (length chunks)));;
      mret (inr (length chunks))
  end.

(** *** The generation capabilities *)

Definition agent_GenerateTransformation
    (req : TransformationRequest.t) (sources : list Source.t)
    : M (Result TransformationResponse.t) :=
  t ← tick;
  let r := GenerateTransformation E t req sources in
  emit (EvGenerateTransformation req sources r);;
  mret r.

Definition provider_GenerateImage (model prompt userID : string)
    : M (Result string) :=
  t ← tick;
  let r := GenerateImage E t model prompt userID in
  emit (EvGenerateImage model prompt userID r);;
  mret r.

(** *** server.go: loadNotebookVectorIndex

    The function holds [vectorMutex] from its first statement to its
    return, so it runs as one step against the world. *)

(** The [for _, src := range sources] loop. *)
Fixpoint loadSources (notebookID : string) (sources : list Source.t) : M unit :=
  match sources with
  | [] => mret tt
  | src :: rest =>
      (if negb (String.eqb (Source.Content src) "") then
         r ← IngestText notebookID (Source.Name src) (Source.Content src);
         match r with
         | inl err => golog (ErrLoadSource (Source.Name src) err)
         | inr _ => mret tt
         end
       else mret tt);;
      loadSources notebookID rest
  end.

Definition loadNotebookVectorIndex (notebookID : string) : M (option string) :=
  w ← get;
  if default false (loadedNotebooks w !! notebookID) then mret None
  else
    golog (InfoLoadingIndex notebookID);;
    r ← ListSources notebookID;
    match r with
    | inl err => mret (Some ("failed to list sources: " +:+ err))
    | inr sources =>
        loadSources notebookID sources;;
        modify (λ w, setLoaded (<[notebookID := true]> (loadedNotebooks w)) w);;
        w ← get;
        golog (InfoIndexLoaded notebookID (length (vectorStore w)));;
        mret None
    end.

(** *** server.go: handleDeleteSource *)

Definition checkNotebookAccess (notebookID userID : string) : M (option string) :=
  r ← CachedStore_GetNotebook notebookID;
  match r with
  | inl _ => mret (Some "notebook not found")
  | inr notebook =>
      if negb (String.eqb (Notebook.UserID notebook) "")
         && negb (String.eqb (Notebook.UserID notebook) userID)
      then mret (Some "access denied")
      else mret None
  end.

Definition handleDeleteSource (c : Context.t) : M Response :=
  let sourceID := Context.Param_sourceId c in
  let userID := Context.user_id c in
  r ← CachedStore_GetSource sourceID;
  source ← match r with
           | inl _ => respond (JSON StatusNotFound (ErrorResponse "Source not found"))
           | inr source => mret source
           end;
  err ← checkNotebookAccess (Source.NotebookID source) userID;
  match err with
  | Some msg => respond (JSON StatusForbidden (ErrorResponse msg))
  | None => mret tt
  end;;
  err ← CachedStore_DeleteSource sourceID;
  match err with
  | Some _ => respond (JSON StatusInternalServerError (ErrorResponse "Failed to delete source"))
  | None => mret tt
  end;;
  mret (Status StatusNoContent).

(** *** server.go: handleTransform *)

Definition imageModel : string := "gemini-3-pro-image-preview".
Definition chineseNote : string := "**注意：无论来源是什么语言，请务必使用中文**".

(** The web path of a generated image file. *)
Definition webPath (imagePath : string) : string :=
  "/api/files/" +:+ filepath_Base imagePath.

(** The prompt of one slide: the style of the first slide and the
    content of this one.  The loop only runs on a non-empty deck, where
    [slides[0]] exists. *)
Definition slidePrompt (slides : list Slide.t) (slide : Slide.t) : string :=
  "Style: " +:+ from_option Slide.Style "" (head slides) +:+ nl +:+ nl
    +:+ "Slide Content: " +:+ Slide.Content slide
    +:+ nl +:+ nl +:+ chineseNote +:+ nl.

(** The [for i, slide := range slides] loop: [i] is the index of the
    next slide, [rest] the slides from there on, [slideURLs] the URLs
    collected so far. *)
Fixpoint generateSlides (userID : string) (slides : list Slide.t)
    (i : nat) (rest : list Slide.t) (slideURLs : list string) : M (list string) :=
  match rest with
  | [] => mret slideURLs
  | slide :: rest' =>
      golog (InfoGeneratingSlide (i + 1) (length slides));;
      r ← provider_GenerateImage imageModel (slidePrompt slides slide) userID;
      match r with
      | inl err =>
          golog (ErrSlide (i + 1) err);;
          generateSlides userID slides (S i) rest' slideURLs
      | inr imagePath =>
          generateSlides userID slides (S i) rest' (slideURLs ++ [webPath imagePath])
      end
  end.

(** [sourceMap] of the source filter. *)
Definition sourceMapOf (ids : list string) : gmap string bool :=
  foldl (λ m id, <[id := true]> m) ∅ ids.

Definition transformDetails (notebookID : string) (req : TransformationRequest.t) : string :=
  "{" +:+ dq +:+ "notebook_id" +:+ dq +:+ ": " +:+ dq +:+ notebookID +:+ dq
    +:+ ", " +:+ dq +:+ "transform_type" +:+ dq +:+ ": " +:+ dq
    +:+ TransformationRequest.Type_ req +:+ dq
    +:+ ", " +:+ dq +:+ "length" +:+ dq +:+ ": " +:+ dq
    +:+ TransformationRequest.Length req +:+ dq
    +:+ ", " +:+ dq +:+ "format" +:+ dq +:+ ": " +:+ dq
    +:+ TransformationRequest.Format req +:+ dq
    +:+ ", " +:+ dq +:+ "source_count" +:+ dq +:+ ": "
    +:+ pretty (length (TransformationRequest.SourceIDs req)) +:+ "}".

(** Lines 695-756: load the index on demand, decode the request, refuse
    a duplicate type, resolve the sources.  Returns the request (with
    its source ids filled in) and the sources to transform. *)
Definition transformSources (c : Context.t)
    : M (TransformationRequest.t * list Source.t) :=
  let notebookID := Context.Param_id c in
  err ← loadNotebookVectorIndex notebookID;
  match err with
  | Some msg => golog (ErrLoadIndex msg)
  | None => mret tt
  end;;
  req ← match Context.ShouldBindJSON c with
        | inl msg => respond (JSON StatusBadRequest (ErrorResponse msg))
        | inr req => mret req
        end;
  (* Check if multiple notes of same type are allowed *)
  (if negb (AllowMultipleNotesOfSameType E) then
     r ← CachedStore_ListNotes notebookID;
     existingNotes ←
       match r with
       | inl _ => respond (JSON StatusInternalServerError
                             (ErrorResponse "Failed to check existing notes"))
       | inr notes => mret notes
       end;
     if existsb (λ note, String.eqb (Note.Type_ note) (TransformationRequest.Type_ req))
                existingNotes
     then respond (JSON StatusConflict
                     (ErrorResponse "该笔记本已存在相同类型的笔记，不允许创建重复类型"))
     else mret tt
   else mret tt);;
  (* Get sources *)
  r ← CachedStore_ListSources notebookID;
  sources ← match r with
            | inl _ => respond (JSON StatusInternalServerError
                                  (ErrorResponse "Failed to get sources"))
            | inr sources => mret sources
            end;
  let '(sources, req) :=
    if 0 <? length (TransformationRequest.SourceIDs req) then
      let sourceMap := sourceMapOf (TransformationRequest.SourceIDs req) in
      (filter (λ src, default false (sourceMap !! Source.ID src) = true) sources, req)
    else
      (sources, TransformationRequest.setSourceIDs (map Source.ID sources) req) in
  if length sources =? 0
  then respond (JSON StatusBadRequest (ErrorResponse "No sources available"))
  else mret (req, sources).

(** Lines 765-873: what follows a successful primary generation: the
    images, the note, the activity entry, the insight source. *)
Definition transformFinish (c : Context.t) (req : TransformationRequest.t)
    (response : TransformationResponse.t) : M Response :=
  let notebookID := Context.Param_id c in
  let userID := Context.user_id c in
  let metadata : gmap string MetaValue :=
    <["format" := MStr (TransformationRequest.Format req)]>
      (<["length" := MStr (TransformationRequest.Length req)]> ∅) in
  (* If type is infograph, generate the image as well *)
  metadata ←
    (if String.eqb (TransformationRequest.Type_ req) "infograph" then
       let prompt := TransformationResponse.Content response +:+ nl +:+ nl +:+ chineseNote in
       r ← provider_GenerateImage imageModel prompt userID;
       match r with
       | inl err =>
           golog (ErrInfographImage err);;
           mret (<["image_error" := MStr err]> metadata)
       | inr imagePath =>
           mret (<["image_url" := MStr (webPath imagePath)]> metadata)
       end
     else mret metadata);
  (* If type is ppt, generate images for each slide *)
  metadata ←
    (if String.eqb (TransformationRequest.Type_ req) "ppt" then
       let slides := ParsePPTSlides E (TransformationResponse.Content response) in
       if 10 <? length slides then
         golog (ErrTooManySlides (length slides));;
         mret (<["image_error" := MStr "PPT页数超过20页上限，已停止生成图片"]> metadata)
       else
         golog (InfoGeneratingSlides (length slides));;
         slideURLs ← generateSlides userID slides 0 slides [];
         mret (<["slides" := MStrs slideURLs]> metadata)
     else mret metadata);
  (* Save as note *)
  let noteContent :=
    if String.eqb (TransformationRequest.Type_ req) "infograph" then ""
    else TransformationResponse.Content response in
  let note :=
    Note.mk "" notebookID (getTitleForType (TransformationRequest.Type_ req))
            noteContent (TransformationRequest.Type_ req)
            (TransformationRequest.SourceIDs req) 0 0 metadata in
  '(note, err) ← CachedStore_CreateNote note;
  match err with
  | Some _ => respond (JSON StatusInternalServerError (ErrorResponse "Failed to save note"))
  | None => mret tt
  end;;
  (* Log transformation activity *)
  let activityLog :=
    ActivityLog.mk "" userID "transform" "note" (Note.ID note) (Note.Title note)
                   (transformDetails notebookID req)
                   (Context.ClientIP c) (Context.UserAgent c) None in
  err ← CachedStore_LogActivity activityLog;
  match err with
  | Some msg => golog (ErrLogActivity msg)
  | None => mret tt
  end;;
  (* If type is insight, inject the insight report as a new source *)
  (if String.eqb (TransformationRequest.Type_ req) "insight" then
     t ← tick;
     let insightSource :=
       Source.mk "" notebookID "洞察报告" "insight" ""
                 (TransformationResponse.Content response) "" 0 0 0 0
                 (<["source_ids" := MStrs (TransformationRequest.SourceIDs req)]>
                    (<["generated_at" := MTime (timeNow E t)]> ∅)) in
     '(insightSource, err) ← CachedStore_CreateSource insightSource;
     match err with
     | Some msg => golog (ErrCreateInsightSource msg)
     | None =>
         r ← IngestText notebookID (Source.Name insightSource)
               (Source.Content insightSource);
         match r with
         | inl msg => golog (ErrIngestInsight msg)
         | inr chunkCount =>
             CachedStore_UpdateSourceChunkCount (Source.ID insightSource) chunkCount;;
             mret tt
         end
     end
   else mret tt);;
  mret (JSON StatusOK (NoteBody note)).

(** The handler: lines 695-756, then the primary generation of lines
    758-763, whose failure ends the request, then lines 765-873. *)
Definition handleTransform (c : Context.t) : M Response :=
  '(req, sources) ← transformSources c;
  r ← agent_GenerateTransformation req sources;
  match r with
  | inl err =>
      respond (JSON StatusInternalServerError
                 (ErrorResponse ("Generation failed: " +:+ err)))
  | inr response => transformFinish c req response
  end.

(** *** The requests a server processes *)

Inductive Request : Type :=
| ReqLoadIndex (notebookID : string)
| ReqTransform (c : Context.t)
| ReqDeleteSource (c : Context.t).

Definition handle (r : Request) (w : World) : World * list Event :=
  match r with
  | ReqLoadIndex notebookID =>
      let '(_, w', t) := loadNotebookVectorIndex notebookID w in (w', t)
  | ReqTransform c =>
      let '(_, w', t) := serve (handleTransform c) w in (w', t)
  | ReqDeleteSource c =>
      let '(_, w', t) := serve (handleDeleteSource c) w in (w', t)
  end.

(** A sequence of requests, one after the other. *)
Fixpoint run (rs : list Request) (w : World) : World * list Event :=
  match rs with
  | [] => (w, [])
  | r :: rs' =>
      let '(w1, t1) := handle r w in
      let '(w2, t2) := run rs' w1 in
      (w2, t1 ++ t2)
  end.
End Server.

(** * Reasoning about computations *)

Definition result_of {A : Type} (x : (Response + A) * World * list Event) : Response + A := x.1.1.
Definition world_of {A : Type} (x : (Response + A) * World * list Event) : World := x.1.2.
Definition events_of {A : Type} (x : (Response + A) * World * list Event) : list Event := x.2.

(** [Frame f m]: the computation leaves the component [f] of the world as
    it was.  [Emits P m]: every call it makes satisfies [P].  [Total m]:
    it never takes the early return. *)
Definition Frame {A X : Type} (f : World -> X) (m : M A) : Prop :=
  ∀ w, f (world_of (m w)) = f w.
Definition Emits {A : Type} (P : Event -> bool) (m : M A) : Prop :=
  ∀ w, forallb P (events_of (m w)) = true.
Definition Total {A : Type} (m : M A) : Prop :=
  ∀ w, ∃ a, result_of (m w) = inr a.

(** [Grows m]: the computation only appends to the index. *)
Definition Grows {A : Type} (m : M A) : Prop :=
  ∀ w, ∃ suffix, vectorStore (world_of (m w)) = vectorStore w ++ suffix.

Section Combinators.
Context {A B X : Type} (f : World -> X) (P : Event -> bool).

Lemma Frame_ret (a : A) : Frame f (mret a).
Proof. intros w; reflexivity. Qed.

Lemma Frame_respond (r : Response) : Frame f (@respond A r).
Proof. intros w; reflexivity. Qed.

Lemma Frame_get : Frame f get.
Proof. intros w; reflexivity. Qed.

Lemma Frame_emit (e : Event) : Frame f (emit e).
Proof. intros w; reflexivity. Qed.

Lemma Frame_golog (l : LogLine) : Frame f (golog l).
Proof. intros w; reflexivity. Qed.

Lemma Frame_tick : (∀ n w, f (setClock n w) = f w) -> Frame f tick.
Proof. intros H w; apply H. Qed.

Lemma Frame_modify (g : World -> World) :
  (∀ w, f (g w) = f w) -> Frame f (modify g).
Proof. intros H w; apply H. Qed.

Lemma Frame_bind (m : M A) (k : A -> M B) :
  Frame f m -> (∀ a, Frame f (k a)) -> Frame f (m ≫= k).
Proof.
  intros Hm Hk w. specialize (Hm w).
  unfold mbind, M_bind, bind, world_of in *.
  destruct (m w) as [[[r|a] w1] t1]; simpl in *; [exact Hm|].
  specialize (Hk a w1). unfold world_of in Hk.
  destruct (k a w1) as [[b w2] t2]; simpl in *. congruence.
Qed.

Lemma Emits_ret (a : A) : Emits P (mret a).
Proof. intros w; reflexivity. Qed.

Lemma Emits_respond (r : Response) : Emits P (@respond A r).
Proof. intros w; reflexivity. Qed.

Lemma Emits_get : Emits P get.
Proof. intros w; reflexivity. Qed.

Lemma Emits_tick : Emits P tick.
Proof. intros w; reflexivity. Qed.

Lemma Emits_modify (g : World -> World) : Emits P (modify g).
Proof. intros w; reflexivity. Qed.

Lemma Emits_emit (e : Event) : P e = true -> Emits P (emit e).
Proof. intros H w; simpl. rewrite H. reflexivity. Qed.

Lemma Emits_golog (l : LogLine) : P (EvLog l) = true -> Emits P (golog l).
Proof. apply Emits_emit. Qed.

Lemma Emits_bind (m : M A) (k : A -> M B) :
  Emits P m -> (∀ a, Emits P (k a)) -> Emits P (m ≫= k).
Proof.
  intros Hm Hk w. specialize (Hm w).
  unfold mbind, M_bind, bind, events_of in *.
  destruct (m w) as [[[r|a] w1] t1]; simpl in *; [exact Hm|].
  specialize (Hk a w1). unfold events_of in Hk.
  destruct (k a w1) as [[b w2] t2]; simpl in *.
  rewrite forallb_app, Hm, Hk. reflexivity.
Qed.

Lemma Total_ret (a : A) : Total (mret a).
Proof. intros w; eexists; reflexivity. Qed.

Lemma Total_bind (m : M A) (k : A -> M B) :
  Total m -> (∀ a, Total (k a)) -> Total (m ≫= k).
Proof.
  intros Hm Hk w. destruct (Hm w) as [a Ha].
  unfold mbind, M_bind, bind, result_of in *.
  destruct (m w) as [[r w1] t1]; simpl in *; subst r.
  destruct (Hk a w1) as [b Hb]. unfold result_of in Hb.
  destruct (k a w1) as [[r2 w2] t2]; simpl in *. eauto.
Qed.
End Combinators.

Lemma Grows_frame {A : Type} (m : M A) : Frame vectorStore m -> Grows m.
Proof. intros H w. exists []. rewrite app_nil_r. apply H. Qed.

Lemma Grows_bind {A B : Type} (m : M A) (k : A -> M B) :
  Grows m -> (∀ a, Grows (k a)) -> Grows (m ≫= k).
Proof.
  intros Hm Hk w. destruct (Hm w) as [s1 H1].
  unfold mbind, M_bind, bind, world_of in *.
  destruct (m w) as [[[r|a] w1] t1]; simpl in *; [eauto|].
  destruct (Hk a w1) as [s2 H2]. unfold world_of in H2.
  destruct (k a w1) as [[b w2] t2]; simpl in *.
  exists (s1 ++ s2). rewrite H2, H1, app_assoc. reflexivity.
Qed.

Lemma Total_get : Total get.
Proof. intros w; eexists; reflexivity. Qed.
Lemma Total_tick : Total tick.
Proof. intros w; eexists; reflexivity. Qed.
Lemma Total_modify (g : World -> World) : Total (modify g).
Proof. intros w; eexists; reflexivity. Qed.
Lemma Total_emit (e : Event) : Total (emit e).
Proof. intros w; eexists; reflexivity. Qed.
Lemma Total_golog (l : LogLine) : Total (golog l).
Proof. intros w; eexists; reflexivity. Qed.

Create HintDb keeps discriminated.

(** One step of a compositional proof of [Frame], [Emits] or [Total]:
    through a bind, a branch, or down to a primitive. *)
Ltac keeps_step :=
  lazymatch goal with
  | |- Frame _ (mbind _ _) => apply Frame_bind; [|intros]
  | |- Frame _ (mret _) => apply Frame_ret
  | |- Frame _ (respond _) => apply Frame_respond
  | |- Frame _ get => apply Frame_get
  | |- Frame _ (emit _) => apply Frame_emit
  | |- Frame _ (golog _) => apply Frame_golog
  | |- Frame _ tick => apply Frame_tick; first [reflexivity | solve [auto]]
  | |- Frame _ (modify _) => apply Frame_modify; first [reflexivity | solve [auto]]
  | |- Emits _ (mbind _ _) => apply Emits_bind; [|intros]
  | |- Emits _ (mret _) => apply Emits_ret
  | |- Emits _ (respond _) => apply Emits_respond
  | |- Emits _ get => apply Emits_get
  | |- Emits _ tick => apply Emits_tick
  | |- Emits _ (modify _) => apply Emits_modify
  | |- Emits _ (emit _) => apply Emits_emit; first [reflexivity | solve [auto]]
  | |- Emits _ (golog _) => apply Emits_golog; first [reflexivity | solve [auto]]
  | |- Grows (mbind _ _) => apply Grows_bind; [|intros]
  | |- Grows (mret _) => apply Grows_frame, Frame_ret
  | |- Grows (respond _) => apply Grows_frame, Frame_respond
  | |- Grows get => apply Grows_frame, Frame_get
  | |- Grows (emit _) => apply Grows_frame, Frame_emit
  | |- Grows (golog _) => apply Grows_frame, Frame_golog
  | |- Grows tick => apply Grows_frame, Frame_tick; reflexivity
  | |- Grows (modify _) => apply Grows_frame, Frame_modify; reflexivity
  | |- Total (mbind _ _) => apply Total_bind; [|intros]
  | |- Total (mret _) => apply Total_ret
  | |- Total get => apply Total_get
  | |- Total tick => apply Total_tick
  | |- Total (modify _) => apply Total_modify
  | |- Total (emit _) => apply Total_emit
  | |- Total (golog _) => apply Total_golog
  | |- _ (match ?x with _ => _ end) => destruct x
  | |- _ _ (match ?x with _ => _ end) => destruct x
  | |- _ => solve [auto with keeps]
  end.

Ltac keeps := intros; cbv zeta; repeat (keeps_step; cbv zeta).

(** Runs the binds and primitives in the goal. *)
Ltac run_monad :=
  repeat progress
    (unfold mbind, M_bind, mret, M_ret, bind, ret, respond, get, modify, emit,
       golog, tick; simpl).

(** * What a list of events says *)

Definition isIndexLoaded (notebookID : string) (ev : Event) : bool :=
  match ev with
  | EvLog (InfoIndexLoaded nb _) => String.eqb nb notebookID
  | _ => false
  end.

(** The number of completed ingestion sweeps of a notebook: the loader
    logs [InfoIndexLoaded] once at the end of each. *)
Definition sweeps (notebookID : string) (t : list Event) : nat :=
  length (List.filter (isIndexLoaded notebookID) t).

Definition listings (t : list Event) : list (string * Result (list Source.t)) :=
  omap (λ ev, match ev with EvListSources nb r => Some (nb, r) | _ => None end) t.

Definition ingestCalls (t : list Event) : list (string * string * string * Result nat) :=
  omap (λ ev, match ev with
              | EvIngestText nb name content r => Some (nb, name, content, r)
              | _ => None
              end) t.

Definition ingestArgs (t : list Event) : list (string * string * string) :=
  map (λ call, call.1) (ingestCalls t).

Definition textCalls (t : list Event)
    : list (TransformationRequest.t * list Source.t * Result TransformationResponse.t) :=
  omap (λ ev, match ev with
              | EvGenerateTransformation req srcs r => Some (req, srcs, r)
              | _ => None
              end) t.

Definition imageCalls (t : list Event) : list (string * string * string * Result string) :=
  omap (λ ev, match ev with
              | EvGenerateImage model prompt user r => Some (model, prompt, user, r)
              | _ => None
              end) t.

Definition noteInserts (t : list Event) : list (Note.t * option string) :=
  omap (λ ev, match ev with EvCreateNote n err => Some (n, err) | _ => None end) t.

(** The chunks the successful ingestions among [t] put into the index. *)
Definition indexed (E : Env) (t : list Event) : list Chunk.t :=
  flat_map (λ call : string * string * string * Result nat,
              match call with
              | (nb, name, content, inr _) =>
                  map (Chunk.mk nb name) (splitText (ChunkSize E) (ChunkOverlap E) content)
              | (_, _, _, inl _) => []
              end) (ingestCalls t).

(** The events of the loader: listing, ingestion and its own log lines. *)
Definition indexEvent (ev : Event) : bool :=
  match ev with
  | EvListSources _ _ | EvIngestText _ _ _ _ => true
  | EvLog (InfoLoadingIndex _) | EvLog (InfoIndexLoaded _ _)
  | EvLog (ErrLoadSource _ _) => true
  | _ => false
  end.

(** The events of the loop over the sources. *)
Definition sweepEvent (ev : Event) : bool :=
  match ev with
  | EvIngestText _ _ _ _ | EvLog (ErrLoadSource _ _) => true
  | _ => false
  end.

(** Neither a generation (text or image) nor the insertion of a note. *)
Definition quietEvent (ev : Event) : bool :=
  match ev with
  | EvGenerateTransformation _ _ _ | EvGenerateImage _ _ _ _ | EvCreateNote _ _ => false
  | _ => true
  end.

Definition notSweepEnd (ev : Event) : bool :=
  match ev with
  | EvLog (InfoIndexLoaded _ _) => false
  | _ => true
  end.

Definition notTextCall (ev : Event) : bool :=
  match ev with
  | EvGenerateTransformation _ _ _ => false
  | _ => true
  end.

Lemma forallb_weaken (P Q : Event -> bool) (t : list Event) :
  (∀ ev, P ev = true -> Q ev = true) -> forallb P t = true -> forallb Q t = true.
Proof.
  intros HPQ. induction t as [|ev t IH]; simpl; [reflexivity|].
  rewrite !andb_true_iff. intros [H1 H2]. split; auto.
Qed.

Lemma omap_none_forallb {B : Type} (g : Event -> option B) (P : Event -> bool)
    (t : list Event) :
  (∀ ev, P ev = true -> g ev = None) -> forallb P t = true -> omap g t = [].
Proof.
  intros Hg. induction t as [|ev t IH]; simpl; [reflexivity|].
  rewrite andb_true_iff. intros [H1 H2].
  rewrite (Hg ev H1). auto.
Qed.

Lemma sweeps_app (nb : string) (t1 t2 : list Event) :
  sweeps nb (t1 ++ t2) = sweeps nb t1 + sweeps nb t2.
Proof. unfold sweeps. rewrite List.filter_app, length_app. reflexivity. Qed.

Lemma sweeps_cons (nb : string) (ev : Event) (t : list Event) :
  sweeps nb (ev :: t) = (if isIndexLoaded nb ev then 1 else 0) + sweeps nb t.
Proof. unfold sweeps. simpl. destruct (isIndexLoaded nb ev); reflexivity. Qed.

Lemma sweeps_notSweepEnd (nb : string) (t : list Event) :
  forallb notSweepEnd t = true -> sweeps nb t = 0.
Proof.
  unfold sweeps. induction t as [|ev t IH]; simpl; [reflexivity|].
  rewrite andb_true_iff. intros [H1 H2].
  destruct ev; simpl; auto. destruct l; simpl in *; auto. discriminate.
Qed.

Lemma quiet_no_textCalls (t : list Event) :
  forallb quietEvent t = true -> textCalls t = [].
Proof. apply omap_none_forallb. intros []; simpl; congruence. Qed.

Lemma quiet_no_imageCalls (t : list Event) :
  forallb quietEvent t = true -> imageCalls t = [].
Proof. apply omap_none_forallb. intros []; simpl; congruence. Qed.

Lemma quiet_no_noteInserts (t : list Event) :
  forallb quietEvent t = true -> noteInserts t = [].
Proof. apply omap_none_forallb. intros []; simpl; congruence. Qed.

Lemma indexEvent_quiet (ev : Event) : indexEvent ev = true -> quietEvent ev = true.
Proof. destruct ev; simpl; congruence. Qed.

(** * The storage assumption of the spec

    The spec takes the storage collaborator as durable: its statements do
    not fail. *)
Definition StorageDurable (E : Env) : Prop := ∀ t, storageFault E t = None.

Definition isLoaded (w : World) (notebookID : string) : bool :=
  default false (loadedNotebooks w !! notebookID).

Definition nonEmptySources (sources : list Source.t) : list Source.t :=
  filter (λ s, Source.Content s ≠ "") sources.

(** * The index loader *)

Section Loader.
Variable E : Env.

Lemma IngestText_Total nb name content : Total (IngestText E nb name content).
Proof. unfold IngestText. keeps. Qed.

Lemma IngestText_Frame {X : Type} (f : World -> X) nb name content :
  (∀ n w, f (setClock n w) = f w) ->
  (∀ v w, f (setVectorStore v w) = f w) ->
  Frame f (IngestText E nb name content).
Proof. intros Hc Hv. unfold IngestText. keeps. Qed.

Lemma IngestText_Emits (P : Event -> bool) nb name content :
  (∀ r, P (EvIngestText nb name content r) = true) ->
  Emits P (IngestText E nb name content).
Proof. intros HP. unfold IngestText. keeps. Qed.

Lemma IngestText_Grows nb name content : Grows (IngestText E nb name content).
Proof.
  intros w. unfold IngestText, world_of. run_monad.
  destruct (ingestFault E (clock w)); simpl; eexists; [symmetry; apply app_nil_r|].
  reflexivity.
Qed.

#[local] Hint Resolve IngestText_Total IngestText_Frame IngestText_Emits
  IngestText_Grows : keeps.

Lemma loadSources_Grows nb sources : Grows (loadSources E nb sources).
Proof. induction sources as [|src rest IH]; simpl; keeps. Qed.

Lemma loadSources_Total nb sources : Total (loadSources E nb sources).
Proof. induction sources as [|src rest IH]; simpl; keeps. Qed.

Lemma loadSources_Frame {X : Type} (f : World -> X) nb sources :
  (∀ n w, f (setClock n w) = f w) ->
  (∀ v w, f (setVectorStore v w) = f w) ->
  Frame f (loadSources E nb sources).
Proof. intros Hc Hv. induction sources as [|src rest IH]; simpl; keeps. Qed.

Lemma loadSources_Emits nb sources : Emits sweepEvent (loadSources E nb sources).
Proof. induction sources as [|src rest IH]; simpl; keeps. Qed.

(** The sweep, source by source: every source with content is handed to
    the ingestion pipeline, in order, whatever became of the sources
    before it; a failure leaves a log line and nothing in the index. *)
Lemma loadSources_run nb sources :
  ∀ w, ∃ w' t,
    loadSources E nb sources w = (inr tt, w', t)
    ∧ ingestArgs t
      = map (λ s, (nb, Source.Name s, Source.Content s)) (nonEmptySources sources)
    ∧ vectorStore w' = vectorStore w ++ indexed E t
    ∧ (∀ name content err,
         In (EvIngestText nb name content (inl err)) t ->
         In (EvLog (ErrLoadSource name err)) t).
Proof.
  induction sources as [|src rest IH]; intros w.
  - exists w, []. simpl. rewrite app_nil_r. repeat split; auto.
  - simpl loadSources. unfold nonEmptySources. rewrite filter_cons.
    destruct (String.eqb (Source.Content src) "") eqn:Hc.
    + apply String.eqb_eq in Hc.
      destruct (decide (Source.Content src ≠ "")) as [Hne|_]; [done|].
      destruct (IH w) as (w' & t & Hrun & Hargs & Hvs & Hlog).
      exists w', t. run_monad.
      rewrite Hrun. simpl. repeat split; auto.
    + apply String.eqb_neq in Hc.
      destruct (decide (Source.Content src ≠ "")) as [_|Hne]; [|done].
      unfold IngestText. run_monad.
      destruct (ingestFault E (clock w)) as [err|] eqn:Hf; run_monad.
      * match goal with
        | |- context [loadSources E nb rest ?w0] =>
            destruct (IH w0) as (w' & t & Hrun & Hargs & Hvs & Hlog)
        end.
        rewrite Hrun. simpl. eexists w', _. split; [reflexivity|].
        unfold ingestArgs, indexed in *. simpl.
        split; [f_equal; exact Hargs|]. split; [exact Hvs|].
        intros name content e [Heq|[Heq|Hin]]; try discriminate.
        -- injection Heq as <- <- <-. right. left. reflexivity.
        -- right. right. eauto.
      * match goal with
        | |- context [loadSources E nb rest ?w0] =>
            destruct (IH w0) as (w' & t & Hrun & Hargs & Hvs & Hlog)
        end.
        simpl in *. rewrite Hrun. simpl. eexists w', _. split; [reflexivity|].
        unfold ingestArgs, indexed in *. simpl.
        split; [f_equal; exact Hargs|].
        split; [rewrite Hvs, <- app_assoc; reflexivity|].
        intros name content e [Heq|Hin]; try discriminate.
        right. eauto.
Qed.

Lemma sweepEvent_listings (t : list Event) :
  forallb sweepEvent t = true -> listings t = [].
Proof. apply omap_none_forallb. intros [| | | | | | | | | | | |[]]; simpl; congruence. Qed.

Lemma sweepEvent_sweeps nb (t : list Event) :
  forallb sweepEvent t = true -> sweeps nb t = 0.
Proof.
  intros H. apply sweeps_notSweepEnd. revert H. apply forallb_weaken.
  intros [| | | | | | | | | | | |[]]; simpl; congruence.
Qed.

Lemma sweepEvent_indexEvent (t : list Event) :
  forallb sweepEvent t = true -> forallb indexEvent t = true.
Proof. apply forallb_weaken. intros [| | | | | | | | | | | |[]]; simpl; congruence. Qed.

Lemma ListSources_Total nb : Total (ListSources E nb).
Proof. unfold ListSources. keeps. Qed.

#[local] Hint Resolve loadSources_Total loadSources_Frame ListSources_Total
  loadSources_Grows : keeps.

Lemma loadNotebookVectorIndex_Grows nb : Grows (loadNotebookVectorIndex E nb).
Proof. unfold loadNotebookVectorIndex, ListSources. keeps. Qed.

Lemma loadNotebookVectorIndex_Total nb : Total (loadNotebookVectorIndex E nb).
Proof. unfold loadNotebookVectorIndex. keeps. Qed.

(** The loader writes the loaded flags and the index, nothing else. *)
Lemma loadNotebookVectorIndex_Frame {X : Type} (f : World -> X) nb :
  (∀ n w, f (setClock n w) = f w) ->
  (∀ v w, f (setVectorStore v w) = f w) ->
  (∀ m w, f (setLoaded m w) = f w) ->
  Frame f (loadNotebookVectorIndex E nb).
Proof. intros Hc Hv Hl. unfold loadNotebookVectorIndex, ListSources. keeps. Qed.

Lemma loadNotebookVectorIndex_Emits nb : Emits indexEvent (loadNotebookVectorIndex E nb).
Proof.
  unfold loadNotebookVectorIndex, ListSources. keeps.
  intros w. apply sweepEvent_indexEvent, loadSources_Emits.
Qed.

(** A loaded notebook: the call returns at once, having done nothing. *)
Lemma load_loaded nb w :
  isLoaded w nb = true ->
  loadNotebookVectorIndex E nb w = (inr None, w, []).
Proof.
  unfold isLoaded, loadNotebookVectorIndex. intros H. run_monad.
  rewrite H. reflexivity.
Qed.

(** A notebook that is not loaded, when the listing succeeds. *)
Lemma load_first nb w :
  isLoaded w nb = false ->
  storageFault E (clock w) = None ->
  ∃ w' t,
    loadNotebookVectorIndex E nb w = (inr None, w', t)
    ∧ listings t = [(nb, inr (selectSources nb (tbl_sources w)))]
    ∧ ingestArgs t
      = map (λ s, (nb, Source.Name s, Source.Content s))
            (nonEmptySources (selectSources nb (tbl_sources w)))
    ∧ loadedNotebooks w' = <[nb := true]> (loadedNotebooks w)
    ∧ (∀ nb0, sweeps nb0 t = if String.eqb nb nb0 then 1 else 0)
    ∧ vectorStore w' = vectorStore w ++ indexed E t
    ∧ (∀ name content err,
         In (EvIngestText nb name content (inl err)) t ->
         In (EvLog (ErrLoadSource name err)) t).
Proof.
  unfold isLoaded, loadNotebookVectorIndex, ListSources. intros Hl Hf. run_monad.
  rewrite Hl, Hf. run_monad.
  match goal with
  | |- context [loadSources E nb ?srcs ?w0] =>
      destruct (loadSources_run nb srcs w0) as (w1 & t1 & Hrun & Hargs & Hvs & Hlog);
      pose proof (loadSources_Emits nb srcs w0) as Hev;
      pose proof (loadSources_Frame loadedNotebooks nb srcs
                    ltac:(reflexivity) ltac:(reflexivity) w0) as Hfl
  end.
  rewrite Hrun in *. unfold events_of, world_of in *. simpl in *.
  eexists _, _. split; [reflexivity|].
  unfold listings, ingestArgs, indexed, ingestCalls in *. simpl.
  rewrite !omap_app. simpl. rewrite !app_nil_r.
  fold (listings t1). rewrite (sweepEvent_listings t1 Hev).
  rewrite Hfl.
  repeat split; auto.
  { intros nb0. rewrite !sweeps_cons, sweeps_app, (sweepEvent_sweeps nb0 t1 Hev).
    unfold sweeps. simpl. destruct (String.eqb nb nb0); reflexivity. }
  intros name content err [Heq|[Heq|Hin]]; try discriminate.
  apply in_app_or in Hin. destruct Hin as [Hin|[Heq|[]]]; [|discriminate].
  right. right. apply in_or_app. left. eauto.
Qed.

(** A notebook that is not loaded, when the listing fails: the error is
    returned and the notebook stays as it was. *)
Lemma load_listing_fails nb w err :
  isLoaded w nb = false ->
  storageFault E (clock w) = Some err ->
  ∃ w' t,
    loadNotebookVectorIndex E nb w = (inr (Some ("failed to list sources: " +:+ err)), w', t)
    ∧ loadedNotebooks w' = loadedNotebooks w
    ∧ vectorStore w' = vectorStore w
    ∧ (∀ nb0, sweeps nb0 t = 0).
Proof.
  unfold isLoaded, loadNotebookVectorIndex, ListSources. intros Hl Hf. run_monad.
  rewrite Hl, Hf. run_monad. eexists _, _. split; [reflexivity|]. auto.
Qed.
End Loader.

(** * The handlers: what they leave alone *)

Ltac unfold_store :=
  unfold CachedStore_ListSources, CachedStore_ListNotes, CachedStore_GetSource,
    CachedStore_GetNotebook, CachedStore_DeleteSource, CachedStore_CreateSource,
    CachedStore_UpdateSourceChunkCount, CachedStore_CreateNote,
    CachedStore_LogActivity;
  unfold ListSources, ListNotes, GetSource, GetNotebook, DeleteSource,
    CreateSource, UpdateSourceChunkCount, CreateNote, LogActivity,
    agent_GenerateTransformation, provider_GenerateImage.

(** The only events of the slide loop: image generations and its log lines. *)
Definition slideEvent (ev : Event) : bool :=
  match ev with
  | EvGenerateImage _ _ _ _ => true
  | EvLog (InfoGeneratingSlide _ _) | EvLog (ErrSlide _ _) => true
  | _ => false
  end.

(** With respect to one notebook: a computation runs at most one sweep of
    it, none when it is loaded, and a sweep leaves it loaded; a loaded
    notebook stays loaded. *)
Definition SweepOK {A : Type} (nb : string) (m : M A) : Prop :=
  ∀ w,
    (isLoaded w nb = true ->
       sweeps nb (events_of (m w)) = 0 ∧ isLoaded (world_of (m w)) nb = true)
    ∧ sweeps nb (events_of (m w)) ≤ 1
    ∧ (sweeps nb (events_of (m w)) = 1 -> isLoaded (world_of (m w)) nb = true).

Section Handlers.
Variable E : Env.

Lemma generateSlides_Total user slides rest :
  ∀ i urls, Total (generateSlides E user slides i rest urls).
Proof.
  induction rest as [|slide rest IH]; intros i urls; simpl;
    unfold provider_GenerateImage; keeps.
Qed.

Lemma generateSlides_Frame {X : Type} (f : World -> X) user slides rest :
  (∀ n w, f (setClock n w) = f w) ->
  ∀ i urls, Frame f (generateSlides E user slides i rest urls).
Proof.
  intros Hc. induction rest as [|slide rest IH]; intros i urls; simpl;
    unfold provider_GenerateImage; keeps.
Qed.

Lemma generateSlides_Emits user slides rest :
  ∀ i urls, Emits slideEvent (generateSlides E user slides i rest urls).
Proof.
  induction rest as [|slide rest IH]; intros i urls; simpl;
    unfold provider_GenerateImage; keeps.
Qed.

Lemma Emits_weaken {A : Type} (P Q : Event -> bool) (m : M A) :
  (∀ ev, P ev = true -> Q ev = true) -> Emits P m -> Emits Q m.
Proof. intros HPQ Hm w. eapply forallb_weaken; [exact HPQ | apply Hm]. Qed.

Lemma generateSlides_notSweepEnd user slides rest i urls :
  Emits notSweepEnd (generateSlides E user slides i rest urls).
Proof.
  eapply Emits_weaken; [|apply generateSlides_Emits].
  intros [| | | | | | | | | | | |[]]; simpl; congruence.
Qed.

Lemma generateSlides_notTextCall user slides rest i urls :
  Emits notTextCall (generateSlides E user slides i rest urls).
Proof.
  eapply Emits_weaken; [|apply generateSlides_Emits].
  intros [| | | | | | | | | | | |[]]; simpl; congruence.
Qed.

#[local] Hint Resolve
  IngestText_Total IngestText_Frame IngestText_Emits
  generateSlides_Total generateSlides_Frame generateSlides_notSweepEnd
  generateSlides_notTextCall : keeps.

(** *** handleDeleteSource *)

Lemma handleDeleteSource_vectorStore c : Frame vectorStore (handleDeleteSource E c).
Proof. unfold handleDeleteSource, checkNotebookAccess. unfold_store. keeps. Qed.

Lemma handleDeleteSource_loadedNotebooks c :
  Frame loadedNotebooks (handleDeleteSource E c).
Proof. unfold handleDeleteSource, checkNotebookAccess. unfold_store. keeps. Qed.

Lemma handleDeleteSource_notSweepEnd c : Emits notSweepEnd (handleDeleteSource E c).
Proof. unfold handleDeleteSource, checkNotebookAccess. unfold_store. keeps. Qed.

(** *** handleTransform after the primary generation *)

Lemma transformFinish_loadedNotebooks c req response :
  Frame loadedNotebooks (transformFinish E c req response).
Proof. unfold transformFinish. unfold_store. keeps. Qed.

Lemma transformFinish_notSweepEnd c req response :
  Emits notSweepEnd (transformFinish E c req response).
Proof. unfold transformFinish. unfold_store. keeps. Qed.

Lemma transformFinish_notTextCall c req response :
  Emits notTextCall (transformFinish E c req response).
Proof. unfold transformFinish. unfold_store. keeps. Qed.

(** *** The index only grows *)

Lemma generateSlides_Grows user slides rest i urls :
  Grows (generateSlides E user slides i rest urls).
Proof. apply Grows_frame, generateSlides_Frame. reflexivity. Qed.

#[local] Hint Resolve IngestText_Grows generateSlides_Grows
  loadNotebookVectorIndex_Grows : keeps.

Lemma handleTransform_Grows c : Grows (handleTransform E c).
Proof.
  unfold handleTransform, transformSources, transformFinish. unfold_store. keeps.
Qed.

Lemma handle_Grows r w :
  ∃ suffix, vectorStore (handle E r w).1 = vectorStore w ++ suffix.
Proof.
  destruct r as [nb|c|c]; simpl; unfold serve.
  - pose proof (loadNotebookVectorIndex_Grows E nb w) as H. unfold world_of in H.
    destruct (loadNotebookVectorIndex E nb w) as [[r w'] t]. exact H.
  - pose proof (handleTransform_Grows c w) as H. unfold world_of in H.
    destruct (handleTransform E c w) as [[r w'] t]. exact H.
  - pose proof (Grows_frame _ (handleDeleteSource_vectorStore c) w) as H.
    unfold world_of in H.
    destruct (handleDeleteSource E c w) as [[r w'] t]. exact H.
Qed.

(** None of the three kinds of request removes a chunk: after any
    sequence of index loads, transformations and source deletions the
    index is the one before, followed by what was ingested since. *)
Lemma run_Grows rs :
  ∀ w, ∃ suffix, vectorStore (run E rs w).1 = vectorStore w ++ suffix.
Proof.
  induction rs as [|r rs IH]; intros w; simpl.
  - exists []. rewrite app_nil_r. reflexivity.
  - destruct (handle_Grows r w) as [s1 H1].
    destruct (handle E r w) as [w1 t1]. simpl in *.
    destruct (IH w1) as [s2 H2].
    destruct (run E rs w1) as [w2 t2]. simpl in *.
    exists (s1 ++ s2). rewrite H2, H1, app_assoc. reflexivity.
Qed.

(** *** Sweeps *)

Lemma SweepOK_quiet {A : Type} nb (m : M A) :
  Frame loadedNotebooks m -> Emits notSweepEnd m -> SweepOK nb m.
Proof.
  intros Hf He w. specialize (Hf w). specialize (He w).
  rewrite (sweeps_notSweepEnd nb _ He). unfold isLoaded. rewrite Hf.
  repeat split; auto; lia.
Qed.

Lemma SweepOK_bind_quiet {A B : Type} nb (m : M A) (k : A -> M B) :
  SweepOK nb m ->
  (∀ a, Frame loadedNotebooks (k a)) ->
  (∀ a, Emits notSweepEnd (k a)) ->
  SweepOK nb (m ≫= k).
Proof.
  intros Hm Hf He w. specialize (Hm w).
  unfold mbind, M_bind, bind, events_of, world_of in *.
  destruct (m w) as [[[r|a] w1] t1]; simpl in *; [exact Hm|].
  specialize (Hf a w1). specialize (He a w1).
  unfold events_of, world_of in *.
  destruct (k a w1) as [[b w2] t2]; simpl in *.
  rewrite sweeps_app, (sweeps_notSweepEnd nb _ He), Nat.add_0_r.
  unfold isLoaded in *. rewrite Hf. exact Hm.
Qed.

Lemma load_SweepOK nb nb' : SweepOK nb (loadNotebookVectorIndex E nb').
Proof.
  intros w. destruct (isLoaded w nb') eqn:Hl'.
  - rewrite (load_loaded E nb' w Hl'). unfold events_of, world_of, sweeps. simpl.
    repeat split; auto; lia.
  - destruct (storageFault E (clock w)) as [err|] eqn:Hf.
    + destruct (load_listing_fails E nb' w err Hl' Hf) as (w' & t & -> & Hld & _ & Hs).
      unfold events_of, world_of, isLoaded. simpl. rewrite Hs, Hld.
      repeat split; auto; lia.
    + destruct (load_first E nb' w Hl' Hf) as (w' & t & -> & _ & _ & Hld & Hs & _).
      unfold events_of, world_of, isLoaded in *. simpl. rewrite Hs, Hld.
      destruct (String.eqb nb' nb) eqn:Heq.
      * apply String.eqb_eq in Heq. subst nb'.
        rewrite lookup_insert_eq. simpl. rewrite Hl'.
        repeat split; auto; discriminate.
      * apply String.eqb_neq in Heq.
        rewrite lookup_insert_ne by exact Heq.
        repeat split; auto; lia.
Qed.

Lemma handleTransform_SweepOK nb c : SweepOK nb (handleTransform E c).
Proof.
  unfold handleTransform, transformSources.
  apply SweepOK_bind_quiet.
  - apply SweepOK_bind_quiet; [apply load_SweepOK| |]; intros err; unfold_store; keeps.
  - intros [req sources]. unfold_store. keeps. apply transformFinish_loadedNotebooks.
  - intros [req sources]. unfold_store. keeps. apply transformFinish_notSweepEnd.
Qed.

Lemma handle_sweeps nb r w :
  (isLoaded w nb = true ->
     sweeps nb (handle E r w).2 = 0 ∧ isLoaded (handle E r w).1 nb = true)
  ∧ sweeps nb (handle E r w).2 ≤ 1
  ∧ (sweeps nb (handle E r w).2 = 1 -> isLoaded (handle E r w).1 nb = true).
Proof.
  destruct r as [nb'|c|c]; simpl; unfold serve.
  - pose proof (load_SweepOK nb nb' w) as H. unfold events_of, world_of in H.
    destruct (loadNotebookVectorIndex E nb' w) as [[r w'] t]. exact H.
  - pose proof (handleTransform_SweepOK nb c w) as H. unfold events_of, world_of in H.
    destruct (handleTransform E c w) as [[r w'] t]. exact H.
  - pose proof (SweepOK_quiet nb _ (handleDeleteSource_loadedNotebooks c)
                  (handleDeleteSource_notSweepEnd c) w) as H.
    unfold events_of, world_of in H.
    destruct (handleDeleteSource E c w) as [[r w'] t]. exact H.
Qed.

(** Over any sequence of requests a notebook is swept at most once, and
    not at all once it is loaded; a loaded notebook stays loaded. *)
Lemma run_sweeps nb rs :
  ∀ w,
    (isLoaded w nb = true ->
       sweeps nb (run E rs w).2 = 0 ∧ isLoaded (run E rs w).1 nb = true)
    ∧ sweeps nb (run E rs w).2 ≤ 1.
Proof.
  induction rs as [|r rs IH]; intros w; simpl.
  - unfold sweeps. simpl. split; auto.
  - pose proof (handle_sweeps nb r w) as (H1 & H2 & H3).
    destruct (handle E r w) as [w1 t1]. simpl in *.
    pose proof (IH w1) as (I1 & I2).
    destruct (run E rs w1) as [w2 t2]. simpl in *.
    rewrite sweeps_app. split.
    + intros Hl. destruct (H1 Hl) as [-> Hl1]. destruct (I1 Hl1) as [-> Hl2]. auto.
    + destruct (decide (sweeps nb t1 = 1)) as [Heq|Hne].
      * destruct (I1 (H3 Heq)) as [-> _]. lia.
      * lia.
Qed.
End Handlers.

(** * Queries *)

Lemma insertDesc_In {A : Type} (key : A -> Z) (x y : A) (l : list A) :
  In y (insertDesc key x l) <-> y = x ∨ In y l.
Proof.
  induction l as [|z l IH]; simpl.
  - intuition.
  - destruct (key z <=? key x)%Z; simpl; [intuition|].
    rewrite IH. intuition.
Qed.

Lemma orderByCreatedAtDesc_In {A : Type} (key : A -> Z) (y : A) (l : list A) :
  In y (orderByCreatedAtDesc key l) <-> In y l.
Proof.
  unfold orderByCreatedAtDesc. induction l as [|x l IH]; simpl; [tauto|].
  rewrite insertDesc_In, IH. intuition.
Qed.

Lemma selectNotes_In (nb : string) (n : Note.t) (rows : list Note.t) :
  In n (selectNotes nb rows) <-> In n rows ∧ Note.NotebookID n = nb.
Proof.
  unfold selectNotes. rewrite orderByCreatedAtDesc_In, <- list_elem_of_In,
    list_elem_of_filter, list_elem_of_In. tauto.
Qed.

Lemma selectSources_In (nb : string) (s : Source.t) (rows : list Source.t) :
  In s (selectSources nb rows) <-> In s rows ∧ Source.NotebookID s = nb.
Proof.
  unfold selectSources. rewrite orderByCreatedAtDesc_In, <- list_elem_of_In,
    list_elem_of_filter, list_elem_of_In. tauto.
Qed.



(** * handleTransform, stage by stage *)

(** The metadata every transformation note starts from. *)
Definition baseMetadata (req : TransformationRequest.t) : gmap string MetaValue :=
  <["format" := MStr (TransformationRequest.Format req)]>
    (<["length" := MStr (TransformationRequest.Length req)]> ∅).


(** Case analysis on whatever the goal branches on. *)
Ltac destruct_innermost x :=
  lazymatch x with
  | context [match ?y with _ => _ end] => destruct_innermost y
  | _ => destruct x eqn:?
  end.

Ltac walk :=
  repeat (run_monad;
          match goal with
          | |- context [match ?x with _ => _ end] => destruct_innermost x
          end).

Section Transform.
Variable E : Env.

#[local] Hint Resolve
  IngestText_Total IngestText_Frame IngestText_Emits
  generateSlides_Total generateSlides_Frame generateSlides_Emits
  loadNotebookVectorIndex_Total loadNotebookVectorIndex_Frame : keeps.

Lemma loadNotebookVectorIndex_quiet nb : Emits quietEvent (loadNotebookVectorIndex E nb).
Proof.
  eapply Emits_weaken; [|apply loadNotebookVectorIndex_Emits].
  apply indexEvent_quiet.
Qed.

#[local] Hint Resolve loadNotebookVectorIndex_quiet : keeps.

Lemma transformSources_tbl_notes c : Frame tbl_notes (transformSources E c).
Proof. unfold transformSources. unfold_store. keeps. Qed.

Lemma transformSources_tbl_sources c : Frame tbl_sources (transformSources E c).
Proof. unfold transformSources. unfold_store. keeps. Qed.

Lemma transformSources_quiet c : Emits quietEvent (transformSources E c).
Proof. unfold transformSources. unfold_store. keeps. Qed.

(** What the first stage returns: an error response, or the decoded
    request with its source ids resolved and at least one source. *)
Lemma transformSources_result c w :
  match result_of (transformSources E c w) with
  | inl resp => ∃ status msg, resp = JSON status (ErrorResponse msg) ∧ status ≠ StatusOK
  | inr (req, sources) =>
      ∃ req0, Context.ShouldBindJSON c = inr req0
              ∧ TransformationRequest.Type_ req = TransformationRequest.Type_ req0
              ∧ TransformationRequest.Length req = TransformationRequest.Length req0
              ∧ TransformationRequest.Format req = TransformationRequest.Format req0
              ∧ sources ≠ []
  end.
Proof.
  unfold transformSources, result_of. run_monad.
  destruct (loadNotebookVectorIndex_Total E (Context.Param_id c) w) as [err Herr].
  unfold result_of in Herr.
  destruct (loadNotebookVectorIndex E (Context.Param_id c) w) as [[r0 w0] t0].
  simpl in Herr. subst r0.
  unfold_store. walk; simpl;
    try (eexists _, _; split; [reflexivity|discriminate]);
    try (eexists; repeat split; try reflexivity;
         intros Hnil; rewrite Hnil in *; simpl in *; discriminate).
Qed.

(** The three ways a transformation request goes: it stops before the
    primary generation, the primary generation fails, or it succeeds and
    the rest of the handler runs from the world [w1]. *)
Inductive TransformOutcome (c : Context.t) (w : World)
    (resp : Response) (w' : World) (t : list Event) : Prop :=
| StoppedEarly
    (Htext : textCalls t = [])
    (Himage : imageCalls t = [])
    (Hinserts : noteInserts t = [])
    (Hnotes : tbl_notes w' = tbl_notes w)
    (Hsources : tbl_sources w' = tbl_sources w)
    (Hresp : ∃ status msg, resp = JSON status (ErrorResponse msg) ∧ status ≠ StatusOK)
| GenerationFailed (req : TransformationRequest.t) (srcs : list Source.t) (err : string)
    (Htext : textCalls t = [(req, srcs, inl err)])
    (Himage : imageCalls t = [])
    (Hinserts : noteInserts t = [])
    (Hnotes : tbl_notes w' = tbl_notes w)
    (Hsources : tbl_sources w' = tbl_sources w)
    (Hresp : resp = JSON StatusInternalServerError
                      (ErrorResponse ("Generation failed: " +:+ err)))
| Generated (req0 req : TransformationRequest.t) (srcs : list Source.t)
    (response : TransformationResponse.t) (w1 : World) (t1 : list Event)
    (rf : Response + Response) (tf : list Event)
    (Hbind : Context.ShouldBindJSON c = inr req0)
    (Htype : TransformationRequest.Type_ req = TransformationRequest.Type_ req0)
    (Hlength : TransformationRequest.Length req = TransformationRequest.Length req0)
    (Hformat : TransformationRequest.Format req = TransformationRequest.Format req0)
    (Hquiet : forallb quietEvent t1 = true)
    (Hnotes : tbl_notes w1 = tbl_notes w)
    (Hsources : tbl_sources w1 = tbl_sources w)
    (Hfinish : transformFinish E c req response w1 = (rf, w', tf))
    (Hevents : t = t1 ++ EvGenerateTransformation req srcs (inr response) :: tf)
    (Htext : textCalls t = [(req, srcs, inr response)])
    (Hresp : resp = match rf with inl r => r | inr r => r end).

Lemma handleTransform_outcome c w :
  TransformOutcome c w
    (serve (handleTransform E c) w).1.1
    (serve (handleTransform E c) w).1.2
    (serve (handleTransform E c) w).2.
Proof.
  pose proof (transformSources_result c w) as Hres.
  pose proof (transformSources_quiet c w) as Hq.
  pose proof (transformSources_tbl_notes c w) as Hn.
  pose proof (transformSources_tbl_sources c w) as Hs.
  unfold serve, handleTransform, result_of, events_of, world_of in *. run_monad.
  destruct (transformSources E c w) as [[[resp|[req srcs]] w0] t0]; simpl in *.
  - apply StoppedEarly; auto using quiet_no_textCalls, quiet_no_imageCalls,
      quiet_no_noteInserts.
  - destruct Hres as (req0 & Hbind & Hty & Hlen & Hfmt & Hne).
    unfold agent_GenerateTransformation. run_monad.
    destruct (GenerateTransformation E (clock w0) req srcs) as [err|response] eqn:Hgen;
      run_monad.
    + apply GenerationFailed with (req := req) (srcs := srcs) (err := err); auto.
      * unfold textCalls. rewrite omap_app. fold (textCalls t0).
        rewrite (quiet_no_textCalls _ Hq). reflexivity.
      * unfold imageCalls. rewrite omap_app. fold (imageCalls t0).
        rewrite (quiet_no_imageCalls _ Hq). reflexivity.
      * unfold noteInserts. rewrite omap_app. fold (noteInserts t0).
        rewrite (quiet_no_noteInserts _ Hq). reflexivity.
    + pose proof (transformFinish_notTextCall E c req response
                    (setClock (S (clock w0)) w0)) as Hnt.
      unfold events_of in Hnt.
      destruct (transformFinish E c req response (setClock (S (clock w0)) w0))
        as [[rf wf] tf] eqn:Hfin.
      simpl in *.
      eapply Generated with (req0 := req0) (req := req) (srcs := srcs)
        (response := response) (w1 := setClock (S (clock w0)) w0) (t1 := t0)
        (rf := rf) (tf := tf); eauto.
      unfold textCalls. rewrite omap_app. fold (textCalls t0).
      rewrite (quiet_no_textCalls _ Hq). simpl. f_equal.
      apply (omap_none_forallb _ notTextCall); [|exact Hnt].
      intros []; simpl; congruence.
Qed.

(** *** The rest of the handler, type by type *)

Lemma getTitleForType_infograph : getTitleForType "infograph" = "信息图".
Proof. reflexivity. Qed.

Lemma getTitleForType_ppt : getTitleForType "ppt" = "幻灯片".
Proof. reflexivity. Qed.


(** An infographic: one image call; the note carries the image or the
    error in its metadata, and no text. *)
Lemma transformFinish_infograph c req response w :
  TransformationRequest.Type_ req = "infograph" ->
  let prompt := TransformationResponse.Content response +:+ nl +:+ nl +:+ chineseNote in
  let r := GenerateImage E (clock w) imageModel prompt (Context.user_id c) in
  let tn := S (clock w) in
  let note :=
    Note.mk (newUUID E tn) (Context.Param_id c) "信息图" "" "infograph"
      (TransformationRequest.SourceIDs req) (timeNow E tn) (timeNow E tn)
      (match r with
       | inl err => <["image_error" := MStr err]> (baseMetadata req)
       | inr imagePath => <["image_url" := MStr (webPath imagePath)]> (baseMetadata req)
       end) in
  ∃ rf w' tf,
    transformFinish E c req response w = (rf, w', tf)
    ∧ imageCalls tf = [(imageModel, prompt, Context.user_id c, r)]
    ∧ noteInserts tf = [(note, storageFault E tn)]
    ∧ match storageFault E tn with
      | None => rf = inr (JSON StatusOK (NoteBody note))
                ∧ tbl_notes w' = tbl_notes w ++ [note]
      | Some _ => rf = inl (JSON StatusInternalServerError
                              (ErrorResponse "Failed to save note"))
                  ∧ tbl_notes w' = tbl_notes w
      end.
Proof.
  intros Hty. cbv zeta. unfold transformFinish. unfold_store.
  rewrite !Hty, getTitleForType_infograph.
  change (String.eqb "infograph" "infograph") with true.
  change (String.eqb "infograph" "ppt") with false.
  change (String.eqb "infograph" "insight") with false.
  cbv iota.
  walk; (eexists _, _, _; split; [reflexivity|]); simpl; auto.
Qed.

(** A note of the requested type is already there and duplicates are not
    allowed: the first stage answers with the conflict. *)
Lemma transformSources_conflict c w req note :
  AllowMultipleNotesOfSameType E = false ->
  StorageDurable E ->
  Context.ShouldBindJSON c = inr req ->
  In note (tbl_notes w) ->
  Note.NotebookID note = Context.Param_id c ->
  Note.Type_ note = TransformationRequest.Type_ req ->
  result_of (transformSources E c w)
  = inl (JSON StatusConflict
           (ErrorResponse "该笔记本已存在相同类型的笔记，不允许创建重复类型")).
Proof.
  intros Hallow Hdur Hbind Hin Hnb Hty.
  unfold transformSources, result_of. run_monad.
  destruct (loadNotebookVectorIndex_Total E (Context.Param_id c) w) as [err Herr].
  pose proof (loadNotebookVectorIndex_Frame E tbl_notes (Context.Param_id c)
                ltac:(reflexivity) ltac:(reflexivity) ltac:(reflexivity) w) as Hfr.
  unfold result_of, world_of in *.
  destruct (loadNotebookVectorIndex E (Context.Param_id c) w) as [[r0 w0] t0].
  simpl in *. subst r0.
  rewrite Hbind, Hallow. unfold_store.
  assert (Hex : existsb (λ n, String.eqb (Note.Type_ n) (TransformationRequest.Type_ req))
                  (selectNotes (Context.Param_id c) (tbl_notes w0)) = true).
  { apply existsb_exists. exists note. split.
    - apply selectNotes_In. rewrite Hfr. auto.
    - apply String.eqb_eq, Hty. }
  destruct err; run_monad; rewrite !Hdur; run_monad; rewrite Hex; reflexivity.
Qed.
End Transform.

(** * A small server to run the handlers on *)

Definition never : nat -> option string := λ _, None.

Definition demoEnv (allow : bool) (storage ingest : nat -> option string)
    (text : Result TransformationResponse.t) (image : nat -> Result string)
    (slides : list Slide.t) : Env :=
  {| AllowMultipleNotesOfSameType := allow;
     ChunkSize := 4;
     ChunkOverlap := 1;
     storageFault := storage;
     ingestFault := ingest;
     GenerateTransformation := λ _ _ _, text;
     GenerateImage := λ t _ _ _, image t;
     ParsePPTSlides := λ _, slides;
     newUUID := λ t, "id-" +:+ pretty t;
     timeNow := λ t, Z.of_nat (100 + t) |}.

Definition demoSource : Source.t :=
  Source.mk "s1" "nb" "doc" "text" "" "abcdefghij" "" 10 0 5 5 ∅.
Definition blankSource : Source.t :=
  Source.mk "s2" "nb" "blank" "text" "" "" "" 0 0 6 6 ∅.
Definition otherSource : Source.t :=
  Source.mk "s3" "nb" "more" "text" "" "xyz" "" 3 0 7 7 ∅.

(** A fresh server over a database with one notebook and three sources,
    one of them without content. *)
Definition demoWorld : World :=
  mkWorld ∅ [] [Notebook.mk "nb" "u" "N"] [demoSource; blankSource; otherSource] [] [] 0.

Definition demoRequest (type : string) : TransformationRequest.t :=
  TransformationRequest.mk type "" [] "medium" "markdown".

Definition demoContext (type : string) : Context.t :=
  Context.mk "nb" "s1" "u" "10.0.0.1" "ua" (inr (demoRequest type)).

Definition demoText : Result TransformationResponse.t :=
  inr (TransformationResponse.mk "TEXT").

(** Once a notebook is loaded, any number of loader calls for it, one
    after the other, do nothing. *)
Lemma run_loads_loaded (E : Env) (nb : string) (n : nat) (w : World) :
  isLoaded w nb = true ->
  run E (repeat (ReqLoadIndex nb) n) w = (w, []).
Proof.
  intros Hl. induction n as [|n IH]; simpl; [reflexivity|].
  rewrite (load_loaded E nb w Hl), IH. reflexivity.
Qed.

(** * The index lifecycle *)

(** C1. The index load is lazy and happens once per notebook.  With the
    storage collaborator durable, the first call for a notebook lists its
    sources, hands every source with content to the ingestion pipeline,
    in order, and marks the notebook loaded.  Once a notebook is loaded,
    whatever requests the server has processed since, a call returns no
    error at once: no listing, no ingestion, the world untouched.  And
    over any sequence of requests (the mutex makes concurrent loader calls
    such a sequence) a notebook is swept at most once; in particular any
    number of calls for a notebook that is not loaded hand the ingestion
    pipeline the sources of one sweep, once each. *)
Theorem index_load_exactly_once (E : Env) (notebookID : string) :
  (∀ w, StorageDurable E -> isLoaded w notebookID = false ->
     ∃ w' t,
       loadNotebookVectorIndex E notebookID w = (inr None, w', t)
       ∧ listings t = [(notebookID, inr (selectSources notebookID (tbl_sources w)))]
       ∧ ingestArgs t
         = map (λ s, (notebookID, Source.Name s, Source.Content s))
               (nonEmptySources (selectSources notebookID (tbl_sources w)))
       ∧ isLoaded w' notebookID = true
       ∧ sweeps notebookID t = 1)
  ∧ (∀ w rs, isLoaded w notebookID = true ->
       let w' := (run E rs w).1 in
       loadNotebookVectorIndex E notebookID w' = (inr None, w', [])
       ∧ sweeps notebookID (run E rs w).2 = 0)
  ∧ (∀ w rs, sweeps notebookID (run E rs w).2 ≤ 1)
  ∧ (∀ w n, StorageDurable E -> isLoaded w notebookID = false ->
       ingestArgs (run E (repeat (ReqLoadIndex notebookID) (S n)) w).2
       = map (λ s, (notebookID, Source.Name s, Source.Content s))
             (nonEmptySources (selectSources notebookID (tbl_sources w)))).
Proof.
  split; [|split; [|split]].
  - intros w Hdur Hl.
    destruct (load_first E notebookID w Hl (Hdur _))
      as (w' & t & Hrun & Hlist & Hargs & Hld & Hs & _).
    exists w', t. repeat split; auto.
    + unfold isLoaded. rewrite Hld, lookup_insert_eq. reflexivity.
    + rewrite Hs, String.eqb_refl. reflexivity.
  - intros w rs Hl. cbv zeta.
    destruct (run_sweeps E notebookID rs w) as [H _].
    destruct (H Hl) as [Hs Hl']. split; [|exact Hs].
    apply load_loaded, Hl'.
  - intros w rs. apply run_sweeps.
  - intros w n Hdur Hl.
    destruct (load_first E notebookID w Hl (Hdur _))
      as (w' & t & Hrun & _ & Hargs & Hld & _).
    simpl. rewrite Hrun, run_loads_loaded.
    + simpl. rewrite app_nil_r. exact Hargs.
    + unfold isLoaded. rewrite Hld, lookup_insert_eq. reflexivity.
Qed.

Lemma index_load_exactly_once_witness :
  let E := demoEnv true never never demoText (λ _, inr "/img.png") [] in
  StorageDurable E ∧ isLoaded demoWorld "nb" = false
  ∧ ∃ w' t,
      loadNotebookVectorIndex E "nb" demoWorld = (inr None, w', t)
      ∧ listings t = [("nb", inr (selectSources "nb" (tbl_sources demoWorld)))]
      ∧ ingestArgs t
        = map (λ s, ("nb", Source.Name s, Source.Content s))
              (nonEmptySources (selectSources "nb" (tbl_sources demoWorld)))
      ∧ isLoaded w' "nb" = true
      ∧ sweeps "nb" t = 1.
Proof.
  intros E.
  assert (Hdur : StorageDurable E) by (intros t; reflexivity).
  assert (Hl : isLoaded demoWorld "nb" = false) by reflexivity.
  split; [exact Hdur|]. split; [exact Hl|].
  exact (proj1 (index_load_exactly_once E "nb") demoWorld Hdur Hl).
Defined.

(** The sweep of the small server: both sources with content are
    ingested, newest first, and a second call does nothing. *)
Example index_load_demo :
  let E := demoEnv true never never demoText (λ _, inr "/img.png") [] in
  let '(w1, t1) := handle E (ReqLoadIndex "nb") demoWorld in
  let '(w2, t2) := handle E (ReqLoadIndex "nb") w1 in
  ingestArgs t1 = [("nb", "more", "xyz"); ("nb", "doc", "abcdefghij")]
  ∧ map Chunk.Text (vectorStore w1) = ["xyz"; "abcd"; "defg"; "ghij"]
  ∧ t2 = [] ∧ w2 = w1.
Proof. vm_compute. repeat split; reflexivity. Qed.

(** C7. A source whose ingestion fails does not stop the sweep.  When the
    listing succeeds, the loader returns no error whatever the ingestion
    pipeline answers: every source with content is still handed to it, in
    order; each failure leaves a log line and nothing else; the notebook
    is marked loaded; and the index has gained exactly the chunks of the
    ingestions that succeeded, so those of a failed source are missing
    from a notebook that counts as loaded. *)
Theorem ingestion_failure_only_logged (E : Env) (notebookID : string) (w : World) :
  isLoaded w notebookID = false ->
  storageFault E (clock w) = None ->
  ∃ w' t,
    loadNotebookVectorIndex E notebookID w = (inr None, w', t)
    ∧ ingestArgs t
      = map (λ s, (notebookID, Source.Name s, Source.Content s))
            (nonEmptySources (selectSources notebookID (tbl_sources w)))
    ∧ (∀ name content err,
         In (EvIngestText notebookID name content (inl err)) t ->
         In (EvLog (ErrLoadSource name err)) t)
    ∧ isLoaded w' notebookID = true
    ∧ vectorStore w' = vectorStore w ++ indexed E t.
Proof.
  intros Hl Hf.
  destruct (load_first E notebookID w Hl Hf)
    as (w' & t & Hrun & _ & Hargs & Hld & _ & Hvs & Hlog).
  exists w', t. repeat split; auto.
  unfold isLoaded. rewrite Hld, lookup_insert_eq. reflexivity.
Qed.

(** The ingestion backend is down for the second call the server makes
    (the first ingestion) and up again afterwards. *)
Definition flakyEnv : Env :=
  demoEnv true never (λ t, if (t =? 1)%nat then Some "embedding backend down" else None)
    demoText (λ _, inr "/img.png") [].

Lemma ingestion_failure_only_logged_witness :
  isLoaded demoWorld "nb" = false
  ∧ storageFault flakyEnv (clock demoWorld) = None
  ∧ ∃ w' t,
      loadNotebookVectorIndex flakyEnv "nb" demoWorld = (inr None, w', t)
      ∧ ingestArgs t
        = map (λ s, ("nb", Source.Name s, Source.Content s))
              (nonEmptySources (selectSources "nb" (tbl_sources demoWorld)))
      ∧ (∀ name content err,
           In (EvIngestText "nb" name content (inl err)) t ->
           In (EvLog (ErrLoadSource name err)) t)
      ∧ isLoaded w' "nb" = true
      ∧ vectorStore w' = vectorStore demoWorld ++ indexed flakyEnv t.
Proof.
  split; [reflexivity|]. split; [reflexivity|].
  apply (ingestion_failure_only_logged flakyEnv "nb" demoWorld); reflexivity.
Defined.

(** On that server the source "more" fails to ingest: the call reports
    nothing, the notebook is loaded, the failure is in the log, and the
    index holds the chunks of "doc" only. *)
Example incomplete_index_demo :
  let '(r, w', t) := loadNotebookVectorIndex flakyEnv "nb" demoWorld in
  r = inr None
  ∧ isLoaded w' "nb" = true
  ∧ In (EvLog (ErrLoadSource "more" "embedding backend down")) t
  ∧ map Chunk.SourceName (vectorStore w') = ["doc"; "doc"; "doc"].
Proof. vm_compute. repeat split; auto. Qed.

(** The chunks of the index that carry the tags of a source. *)
Definition chunksOfSource (notebookID name : string) (index : list Chunk.t) : list Chunk.t :=
  filter (λ ch, Chunk.NotebookID ch = notebookID ∧ Chunk.SourceName ch = name) index.

(** The calls of the deletion handler: the lookup of the source, the
    lookup of its notebook, and the deletion of the row. *)
Definition deleteSourceCall (ev : Event) : bool :=
  match ev with
  | EvGetSource _ _ | EvGetNotebook _ _ | EvDeleteSource _ _ => true
  | _ => false
  end.

(** C8, as the code has it.  Deleting a source removes its row from the
    sources table and nothing from the vector index.  Every call of the
    handler is a call of the storage collaborator (the lookup of the
    source, the lookup of its notebook, the deletion of the row), none is
    a call of the vector store; the index after the request is the index
    before it, so the chunks that carry the tags of the deleted source
    are all still there; and the notebook's loaded flag is not reset.
    The sources table has lost the row when the request is answered with
    the bare status, and is as it was when it is answered with an
    error. *)
Theorem delete_source_leaves_index (E : Env) (c : Context.t) (w : World) :
  let out := serve (handleDeleteSource E c) w in
  forallb deleteSourceCall (callsOf out) = true
  ∧ ingestCalls (callsOf out) = []
  ∧ vectorStore (worldAfter out) = vectorStore w
  ∧ (∀ notebookID name,
       chunksOfSource notebookID name (vectorStore (worldAfter out))
       = chunksOfSource notebookID name (vectorStore w))
  ∧ loadedNotebooks (worldAfter out) = loadedNotebooks w
  ∧ match (answerOf out) with
    | Status _ =>
        tbl_sources (worldAfter out)
        = filter (λ s, Source.ID s ≠ Context.Param_sourceId c) (tbl_sources w)
    | JSON _ _ => tbl_sources (worldAfter out) = tbl_sources w
    end.
Proof.
  cbv zeta.
  pose proof (handleDeleteSource_vectorStore E c w) as Hv.
  pose proof (handleDeleteSource_loadedNotebooks E c w) as Hl.
  assert (He : Emits deleteSourceCall (handleDeleteSource E c)).
  { unfold handleDeleteSource, checkNotebookAccess. unfold_store. keeps. }
  specialize (He w).
  unfold world_of, events_of, serve in *.
  split; [|split; [|split; [|split; [|split]]]].
  - destruct (handleDeleteSource E c w) as [[r w'] t]. exact He.
  - destruct (handleDeleteSource E c w) as [[r w'] t]. simpl in *.
    revert He. apply omap_none_forallb. intros []; simpl; congruence.
  - destruct (handleDeleteSource E c w) as [[r w'] t]. exact Hv.
  - intros notebookID name.
    destruct (handleDeleteSource E c w) as [[r w'] t]. simpl in *.
    rewrite Hv. reflexivity.
  - destruct (handleDeleteSource E c w) as [[r w'] t]. exact Hl.
  - unfold handleDeleteSource, checkNotebookAccess. unfold_store.
    walk; simpl; reflexivity.
Qed.

(** The small server after its index was loaded. *)
Definition reliableEnv : Env :=
  demoEnv true never never demoText (λ _, inr "/img.png") [].

Definition loadedWorld : World := (handle reliableEnv (ReqLoadIndex "nb") demoWorld).1.

(** C8 as stated fails: on the loaded server, deleting the source "doc"
    succeeds and removes its row, and its three chunks are still in the
    notebook's index. *)
Lemma chunks_outlive_source_counterexample :
  let out := serve (handleDeleteSource reliableEnv (demoContext "summary")) loadedWorld in
  (answerOf out) = Status StatusNoContent
  ∧ In demoSource (tbl_sources loadedWorld)
  ∧ ¬ In demoSource (tbl_sources (worldAfter out))
  ∧ map Chunk.Text (chunksOfSource "nb" "doc" (vectorStore (worldAfter out)))
    = ["abcd"; "defg"; "ghij"].
Proof.
  vm_compute. repeat split; auto.
  intros [H|[H|[]]]; discriminate.
Qed.

(** * Transformations: validation and primary generation *)

(** C2. When duplicates of a type are not allowed and the notebook already
    holds a note of the requested type, the request is answered with the
    conflict error: no text and no image is generated, no note is
    inserted, the notes table is as it was.  The storage collaborator is
    taken as durable, as the spec does. *)
Theorem duplicate_type_conflict (E : Env) (c : Context.t) (w : World)
    (req : TransformationRequest.t) (note : Note.t) :
  AllowMultipleNotesOfSameType E = false ->
  StorageDurable E ->
  Context.ShouldBindJSON c = inr req ->
  In note (tbl_notes w) ->
  Note.NotebookID note = Context.Param_id c ->
  Note.Type_ note = TransformationRequest.Type_ req ->
  let out := serve (handleTransform E c) w in
  (answerOf out) = JSON StatusConflict
              (ErrorResponse "该笔记本已存在相同类型的笔记，不允许创建重复类型")
  ∧ textCalls (callsOf out) = []
  ∧ imageCalls (callsOf out) = []
  ∧ noteInserts (callsOf out) = []
  ∧ tbl_notes (worldAfter out) = tbl_notes w.
Proof.
  intros Hallow Hdur Hbind Hin Hnb Hty. cbv zeta.
  pose proof (transformSources_conflict E c w req note Hallow Hdur Hbind Hin Hnb Hty) as Hc.
  pose proof (transformSources_quiet E c w) as Hq.
  pose proof (transformSources_tbl_notes E c w) as Hn.
  unfold serve, handleTransform, result_of, events_of, world_of in *. run_monad.
  destruct (transformSources E c w) as [[r0 w0] t0]. simpl in *. subst r0. simpl.
  repeat split;
    auto using quiet_no_textCalls, quiet_no_imageCalls, quiet_no_noteInserts.
Qed.

Definition summaryNote : Note.t :=
  Note.mk "n1" "nb" "摘要" "an earlier summary" "summary" ["s1"] 50 50 ∅.

(** The small server, its index loaded, with a summary note in the
    notebook and duplicates not allowed. *)
Definition strictEnv : Env :=
  demoEnv false never never demoText (λ _, inr "/img.png") [].

Definition worldWithSummary : World := setNotes [summaryNote] loadedWorld.

Lemma duplicate_type_conflict_witness :
  let out := serve (handleTransform strictEnv (demoContext "summary")) worldWithSummary in
  (AllowMultipleNotesOfSameType strictEnv = false
   ∧ StorageDurable strictEnv
   ∧ Context.ShouldBindJSON (demoContext "summary") = inr (demoRequest "summary")
   ∧ In summaryNote (tbl_notes worldWithSummary))
  ∧ (answerOf out) = JSON StatusConflict
                (ErrorResponse "该笔记本已存在相同类型的笔记，不允许创建重复类型")
  ∧ textCalls (callsOf out) = []
  ∧ imageCalls (callsOf out) = []
  ∧ noteInserts (callsOf out) = []
  ∧ tbl_notes (worldAfter out) = tbl_notes worldWithSummary.
Proof.
  assert (Hdur : StorageDurable strictEnv) by (intros t; reflexivity).
  assert (Hin : In summaryNote (tbl_notes worldWithSummary)) by (left; reflexivity).
  split; [repeat split; auto|].
  exact (duplicate_type_conflict strictEnv (demoContext "summary") worldWithSummary
           (demoRequest "summary") summaryNote eq_refl Hdur eq_refl Hin eq_refl eq_refl).
Defined.

(** C3. When the primary text generation fails, the request ends there:
    the caller gets the generation error, no note is inserted and the
    notes table is as it was. *)
Theorem generation_failure_is_fatal (E : Env) (c : Context.t) (w : World)
    (req : TransformationRequest.t) (srcs : list Source.t) (err : string) :
  let out := serve (handleTransform E c) w in
  In (req, srcs, inl err) (textCalls (callsOf out)) ->
  (answerOf out) = JSON StatusInternalServerError
              (ErrorResponse ("Generation failed: " +:+ err))
  ∧ noteInserts (callsOf out) = []
  ∧ imageCalls (callsOf out) = []
  ∧ tbl_notes (worldAfter out) = tbl_notes w
  ∧ tbl_sources (worldAfter out) = tbl_sources w.
Proof.
  cbv zeta. intros Hin.
  destruct (handleTransform_outcome E c w).
  - rewrite Htext in Hin. destruct Hin.
  - rewrite Htext in Hin. destruct Hin as [Heq|[]].
    injection Heq as _ _ <-. auto.
  - rewrite Htext in Hin. destruct Hin as [Heq|[]]. discriminate.
Qed.

Definition failingTextEnv : Env :=
  demoEnv true never never (inl "model overloaded") (λ _, inr "/img.png") [].

Lemma generation_failure_is_fatal_witness :
  let out := serve (handleTransform failingTextEnv (demoContext "summary")) demoWorld in
  In (TransformationRequest.setSourceIDs ["s3"; "s2"; "s1"] (demoRequest "summary"),
      [otherSource; blankSource; demoSource], inl "model overloaded")
     (textCalls (callsOf out))
  ∧ (answerOf out) = JSON StatusInternalServerError
                (ErrorResponse "Generation failed: model overloaded")
  ∧ noteInserts (callsOf out) = []
  ∧ imageCalls (callsOf out) = []
  ∧ tbl_notes (worldAfter out) = tbl_notes demoWorld
  ∧ tbl_sources (worldAfter out) = tbl_sources demoWorld.
Proof.
  assert (Hin : In (TransformationRequest.setSourceIDs ["s3"; "s2"; "s1"]
                      (demoRequest "summary"),
                    [otherSource; blankSource; demoSource], inl "model overloaded")
                   (textCalls (serve (handleTransform failingTextEnv
                                        (demoContext "summary")) demoWorld).2))
    by (vm_compute; left; reflexivity).
  split; [exact Hin|].
  exact (generation_failure_is_fatal failingTextEnv (demoContext "summary") demoWorld
           _ _ _ Hin).
Defined.

(** * Infographics *)

(** The calls of a request whose primary generation succeeded: those of
    the first stage are neither image calls nor note insertions. *)
Lemma generated_calls (t1 tf : list Event) req srcs (r : Result TransformationResponse.t) :
  forallb quietEvent t1 = true ->
  imageCalls (t1 ++ EvGenerateTransformation req srcs r :: tf) = imageCalls tf
  ∧ noteInserts (t1 ++ EvGenerateTransformation req srcs r :: tf) = noteInserts tf.
Proof.
  intros Hq. unfold imageCalls, noteInserts. rewrite !omap_app. simpl.
  fold (imageCalls t1). fold (noteInserts t1).
  rewrite (quiet_no_imageCalls _ Hq), (quiet_no_noteInserts _ Hq). auto.
Qed.

Lemma baseMetadata_ext (req req0 : TransformationRequest.t) :
  TransformationRequest.Length req = TransformationRequest.Length req0 ->
  TransformationRequest.Format req = TransformationRequest.Format req0 ->
  baseMetadata req = baseMetadata req0.
Proof. unfold baseMetadata. intros -> ->. reflexivity. Qed.

Lemma baseMetadata_lookup (req : TransformationRequest.t) (k : string) :
  k ≠ "format" -> k ≠ "length" -> baseMetadata req !! k = None.
Proof.
  intros H1 H2. unfold baseMetadata.
  rewrite !lookup_insert_ne by done. apply lookup_empty.
Qed.

(** C10. A persisted infographic note has no text, whether the image was
    generated or not.  The one image call has the generated text in its
    prompt; the note has the fixed title, the empty content, and as
    metadata the length and format of the request plus either the URL of
    the image or the error of the image call. *)
Theorem infograph_note_has_no_text (E : Env) (c : Context.t) (w : World)
    (req : TransformationRequest.t) (note : Note.t) :
  Context.ShouldBindJSON c = inr req ->
  TransformationRequest.Type_ req = "infograph" ->
  let out := serve (handleTransform E c) w in
  In (note, None) (noteInserts (callsOf out)) ->
  ∃ rq srcs response r,
    textCalls (callsOf out) = [(rq, srcs, inr response)]
    ∧ imageCalls (callsOf out)
      = [(imageModel,
          TransformationResponse.Content response +:+ nl +:+ nl +:+ chineseNote,
          Context.user_id c, r)]
    ∧ (answerOf out) = JSON StatusOK (NoteBody note)
    ∧ tbl_notes (worldAfter out) = tbl_notes w ++ [note]
    ∧ Note.Content note = ""
    ∧ Note.Title note = "信息图"
    ∧ Note.Metadata note
      = match r with
        | inl err => <["image_error" := MStr err]> (baseMetadata req)
        | inr imagePath => <["image_url" := MStr (webPath imagePath)]> (baseMetadata req)
        end
    ∧ match r with
      | inl err => Note.Metadata note !! "image_error" = Some (MStr err)
                   ∧ Note.Metadata note !! "image_url" = None
      | inr imagePath =>
          Note.Metadata note !! "image_url" = Some (MStr (webPath imagePath))
          ∧ Note.Metadata note !! "image_error" = None
      end.
Proof.
  intros Hbind Hty. cbv zeta. intros Hin.
  destruct (handleTransform_outcome E c w)
    as [Htext Himage Hinserts Hnotes Hsources Hresp
       |rq srcs e Htext Himage Hinserts Hnotes Hsources Hresp
       |req0 rq srcs response w1 t1 rf tf Hbind0 Htype Hlength Hformat Hquiet
          Hnotes Hsources Hfinish Hevents Htext Hresp].
  - rewrite Hinserts in Hin. destruct Hin.
  - rewrite Hinserts in Hin. destruct Hin.
  - rewrite Hbind in Hbind0. injection Hbind0 as <-.
    rewrite <- Htype in Hty.
    destruct (transformFinish_infograph E c rq response w1 Hty)
      as (rf' & w'' & tf' & Hrun & Himg & Hins & Hpersist).
    rewrite Hfinish in Hrun. injection Hrun as <- <- <-.
    destruct (generated_calls t1 tf rq srcs (inr response) Hquiet) as [Hi Hn].
    rewrite Hevents, Hn, Hins in Hin. rewrite Hevents, Hi, Himg, <- Hevents.
    destruct Hin as [Heq|[]]. injection Heq as Hnote Hfault.
    rewrite Hfault in Hpersist. destruct Hpersist as [Hrf Htbl].
    rewrite (baseMetadata_ext rq req Hlength Hformat) in *.
    subst note rf.
    eexists rq, srcs, response, _.
    split; [exact Htext|]. split; [reflexivity|].
    split; [exact Hresp|].
    split; [rewrite Htbl, Hnotes; reflexivity|].
    simpl. repeat split.
    destruct (GenerateImage E (clock w1) imageModel _ (Context.user_id c)).
    + rewrite lookup_insert_eq, lookup_insert_ne by done.
      split; [reflexivity|]. apply baseMetadata_lookup; done.
    + rewrite lookup_insert_eq, lookup_insert_ne by done.
      split; [reflexivity|]. apply baseMetadata_lookup; done.
Qed.

Definition infographNote : Note.t :=
  Note.mk "id-6" "nb" "信息图" "" "infograph" ["s3"; "s2"; "s1"] 106 106
    (<["image_url" := MStr "/api/files/img.png"]> (baseMetadata (demoRequest "infograph"))).

Lemma infograph_note_has_no_text_witness :
  let c := demoContext "infograph" in
  let out := serve (handleTransform reliableEnv c) demoWorld in
  In (infographNote, None) (noteInserts (callsOf out))
  ∧ ∃ rq srcs response r,
      textCalls (callsOf out) = [(rq, srcs, inr response)]
      ∧ imageCalls (callsOf out)
        = [(imageModel,
            TransformationResponse.Content response +:+ nl +:+ nl +:+ chineseNote,
            Context.user_id c, r)]
      ∧ (answerOf out) = JSON StatusOK (NoteBody infographNote)
      ∧ tbl_notes (worldAfter out) = tbl_notes demoWorld ++ [infographNote]
      ∧ Note.Content infographNote = ""
      ∧ Note.Title infographNote = "信息图"
      ∧ Note.Metadata infographNote
        = match r with
          | inl err => <["image_error" := MStr err]> (baseMetadata (demoRequest "infograph"))
          | inr imagePath =>
              <["image_url" := MStr (webPath imagePath)]> (baseMetadata (demoRequest "infograph"))
          end
      ∧ match r with
        | inl err => Note.Metadata infographNote !! "image_error" = Some (MStr err)
                     ∧ Note.Metadata infographNote !! "image_url" = None
        | inr imagePath =>
            Note.Metadata infographNote !! "image_url" = Some (MStr (webPath imagePath))
            ∧ Note.Metadata infographNote !! "image_error" = None
        end.
Proof.
  assert (Hin : In (infographNote, None)
                  (noteInserts (serve (handleTransform reliableEnv (demoContext "infograph"))
                                  demoWorld).2))
    by (vm_compute; left; reflexivity).
  split; [exact Hin|].
  exact (infograph_note_has_no_text reliableEnv (demoContext "infograph") demoWorld
           (demoRequest "infograph") infographNote eq_refl eq_refl Hin).
Defined.

(** C4. An infographic whose image call fails still succeeds: the primary
    generation had succeeded, the response is the 200 with the note, the
    note is inserted, its content is empty and its metadata carries the
    error string under [image_error] and no image URL.  The storage
    collaborator is taken as durable, as the spec does. *)
Theorem infograph_image_failure_is_recorded (E : Env) (c : Context.t) (w : World)
    (req : TransformationRequest.t) (model prompt user err : string) :
  StorageDurable E ->
  Context.ShouldBindJSON c = inr req ->
  TransformationRequest.Type_ req = "infograph" ->
  let out := serve (handleTransform E c) w in
  In (model, prompt, user, inl err) (imageCalls (callsOf out)) ->
  ∃ note rq srcs response,
    textCalls (callsOf out) = [(rq, srcs, inr response)]
    ∧ (answerOf out) = JSON StatusOK (NoteBody note)
    ∧ noteInserts (callsOf out) = [(note, None)]
    ∧ tbl_notes (worldAfter out) = tbl_notes w ++ [note]
    ∧ Note.Type_ note = "infograph"
    ∧ Note.Content note = ""
    ∧ Note.Metadata note !! "image_error" = Some (MStr err)
    ∧ Note.Metadata note !! "image_url" = None.
Proof.
  intros Hdur Hbind Hty. cbv zeta. intros Hin.
  destruct (handleTransform_outcome E c w)
    as [Htext Himage Hinserts Hnotes Hsources Hresp
       |rq srcs e Htext Himage Hinserts Hnotes Hsources Hresp
       |req0 rq srcs response w1 t1 rf tf Hbind0 Htype Hlength Hformat Hquiet
          Hnotes Hsources Hfinish Hevents Htext Hresp].
  - rewrite Himage in Hin. destruct Hin.
  - rewrite Himage in Hin. destruct Hin.
  - rewrite Hbind in Hbind0. injection Hbind0 as <-.
    rewrite <- Htype in Hty.
    destruct (transformFinish_infograph E c rq response w1 Hty)
      as (rf' & w'' & tf' & Hrun & Himg & Hins & Hpersist).
    rewrite Hfinish in Hrun. injection Hrun as <- <- <-.
    destruct (generated_calls t1 tf rq srcs (inr response) Hquiet) as [Hi Hn].
    rewrite Hevents, Hi, Himg in Hin. rewrite Hevents, Hn, Hins, <- Hevents.
    rewrite (Hdur (S (clock w1))) in *.
    destruct Hpersist as [Hrf Htbl].
    destruct Hin as [Heq|[]]. injection Heq as _ _ _ Hr. rewrite Hr in *.
    eexists _, rq, srcs, response.
    split; [exact Htext|].
    split; [rewrite Hresp, Hrf; reflexivity|].
    split; [reflexivity|].
    split; [rewrite Htbl, Hnotes; reflexivity|].
    simpl. repeat split;
      try apply lookup_insert_eq;
      try (rewrite lookup_insert_ne by done; apply baseMetadata_lookup; done).
Qed.

Definition failingImageEnv : Env :=
  demoEnv true never never demoText (λ _, inl "image quota exceeded") [].

Lemma infograph_image_failure_is_recorded_witness :
  let c := demoContext "infograph" in
  let out := serve (handleTransform failingImageEnv c) demoWorld in
  (StorageDurable failingImageEnv
   ∧ In (imageModel, "TEXT" +:+ nl +:+ nl +:+ chineseNote, "u", inl "image quota exceeded")
        (imageCalls (callsOf out)))
  ∧ ∃ note rq srcs response,
      textCalls (callsOf out) = [(rq, srcs, inr response)]
      ∧ (answerOf out) = JSON StatusOK (NoteBody note)
      ∧ noteInserts (callsOf out) = [(note, None)]
      ∧ tbl_notes (worldAfter out) = tbl_notes demoWorld ++ [note]
      ∧ Note.Type_ note = "infograph"
      ∧ Note.Content note = ""
      ∧ Note.Metadata note !! "image_error" = Some (MStr "image quota exceeded")
      ∧ Note.Metadata note !! "image_url" = None.
Proof.
  assert (Hdur : StorageDurable failingImageEnv) by (intros t; reflexivity).
  assert (Hin : In (imageModel, "TEXT" +:+ nl +:+ nl +:+ chineseNote, "u",
                    inl "image quota exceeded")
                  (imageCalls (serve (handleTransform failingImageEnv
                                        (demoContext "infograph")) demoWorld).2))
    by (vm_compute; left; reflexivity).
  split; [split; [exact Hdur|exact Hin]|].
  exact (infograph_image_failure_is_recorded failingImageEnv (demoContext "infograph")
           demoWorld (demoRequest "infograph") _ _ _ _ Hdur eq_refl eq_refl Hin).
Defined.

(** * Slide decks *)

(** The URLs kept from a run of image calls: those of the calls that
    succeeded, in the order of the calls. *)
Definition slideURLsOf (calls : list (string * string * string * Result string))
    : list string :=
  omap (λ call : string * string * string * Result string,
          match call.2 with
          | inr imagePath => Some (webPath imagePath)
          | inl _ => None
          end) calls.

(** One image call per slide of [rest], the call for the slide at
    position [k] made when the call counter is [start + k]. *)
Definition slideCalls (E : Env) (user : string) (slides : list Slide.t)
    (start : nat) (rest : list Slide.t) : list (string * string * string * Result string) :=
  imap (λ k slide,
          (imageModel, slidePrompt slides slide, user,
           GenerateImage E (start + k) imageModel (slidePrompt slides slide) user))
       rest.

#[global] Arguments slideCalls : simpl never.

Lemma slideCalls_cons E user slides start slide rest :
  slideCalls E user slides start (slide :: rest)
  = (imageModel, slidePrompt slides slide, user,
     GenerateImage E start imageModel (slidePrompt slides slide) user)
      :: slideCalls E user slides (S start) rest.
Proof.
  unfold slideCalls. rewrite imap_cons, Nat.add_0_r. f_equal.
  apply imap_ext. intros k x _. simpl. rewrite Nat.add_succ_r. reflexivity.
Qed.

Lemma slideCalls_args E user slides start rest :
  map (λ call, call.1) (slideCalls E user slides start rest)
  = map (λ slide, (imageModel, slidePrompt slides slide, user)) rest.
Proof.
  revert start. induction rest as [|slide rest IH]; intros start; [reflexivity|].
  rewrite slideCalls_cons. simpl. rewrite IH. reflexivity.
Qed.

Lemma imageCalls_log l t : imageCalls (EvLog l :: t) = imageCalls t.
Proof. reflexivity. Qed.

Lemma imageCalls_image m p u r t :
  imageCalls (EvGenerateImage m p u r :: t) = (m, p, u, r) :: imageCalls t.
Proof. reflexivity. Qed.

Lemma noteInserts_log l t : noteInserts (EvLog l :: t) = noteInserts t.
Proof. reflexivity. Qed.

Lemma noteInserts_image m p u r t :
  noteInserts (EvGenerateImage m p u r :: t) = noteInserts t.
Proof. reflexivity. Qed.

Section Slides.
Variable E : Env.

(** The slide loop: one call per remaining slide, in order, one after the
    other; the URLs of the successful calls are appended in that order, a
    failed call leaves a log line only, and nothing but the call counter
    changes in the world. *)
Lemma generateSlides_run user slides rest :
  ∀ i urls w, ∃ t,
    generateSlides E user slides i rest urls w
    = (inr (urls ++ slideURLsOf (slideCalls E user slides (clock w) rest)),
       setClock (clock w + length rest) w, t)
    ∧ imageCalls t = slideCalls E user slides (clock w) rest
    ∧ noteInserts t = []
    ∧ (∀ m p u err, In (m, p, u, inl err) (imageCalls t) ->
         ∃ k, In (EvLog (ErrSlide k err)) t).
Proof.
  induction rest as [|slide rest IH]; intros i urls w.
  - exists []. simpl. rewrite app_nil_r, Nat.add_0_r.
    destruct w; repeat split; auto.
  - rewrite slideCalls_cons.
    simpl generateSlides. unfold provider_GenerateImage. run_monad.
    destruct (GenerateImage E (clock w) imageModel (slidePrompt slides slide) user)
      as [err|imagePath] eqn:Hg; run_monad.
    + destruct (IH (S i) urls (setClock (S (clock w)) w)) as (t & Hrun & Hcalls & Hins & Hlog).
      simpl in Hrun, Hcalls. rewrite Hrun. simpl.
      eexists. split;
        [replace (clock w + S (length rest)) with (S (clock w + length rest)) by lia;
         unfold slideURLsOf; simpl; reflexivity|].
      rewrite ?imageCalls_log, ?imageCalls_image, ?noteInserts_log, ?noteInserts_image,
        ?imageCalls_log, ?noteInserts_log, Hcalls, Hins.
      repeat split; auto.
      intros m p u e [Heq|Hin].
      * injection Heq as _ _ _ <-. exists (i + 1). right. right. left. reflexivity.
      * rewrite <- Hcalls in Hin. destruct (Hlog m p u e Hin) as [k Hk].
        exists k. right. right. right. exact Hk.
    + destruct (IH (S i) (urls ++ [webPath imagePath]) (setClock (S (clock w)) w))
        as (t & Hrun & Hcalls & Hins & Hlog).
      simpl in Hrun, Hcalls. rewrite Hrun. simpl.
      eexists. split;
        [replace (clock w + S (length rest)) with (S (clock w + length rest)) by lia;
         rewrite <- app_assoc; unfold slideURLsOf; simpl; reflexivity|].
      rewrite ?imageCalls_log, ?imageCalls_image, ?noteInserts_log, ?noteInserts_image,
        Hcalls, Hins.
      repeat split; auto.
      intros m p u e [Heq|Hin]; [discriminate|].
      rewrite <- Hcalls in Hin. destruct (Hlog m p u e Hin) as [k Hk].
      exists k. right. right. exact Hk.
Qed.
End Slides.

Definition capExceededMessage : string := "PPT页数超过20页上限，已停止生成图片".

Section SlideDecks.
Variable E : Env.

(** A slide deck after its primary generation.  Over the cap: no image
    call, the fixed message under [image_error].  Within the cap: the
    calls of the slide loop and the URLs it kept under [slides].  In both
    cases the note carries the generated text. *)
Lemma transformFinish_ppt c req response w :
  TransformationRequest.Type_ req = "ppt" ->
  let slides := ParsePPTSlides E (TransformationResponse.Content response) in
  let over := 10 <? length slides in
  let calls := if over then []
               else slideCalls E (Context.user_id c) slides (clock w) slides in
  let tn := if over then clock w else clock w + length slides in
  let note :=
    Note.mk (newUUID E tn) (Context.Param_id c) "幻灯片"
      (TransformationResponse.Content response) "ppt"
      (TransformationRequest.SourceIDs req) (timeNow E tn) (timeNow E tn)
      (if over then <["image_error" := MStr capExceededMessage]> (baseMetadata req)
       else <["slides" := MStrs (slideURLsOf calls)]> (baseMetadata req)) in
  ∃ rf w' tf,
    transformFinish E c req response w = (rf, w', tf)
    ∧ imageCalls tf = calls
    ∧ noteInserts tf = [(note, storageFault E tn)]
    ∧ match storageFault E tn with
      | None => rf = inr (JSON StatusOK (NoteBody note))
                ∧ tbl_notes w' = tbl_notes w ++ [note]
      | Some _ => rf = inl (JSON StatusInternalServerError
                              (ErrorResponse "Failed to save note"))
                  ∧ tbl_notes w' = tbl_notes w
      end
    ∧ (over = true -> In (EvLog (ErrTooManySlides (length slides))) tf)
    ∧ (∀ m p u err, In (m, p, u, inl err) (imageCalls tf) ->
         ∃ k, In (EvLog (ErrSlide k err)) tf).
Proof.
  intros Hty. cbv zeta. unfold transformFinish. unfold_store.
  rewrite !Hty, getTitleForType_ppt.
  change (String.eqb "ppt" "infograph") with false.
  change (String.eqb "ppt" "ppt") with true.
  change (String.eqb "ppt" "insight") with false.
  cbv iota.
  set (slides := ParsePPTSlides E (TransformationResponse.Content response)).
  destruct (10 <? length slides) eqn:Hover.
  - walk; (eexists _, _, _; split; [reflexivity|]); simpl;
      repeat split; auto; intros ? ? ? ? [].
  - run_monad.
    destruct (generateSlides_run E (Context.user_id c) slides slides 0 [] w)
      as (ts & Hrun & Hcalls & Hins & Hlog).
    rewrite Hrun. simpl in *.
    walk; (eexists _, _, _; split; [reflexivity|]);
      rewrite ?imageCalls_log, ?noteInserts_log;
      unfold imageCalls, noteInserts in *; rewrite !omap_app, Hcalls, Hins; simpl;
      rewrite ?app_nil_r;
      (repeat split; auto; try discriminate);
      intros m p u err Hin;
      rewrite <- Hcalls in Hin; destruct (Hlog m p u err Hin) as [k Hk];
      exists k; right; apply in_or_app; left; exact Hk.
Qed.
End SlideDecks.

(** C5. A slide deck over the cap of 10 slides.  When the primary text
    parses into more than 10 slides, no image call is made; the response
    is the 200 with the note; the note is inserted with the generated text
    as its content and the cap message under [image_error], and it has no
    [slides] entry.  The storage collaborator is taken as durable, as the
    spec does. *)
Theorem slide_deck_over_cap (E : Env) (c : Context.t) (w : World)
    (req rq : TransformationRequest.t) (srcs : list Source.t)
    (response : TransformationResponse.t) :
  StorageDurable E ->
  Context.ShouldBindJSON c = inr req ->
  TransformationRequest.Type_ req = "ppt" ->
  let out := serve (handleTransform E c) w in
  In (rq, srcs, inr response) (textCalls (callsOf out)) ->
  10 < length (ParsePPTSlides E (TransformationResponse.Content response)) ->
  ∃ note,
    imageCalls (callsOf out) = []
    ∧ (answerOf out) = JSON StatusOK (NoteBody note)
    ∧ noteInserts (callsOf out) = [(note, None)]
    ∧ tbl_notes (worldAfter out) = tbl_notes w ++ [note]
    ∧ Note.Content note = TransformationResponse.Content response
    ∧ Note.Metadata note !! "image_error" = Some (MStr capExceededMessage)
    ∧ Note.Metadata note !! "slides" = None
    ∧ In (EvLog (ErrTooManySlides
                   (length (ParsePPTSlides E (TransformationResponse.Content response)))))
         (callsOf out).
Proof.
  intros Hdur Hbind Hty. cbv zeta. intros Hin Hover.
  destruct (handleTransform_outcome E c w)
    as [Htext Himage Hinserts Hnotes Hsources Hresp
       |rq' srcs' e Htext Himage Hinserts Hnotes Hsources Hresp
       |req0 rq' srcs' response' w1 t1 rf tf Hbind0 Htype Hlength Hformat Hquiet
          Hnotes Hsources Hfinish Hevents Htext Hresp].
  - rewrite Htext in Hin. destruct Hin.
  - rewrite Htext in Hin. destruct Hin as [Heq|[]]. discriminate.
  - rewrite Htext in Hin. destruct Hin as [Heq|[]].
    injection Heq as -> -> ->.
    rewrite Hbind in Hbind0. injection Hbind0 as <-.
    rewrite <- Htype in Hty.
    destruct (transformFinish_ppt E c rq response w1 Hty)
      as (rf' & w'' & tf' & Hrun & Himg & Hins & Hpersist & Hlogged & _).
    rewrite Hfinish in Hrun. injection Hrun as <- <- <-.
    apply Nat.ltb_lt in Hover. rewrite Hover in *.
    destruct (generated_calls t1 tf rq srcs (inr response) Hquiet) as [Hi Hn].
    rewrite (Hdur (clock w1)) in *. destruct Hpersist as [Hrf Htbl].
    eexists. rewrite Hevents, Hi, Hn, Himg, Hins.
    split; [reflexivity|].
    split; [rewrite Hresp, Hrf; reflexivity|].
    split; [reflexivity|].
    split; [rewrite Htbl, Hnotes; reflexivity|].
    split; [reflexivity|].
    split; [apply lookup_insert_eq|].
    split; [simpl; rewrite lookup_insert_ne by done; apply baseMetadata_lookup; done|].
    apply in_or_app. right. right. apply Hlogged. reflexivity.
Qed.

Definition slideN (n : nat) : Slide.t :=
  Slide.mk "flat" ("slide " +:+ pretty n).

(** The primary text of this server parses into 11 slides. *)
Definition elevenSlidesEnv : Env :=
  demoEnv true never never demoText (λ _, inr "/img.png") (map slideN (seq 1 11)).

Lemma slide_deck_over_cap_witness :
  let c := demoContext "ppt" in
  let out := serve (handleTransform elevenSlidesEnv c) demoWorld in
  let response := TransformationResponse.mk "TEXT" in
  (StorageDurable elevenSlidesEnv
   ∧ In (TransformationRequest.setSourceIDs ["s3"; "s2"; "s1"] (demoRequest "ppt"),
         [otherSource; blankSource; demoSource], inr response) (textCalls (callsOf out))
   ∧ 10 < length (ParsePPTSlides elevenSlidesEnv (TransformationResponse.Content response)))
  ∧ ∃ note,
      imageCalls (callsOf out) = []
      ∧ (answerOf out) = JSON StatusOK (NoteBody note)
      ∧ noteInserts (callsOf out) = [(note, None)]
      ∧ tbl_notes (worldAfter out) = tbl_notes demoWorld ++ [note]
      ∧ Note.Content note = TransformationResponse.Content response
      ∧ Note.Metadata note !! "image_error" = Some (MStr capExceededMessage)
      ∧ Note.Metadata note !! "slides" = None
      ∧ In (EvLog (ErrTooManySlides
                     (length (ParsePPTSlides elevenSlidesEnv
                                (TransformationResponse.Content response)))))
           (callsOf out).
Proof.
  assert (Hdur : StorageDurable elevenSlidesEnv) by (intros t; reflexivity).
  assert (Hin : In (TransformationRequest.setSourceIDs ["s3"; "s2"; "s1"] (demoRequest "ppt"),
                    [otherSource; blankSource; demoSource],
                    inr (TransformationResponse.mk "TEXT"))
                  (textCalls (serve (handleTransform elevenSlidesEnv (demoContext "ppt"))
                                demoWorld).2))
    by (vm_compute; left; reflexivity).
  assert (Hover : 10 < length (ParsePPTSlides elevenSlidesEnv "TEXT"))
    by (vm_compute; lia).
  split; [repeat split; assumption|].
  exact (slide_deck_over_cap elevenSlidesEnv (demoContext "ppt") demoWorld
           (demoRequest "ppt") _ _ _ Hdur eq_refl eq_refl Hin Hover).
Defined.

(** C6. A slide deck within the cap.  When the primary text parses into at
    most 10 slides, the image calls are one per slide, in slide order, one
    after the other (consecutive values of the call counter), each with
    the prompt of its slide.  The note is inserted and returned with the
    generated text; its [slides] entry is the list of the URLs of the
    calls that succeeded, in the order of the slides; a failed call leaves
    a log line and no entry in the metadata.  The storage collaborator is
    taken as durable, as the spec does. *)
Theorem slide_deck_within_cap (E : Env) (c : Context.t) (w : World)
    (req rq : TransformationRequest.t) (srcs : list Source.t)
    (response : TransformationResponse.t) :
  StorageDurable E ->
  Context.ShouldBindJSON c = inr req ->
  TransformationRequest.Type_ req = "ppt" ->
  let out := serve (handleTransform E c) w in
  let slides := ParsePPTSlides E (TransformationResponse.Content response) in
  In (rq, srcs, inr response) (textCalls (callsOf out)) ->
  length slides ≤ 10 ->
  ∃ note start,
    imageCalls (callsOf out) = slideCalls E (Context.user_id c) slides start slides
    ∧ map (λ call, call.1) (imageCalls (callsOf out))
      = map (λ slide, (imageModel, slidePrompt slides slide, Context.user_id c)) slides
    ∧ (answerOf out) = JSON StatusOK (NoteBody note)
    ∧ noteInserts (callsOf out) = [(note, None)]
    ∧ tbl_notes (worldAfter out) = tbl_notes w ++ [note]
    ∧ Note.Content note = TransformationResponse.Content response
    ∧ Note.Metadata note
      = <["slides" := MStrs (slideURLsOf (imageCalls (callsOf out)))]> (baseMetadata req)
    ∧ Note.Metadata note !! "slides" = Some (MStrs (slideURLsOf (imageCalls (callsOf out))))
    ∧ Note.Metadata note !! "image_error" = None
    ∧ (∀ m p u err, In (m, p, u, inl err) (imageCalls (callsOf out)) ->
         ∃ k, In (EvLog (ErrSlide k err)) (callsOf out)).
Proof.
  intros Hdur Hbind Hty. cbv zeta. intros Hin Hcap.
  destruct (handleTransform_outcome E c w)
    as [Htext Himage Hinserts Hnotes Hsources Hresp
       |rq' srcs' e Htext Himage Hinserts Hnotes Hsources Hresp
       |req0 rq' srcs' response' w1 t1 rf tf Hbind0 Htype Hlength Hformat Hquiet
          Hnotes Hsources Hfinish Hevents Htext Hresp].
  - rewrite Htext in Hin. destruct Hin.
  - rewrite Htext in Hin. destruct Hin as [Heq|[]]. discriminate.
  - rewrite Htext in Hin. destruct Hin as [Heq|[]].
    injection Heq as -> -> ->.
    rewrite Hbind in Hbind0. injection Hbind0 as <-.
    rewrite <- Htype in Hty.
    destruct (transformFinish_ppt E c rq response w1 Hty)
      as (rf' & w'' & tf' & Hrun & Himg & Hins & Hpersist & _ & Hlog).
    rewrite Hfinish in Hrun. injection Hrun as <- <- <-.
    assert (Hover : (10 <? length (ParsePPTSlides E (TransformationResponse.Content response)))
                    = false) by (apply Nat.ltb_ge; exact Hcap).
    rewrite Hover in *.
    destruct (generated_calls t1 tf rq srcs (inr response) Hquiet) as [Hi Hn].
    rewrite (Hdur _) in *. destruct Hpersist as [Hrf Htbl].
    rewrite (baseMetadata_ext rq req Hlength Hformat) in *.
    eexists _, (clock w1). rewrite Hevents, Hi, Hn, Hins, Himg.
    split; [reflexivity|].
    split; [apply slideCalls_args|].
    split; [rewrite Hresp, Hrf; reflexivity|].
    split; [reflexivity|].
    split; [rewrite Htbl, Hnotes; reflexivity|].
    split; [reflexivity|].
    split; [reflexivity|].
    split; [apply lookup_insert_eq|].
    split; [simpl; rewrite lookup_insert_ne by done; apply baseMetadata_lookup; done|].
    intros m p u err Hc. rewrite <- Himg in Hc.
    destruct (Hlog m p u err Hc) as [k Hk].
    exists k. apply in_or_app. right. right. exact Hk.
Qed.

(** The primary text of this server parses into 3 slides, and the image
    call made when the call counter is 6, the one for slide 2, fails. *)
Definition threeSlidesEnv : Env :=
  demoEnv true never never demoText
    (λ t, if (t =? 6)%nat then inl "slide render failed"
          else inr ("/data/slide-" +:+ pretty t +:+ ".png"))
    (map slideN (seq 1 3)).

Lemma slide_deck_within_cap_witness :
  let E := threeSlidesEnv in
  let c := demoContext "ppt" in
  let out := serve (handleTransform E c) demoWorld in
  let response := TransformationResponse.mk "TEXT" in
  let slides := ParsePPTSlides E (TransformationResponse.Content response) in
  (StorageDurable E
   ∧ In (TransformationRequest.setSourceIDs ["s3"; "s2"; "s1"] (demoRequest "ppt"),
         [otherSource; blankSource; demoSource], inr response) (textCalls (callsOf out))
   ∧ length slides ≤ 10)
  ∧ ∃ note start,
      imageCalls (callsOf out) = slideCalls E (Context.user_id c) slides start slides
      ∧ map (λ call, call.1) (imageCalls (callsOf out))
        = map (λ slide, (imageModel, slidePrompt slides slide, Context.user_id c)) slides
      ∧ (answerOf out) = JSON StatusOK (NoteBody note)
      ∧ noteInserts (callsOf out) = [(note, None)]
      ∧ tbl_notes (worldAfter out) = tbl_notes demoWorld ++ [note]
      ∧ Note.Content note = TransformationResponse.Content response
      ∧ Note.Metadata note
        = <["slides" := MStrs (slideURLsOf (imageCalls (callsOf out)))]>
            (baseMetadata (demoRequest "ppt"))
      ∧ Note.Metadata note !! "slides" = Some (MStrs (slideURLsOf (imageCalls (callsOf out))))
      ∧ Note.Metadata note !! "image_error" = None
      ∧ (∀ m p u err, In (m, p, u, inl err) (imageCalls (callsOf out)) ->
           ∃ k, In (EvLog (ErrSlide k err)) (callsOf out)).
Proof.
  assert (Hdur : StorageDurable threeSlidesEnv) by (intros t; reflexivity).
  assert (Hin : In (TransformationRequest.setSourceIDs ["s3"; "s2"; "s1"] (demoRequest "ppt"),
                    [otherSource; blankSource; demoSource],
                    inr (TransformationResponse.mk "TEXT"))
                  (textCalls (serve (handleTransform threeSlidesEnv (demoContext "ppt"))
                                demoWorld).2))
    by (vm_compute; left; reflexivity).
  assert (Hcap : length (ParsePPTSlides threeSlidesEnv "TEXT") ≤ 10)
    by (vm_compute; lia).
  split; [repeat split; assumption|].
  exact (slide_deck_within_cap threeSlidesEnv (demoContext "ppt") demoWorld
           (demoRequest "ppt") _ _ _ Hdur eq_refl eq_refl Hin Hcap).
Defined.

(** Three slides, the image of the second failing: the note keeps the
    URLs of slides 1 and 3, in that order; the failure is in the log and
    nowhere in the metadata. *)
Example three_slides_second_fails_demo :
  let out := serve (handleTransform threeSlidesEnv (demoContext "ppt")) demoWorld in
  match (answerOf out) with
  | JSON 200 (NoteBody note) =>
      Note.Metadata note !! "slides"
      = Some (MStrs ["/api/files/slide-5.png"; "/api/files/slide-7.png"])
      ∧ Note.Metadata note !! "image_error" = None
      ∧ map (λ call, call.2) (imageCalls (callsOf out))
        = [inr "/data/slide-5.png"; inl "slide render failed"; inr "/data/slide-7.png"]
      ∧ In (EvLog (ErrSlide 2 "slide render failed")) (callsOf out)
      ∧ In note (tbl_notes (worldAfter out))
  | _ => False
  end.
Proof.
  vm_compute. repeat split; try reflexivity;
    repeat (first [left; reflexivity | right]).
Qed.

(** * Insight reports *)

Definition insightName : string := "洞察报告".

(** [UPDATE sources SET chunk_count = ? WHERE id = ?] on the rows. *)
Definition withChunkCount (id : string) (n : nat) (rows : list Source.t) : list Source.t :=
  map (λ s, if String.eqb (Source.ID s) id then Source.setChunkCount n s else s) rows.

Lemma ingestCalls_cons_other ev t :
  match ev with EvIngestText _ _ _ _ => False | _ => True end ->
  ingestCalls (ev :: t) = ingestCalls t.
Proof. destruct ev; simpl; tauto. Qed.

Lemma ingestCalls_app t1 t2 : ingestCalls (t1 ++ t2) = ingestCalls t1 ++ ingestCalls t2.
Proof. unfold ingestCalls. apply omap_app. Qed.

(** ** What a request adds to the index *)

(** Not a call of the ingestion pipeline. *)
Definition notIngest (ev : Event) : bool :=
  match ev with
  | EvIngestText _ _ _ _ => false
  | _ => true
  end.

(** [Indexes E m]: the index after the computation is the index before
    it, followed by the chunks of the ingestions that succeeded among its
    calls, in the order of the calls. *)
Definition Indexes (E : Env) {A : Type} (m : M A) : Prop :=
  ∀ w, vectorStore (world_of (m w)) = vectorStore w ++ indexed E (events_of (m w)).

Lemma indexed_app (E : Env) (t1 t2 : list Event) :
  indexed E (t1 ++ t2) = indexed E t1 ++ indexed E t2.
Proof. unfold indexed. rewrite ingestCalls_app. apply flat_map_app. Qed.

Lemma indexed_notIngest (E : Env) (t : list Event) :
  forallb notIngest t = true -> indexed E t = [].
Proof.
  intros H. unfold indexed, ingestCalls.
  rewrite (omap_none_forallb _ notIngest t); [reflexivity| |exact H].
  intros []; simpl; congruence.
Qed.

Section Indexing.
Variable E : Env.

Lemma Indexes_quiet {A : Type} (m : M A) :
  Frame vectorStore m -> Emits notIngest m -> Indexes E m.
Proof.
  intros Hf He w. rewrite (indexed_notIngest E _ (He w)), app_nil_r. apply Hf.
Qed.

Lemma Indexes_bind {A B : Type} (m : M A) (k : A -> M B) :
  Indexes E m -> (∀ a, Indexes E (k a)) -> Indexes E (m ≫= k).
Proof.
  intros Hm Hk w. specialize (Hm w).
  unfold mbind, M_bind, bind, world_of, events_of in *.
  destruct (m w) as [[[r|a] w1] t1]; simpl in *; [exact Hm|].
  specialize (Hk a w1). unfold world_of, events_of in Hk.
  destruct (k a w1) as [[b w2] t2]; simpl in *.
  rewrite Hk, Hm, indexed_app, app_assoc. reflexivity.
Qed.

Lemma IngestText_Indexes nb name content : Indexes E (IngestText E nb name content).
Proof.
  intros w. unfold IngestText, world_of, events_of. run_monad.
  destruct (ingestFault E (clock w)); simpl.
  - rewrite app_nil_r. reflexivity.
  - unfold indexed. simpl. rewrite app_nil_r. reflexivity.
Qed.

(** One step of a compositional proof of [Indexes]: through a bind or a
    branch, down to the ingestion call or to a part that neither writes
    the index nor calls the pipeline. *)
Ltac indexes_step :=
  lazymatch goal with
  | |- Indexes _ (mbind _ _) => apply Indexes_bind; [|intros]
  | |- Indexes _ (match ?x with _ => _ end) => destruct x
  | |- Indexes _ (IngestText _ _ _ _) => apply IngestText_Indexes
  | |- Indexes _ _ =>
      first [ solve [auto with keeps]
            | apply Indexes_quiet; [solve [keeps] | solve [keeps]] ]
  end.

Ltac indexes := intros; cbv zeta; repeat (indexes_step; cbv zeta).

Lemma loadSources_Indexes nb sources : Indexes E (loadSources E nb sources).
Proof. induction sources as [|src rest IH]; simpl; indexes. Qed.

#[local] Hint Resolve loadSources_Indexes generateSlides_Frame : keeps.

Lemma loadNotebookVectorIndex_Indexes nb : Indexes E (loadNotebookVectorIndex E nb).
Proof. unfold loadNotebookVectorIndex, ListSources. indexes. Qed.

Lemma generateSlides_notIngest user slides rest i urls :
  Emits notIngest (generateSlides E user slides i rest urls).
Proof.
  eapply Emits_weaken; [|apply generateSlides_Emits].
  intros [| | | | | | | | | | | |[]]; simpl; congruence.
Qed.

#[local] Hint Resolve loadNotebookVectorIndex_Indexes generateSlides_notIngest : keeps.

End Indexing.

Section Insight.
Variable E : Env.

End Insight.










(** Two insight requests in a row: the notebook gains two sources, each
    ingested, so the second run works on a larger corpus than the first. *)
Example insight_twice_demo :
  let c := demoContext "insight" in
  let '(w1, _) := handle reliableEnv (ReqTransform c) demoWorld in
  let '(w2, t2) := handle reliableEnv (ReqTransform c) w1 in
  map Source.Name (tbl_sources w1) = ["doc"; "blank"; "more"; insightName]
  ∧ map Source.Name (tbl_sources w2)
    = ["doc"; "blank"; "more"; insightName; insightName]
  ∧ map Chunk.SourceName (vectorStore w2)
    = ["more"; "doc"; "doc"; "doc"; insightName; insightName]
  ∧ map (λ call, length call.1.2) (textCalls t2) = [4].
Proof. vm_compute. repeat split; reflexivity. Qed.



(** * More of the store: queries and round trips *)

From Stdlib Require Import Sorted.

Section OrderFacts.
Context {A : Type} (key : A -> Z).

(** Newest first. *)
Definition newestFirst (a b : A) : Prop := (key b <= key a)%Z.

Lemma insertDesc_Permutation (x : A) (l : list A) : insertDesc key x l ≡ₚ x :: l.
Proof.
  induction l as [|y l IH]; simpl; [reflexivity|].
  destruct (key y <=? key x)%Z; [reflexivity|].
  rewrite IH. apply perm_swap.
Qed.

Lemma orderByCreatedAtDesc_Permutation (l : list A) : orderByCreatedAtDesc key l ≡ₚ l.
Proof.
  unfold orderByCreatedAtDesc. induction l as [|x l IH]; simpl; [reflexivity|].
  rewrite insertDesc_Permutation, IH. reflexivity.
Qed.

Lemma insertDesc_sorted (x : A) (l : list A) :
  StronglySorted newestFirst l -> StronglySorted newestFirst (insertDesc key x l).
Proof.
  induction l as [|y l IH]; intros Hs; simpl.
  - constructor; constructor.
  - inversion Hs as [|? ? Hl Hy]; subst.
    destruct (key y <=? key x)%Z eqn:Hle.
    + apply Z.leb_le in Hle. constructor; [exact Hs|].
      constructor; [exact Hle|].
      eapply Forall_impl; [exact Hy|]. unfold newestFirst. intros z Hz. simpl in *. lia.
    + apply Z.leb_gt in Hle. constructor; [apply IH, Hl|].
      apply Forall_forall. intros z Hz. apply list_elem_of_In, insertDesc_In in Hz.
      destruct Hz as [->|Hz].
      * unfold newestFirst. lia.
      * rewrite Forall_forall in Hy. apply Hy, list_elem_of_In, Hz.
Qed.

Lemma orderByCreatedAtDesc_sorted (l : list A) :
  StronglySorted newestFirst (orderByCreatedAtDesc key l).
Proof.
  unfold orderByCreatedAtDesc. induction l as [|x l IH]; simpl.
  - constructor.
  - apply insertDesc_sorted, IH.
Qed.
End OrderFacts.

Section StoreFacts.
Variable E : Env.

(** X1. [ListSources] answers with the rows of the notebook asked for and
    no other row, each once, newest first; the world keeps everything but
    the call counter. *)
Theorem ListSources_notebook_newest_first (notebookID : string) (w : World) :
  storageFault E (clock w) = None ->
  ∃ sources,
    ListSources E notebookID w
    = (inr (inr sources), setClock (S (clock w)) w,
       [EvListSources notebookID (inr sources)])
    ∧ sources ≡ₚ filter (λ s, Source.NotebookID s = notebookID) (tbl_sources w)
    ∧ (∀ s, In s sources <-> In s (tbl_sources w) ∧ Source.NotebookID s = notebookID)
    ∧ StronglySorted (newestFirst Source.CreatedAt) sources.
Proof.
  intros Hf. exists (selectSources notebookID (tbl_sources w)).
  unfold ListSources. run_monad. rewrite Hf. split; [reflexivity|].
  split; [apply orderByCreatedAtDesc_Permutation|].
  split; [intros s; apply selectSources_In|].
  apply orderByCreatedAtDesc_sorted.
Qed.
End StoreFacts.

Lemma ListSources_notebook_newest_first_witness :
  storageFault reliableEnv (clock demoWorld) = None
  ∧ ∃ sources,
      ListSources reliableEnv "nb" demoWorld
      = (inr (inr sources), setClock (S (clock demoWorld)) demoWorld,
         [EvListSources "nb" (inr sources)])
      ∧ sources ≡ₚ filter (λ s, Source.NotebookID s = "nb") (tbl_sources demoWorld)
      ∧ (∀ s, In s sources <-> In s (tbl_sources demoWorld) ∧ Source.NotebookID s = "nb")
      ∧ StronglySorted (newestFirst Source.CreatedAt) sources.
Proof.
  split; [reflexivity|].
  apply (ListSources_notebook_newest_first reliableEnv "nb" demoWorld). reflexivity.
Defined.

(** ** Rows found by id *)

Lemma find_app_fresh {A : Type} (f : A -> bool) (l : list A) (x : A) :
  (∀ y, In y l -> f y = false) -> find f (l ++ [x]) = if f x then Some x else None.
Proof.
  induction l as [|y l IH]; intros H; simpl; [reflexivity|].
  rewrite (H y (or_introl eq_refl)). apply IH. intros z Hz. apply H. right. exact Hz.
Qed.

Lemma find_none_fresh {A : Type} (f : A -> bool) (l : list A) :
  (∀ y, In y l -> f y = false) -> find f l = None.
Proof.
  induction l as [|y l IH]; intros H; simpl; [reflexivity|].
  rewrite (H y (or_introl eq_refl)). apply IH. intros z Hz. apply H. right. exact Hz.
Qed.

Lemma find_filter_id (id id' : string) (rows : list Source.t) :
  find (λ s, String.eqb (Source.ID s) id')
       (filter (λ s, Source.ID s ≠ id) rows)
  = if String.eqb id id' then None
    else find (λ s, String.eqb (Source.ID s) id') rows.
Proof.
  induction rows as [|s rows IH]; simpl.
  - destruct (String.eqb id id'); reflexivity.
  - rewrite filter_cons. destruct (decide (Source.ID s ≠ id)) as [Hne|Heq].
    + simpl. destruct (String.eqb (Source.ID s) id') eqn:Hs.
      * apply String.eqb_eq in Hs. subst id'.
        destruct (String.eqb id (Source.ID s)) eqn:Hi; [|reflexivity].
        apply String.eqb_eq in Hi. congruence.
      * exact IH.
    + apply dec_stable in Heq. rewrite IH.
      destruct (String.eqb id id') eqn:Hi; [reflexivity|].
      rewrite Heq, Hi. reflexivity.
Qed.

Lemma filter_id_fresh (id : string) (rows : list Source.t) :
  (∀ s, In s rows -> Source.ID s ≠ id) ->
  filter (λ s, Source.ID s ≠ id) rows = rows.
Proof.
  induction rows as [|s rows IH]; intros Hnone; [reflexivity|].
  rewrite filter_cons. destruct (decide (Source.ID s ≠ id)) as [_|Heq].
  - f_equal. apply IH. intros s' Hs'. apply Hnone. right. exact Hs'.
  - exfalso. apply Heq, Hnone. left. reflexivity.
Qed.

(** The columns of a source that [UpdateSourceChunkCount] does not write. *)
Definition otherColumns (s : Source.t) : Source.t := Source.setChunkCount 0 s.

Section RoundTrips.
Variable E : Env.

(** X2. A created source is found again.  With the storage working, for
    a row that meets the constraints of the table (an id no row has, a
    notebook that exists), [CreateSource] appends the caller's source with
    its new id and time; [GetSource] with that id then finds a source with
    the caller's notebook, name, type, URL, content, file, size and chunk
    count, and [ListSources] of its notebook contains it. *)
Theorem CreateSource_then_GetSource (source : Source.t) (w : World) :
  StorageDurable E ->
  (∀ s, In s (tbl_sources w) -> Source.ID s ≠ newUUID E (clock w)) ->
  (∃ nb, In nb (tbl_notebooks w) ∧ Notebook.ID nb = Source.NotebookID source) ->
  ∃ created found,
    CreateSource E source w
    = (inr (created, None),
       setSources (tbl_sources w ++ [created]) (setClock (S (clock w)) w),
       [EvCreateSource created None])
    ∧ Source.ID created = newUUID E (clock w)
    ∧ Source.CreatedAt created = timeNow E (clock w)
    ∧ result_of (GetSource E (Source.ID created) (world_of (CreateSource E source w)))
      = inr (inr found)
    ∧ Source.ID found = Source.ID created
    ∧ Source.NotebookID found = Source.NotebookID source
    ∧ Source.Name found = Source.Name source
    ∧ Source.Type_ found = Source.Type_ source
    ∧ Source.URL found = Source.URL source
    ∧ Source.Content found = Source.Content source
    ∧ Source.FileName found = Source.FileName source
    ∧ Source.FileSize found = Source.FileSize source
    ∧ Source.ChunkCount found = Source.ChunkCount source
    ∧ In found (selectSources (Source.NotebookID source)
                  (tbl_sources (world_of (CreateSource E source w)))).
Proof.
  intros Hdur Hfresh _.
  unfold CreateSource, GetSource, result_of, world_of. run_monad.
  rewrite ?Hdur. run_monad. rewrite ?Hdur.
  eexists _, _. do 3 (split; [reflexivity|]). simpl.
  rewrite find_app_fresh by (intros y Hy; apply String.eqb_neq, Hfresh, Hy).
  simpl. rewrite String.eqb_refl.
  repeat (split; [reflexivity|]).
  apply selectSources_In. split; [|reflexivity].
  apply in_or_app. right. left. reflexivity.
Qed.

(** X3. [DeleteSource] removes the rows with the given id and only them.
    With the storage working it reports no error, also when no row has
    the id (the table is then as it was); afterwards [GetSource] does not
    find the id, and finds under every other id what it found before. *)
Theorem DeleteSource_then_GetSource (id : string) (w : World) :
  StorageDurable E ->
  let w1 := world_of (DeleteSource E id w) in
  result_of (DeleteSource E id w) = inr None
  ∧ (∀ s, In s (tbl_sources w1) <-> In s (tbl_sources w) ∧ Source.ID s ≠ id)
  ∧ ((∀ s, In s (tbl_sources w) -> Source.ID s ≠ id) -> tbl_sources w1 = tbl_sources w)
  ∧ result_of (GetSource E id w1) = inr (inl "source not found")
  ∧ (∀ id', id' ≠ id ->
       result_of (GetSource E id' w1) = result_of (GetSource E id' w)).
Proof.
  intros Hdur. cbv zeta.
  unfold DeleteSource, GetSource, result_of, world_of. run_monad.
  rewrite ?Hdur. run_monad. rewrite ?Hdur.
  split; [reflexivity|]. split; [|split; [|split]].
  - intros s. rewrite <- !list_elem_of_In, list_elem_of_filter. tauto.
  - apply filter_id_fresh.
  - rewrite find_filter_id, String.eqb_refl. reflexivity.
  - intros id' Hne. rewrite find_filter_id.
    destruct (String.eqb id id') eqn:Hi; [|reflexivity].
    apply String.eqb_eq in Hi. congruence.
Qed.

(** X4. [UpdateSourceChunkCount] writes the chunk count of the rows with
    the given id and nothing else: the table keeps its rows in place and
    every other column of every row; the rows with the id have the new
    count and the others are as they were.  When no row has the id the
    table is unchanged and no error is reported. *)
Theorem UpdateSourceChunkCount_only_count (id : string) (n : nat) (w : World) :
  StorageDurable E ->
  let w1 := world_of (UpdateSourceChunkCount E id n w) in
  result_of (UpdateSourceChunkCount E id n w) = inr None
  ∧ map otherColumns (tbl_sources w1) = map otherColumns (tbl_sources w)
  ∧ (∀ s, In s (tbl_sources w1) -> Source.ID s = id -> Source.ChunkCount s = n)
  ∧ (∀ s, Source.ID s ≠ id -> In s (tbl_sources w1) <-> In s (tbl_sources w))
  ∧ ((∀ s, In s (tbl_sources w) -> Source.ID s ≠ id) -> tbl_sources w1 = tbl_sources w).
Proof.
  intros Hdur. cbv zeta.
  unfold UpdateSourceChunkCount, result_of, world_of. run_monad.
  rewrite ?Hdur. run_monad.
  split; [reflexivity|].
  induction (tbl_sources w) as [|r rows IH]; simpl.
  { split; [reflexivity|]. split; [intros s []|]. split; [reflexivity|]. reflexivity. }
  destruct IH as (Hcols & Hcount & Hother & Hnone).
  destruct (String.eqb (Source.ID r) id) eqn:Hr.
  - apply String.eqb_eq in Hr. split; [|split; [|split]].
    + rewrite Hcols. reflexivity.
    + intros s [<-|Hs] Hid; [reflexivity | eauto].
    + intros s Hs. rewrite (Hother s Hs). split.
      * intros [<-|Hin]; [simpl in Hs; congruence | right; exact Hin].
      * intros [<-|Hin]; [congruence | right; exact Hin].
    + intros Hfresh. exfalso. apply (Hfresh r); [left; reflexivity | exact Hr].
  - apply String.eqb_neq in Hr. split; [|split; [|split]].
    + rewrite Hcols. reflexivity.
    + intros s [<-|Hs] Hid; [congruence | eauto].
    + intros s Hs. rewrite (Hother s Hs). reflexivity.
    + intros Hfresh. f_equal. apply Hnone. intros s Hs. apply Hfresh. right. exact Hs.
Qed.
End RoundTrips.

Lemma CreateSource_then_GetSource_witness :
  ∃ created found,
    CreateSource reliableEnv otherSource demoWorld
    = (inr (created, None),
       setSources (tbl_sources demoWorld ++ [created]) (setClock 1 demoWorld),
       [EvCreateSource created None])
    ∧ Source.ID created = "id-0"
    ∧ Source.Content found = "xyz".
Proof.
  destruct (CreateSource_then_GetSource reliableEnv otherSource demoWorld)
    as (created & found & Hrun & Hid & _ & _ & _ & _ & _ & _ & _ & Hcontent & _).
  - intros t. reflexivity.
  - intros s [<-|[<-|[<-|[]]]]; vm_compute; discriminate.
  - exists (Notebook.mk "nb" "u" "N"). split; [left|]; reflexivity.
  - exists created, found. auto.
Defined.

Lemma DeleteSource_then_GetSource_witness :
  result_of (GetSource reliableEnv "s1"
               (world_of (DeleteSource reliableEnv "s1" demoWorld)))
  = inr (inl "source not found").
Proof.
  apply (DeleteSource_then_GetSource reliableEnv "s1" demoWorld).
  intros t. reflexivity.
Defined.

Lemma UpdateSourceChunkCount_only_count_witness :
  map otherColumns
    (tbl_sources (world_of (UpdateSourceChunkCount reliableEnv "s1" 3 demoWorld)))
  = map otherColumns (tbl_sources demoWorld).
Proof.
  apply (UpdateSourceChunkCount_only_count reliableEnv "s1" 3 demoWorld).
  intros t. reflexivity.
Defined.

(** * Deleting a source: who may, and what changes *)

(** The deletions a handler issued. *)
Definition sourceDeletes (t : list Event) : list (string * option string) :=
  omap (λ ev, match ev with EvDeleteSource id err => Some (id, err) | _ => None end) t.

Section DeleteSourceFacts.
Variable E : Env.

(** X5. [handleDeleteSource] is all or nothing.  Whatever the storage
    does, the handler answers 204 having removed the rows with the id from
    the sources table, one of which was there, or answers 404, 403 or 500
    with an error body and the sources table as it was.  In every case the
    notebooks, the notes, the activity log, the vector index and the
    loaded marks are untouched: a deletion is not audited. *)
Theorem handleDeleteSource_all_or_nothing (c : Context.t) (w : World) :
  let out := serve (handleDeleteSource E c) w in
  let id := Context.Param_sourceId c in
  tbl_notebooks (worldAfter out) = tbl_notebooks w
  ∧ tbl_notes (worldAfter out) = tbl_notes w
  ∧ tbl_activity_logs (worldAfter out) = tbl_activity_logs w
  ∧ vectorStore (worldAfter out) = vectorStore w
  ∧ loadedNotebooks (worldAfter out) = loadedNotebooks w
  ∧ ((answerOf out = Status StatusNoContent
      ∧ tbl_sources (worldAfter out) = filter (λ s, Source.ID s ≠ id) (tbl_sources w)
      ∧ (∃ s, In s (tbl_sources w) ∧ Source.ID s = id)
      ∧ sourceDeletes (callsOf out) = [(id, None)])
     ∨ ((∃ status msg,
           answerOf out = JSON status (ErrorResponse msg)
           ∧ (status = StatusNotFound ∨ status = StatusForbidden
              ∨ status = StatusInternalServerError))
        ∧ tbl_sources (worldAfter out) = tbl_sources w)).
Proof.
  cbv zeta. unfold serve, handleDeleteSource, checkNotebookAccess. unfold_store.
  walk; simpl; repeat (split; [reflexivity|]);
    try (right; split; [eexists _, _; split; [reflexivity|]; auto | reflexivity]).
  all: left; repeat (split; [reflexivity|]); split; [|reflexivity].
  all: match goal with
       | H : find _ _ = Some ?s |- _ =>
           exists s; apply find_some in H; destruct H as [Hin Hid];
           apply String.eqb_eq in Hid; auto
       end.
Qed.

(** X6. Only the owner deletes from an owned notebook.  With the storage
    working, when the source belongs to a notebook whose owner is set and
    is not the caller, the handler answers 403 "access denied", issues no
    deletion and leaves the world as it was but for the clock. *)
Theorem handleDeleteSource_owner_only (c : Context.t) (w : World)
    (source : Source.t) (notebook : Notebook.t) :
  StorageDurable E ->
  find (λ s, String.eqb (Source.ID s) (Context.Param_sourceId c)) (tbl_sources w)
  = Some source ->
  find (λ n, String.eqb (Notebook.ID n) (Source.NotebookID source)) (tbl_notebooks w)
  = Some notebook ->
  Notebook.UserID notebook ≠ "" ->
  Notebook.UserID notebook ≠ Context.user_id c ->
  let out := serve (handleDeleteSource E c) w in
  answerOf out = JSON StatusForbidden (ErrorResponse "access denied")
  ∧ sourceDeletes (callsOf out) = []
  ∧ worldAfter out = setClock (2 + clock w) w.
Proof.
  intros Hdur Hsrc Hnb Howned Hother. cbv zeta.
  apply String.eqb_neq in Howned, Hother.
  unfold serve, handleDeleteSource, checkNotebookAccess. unfold_store. run_monad.
  rewrite !Hdur, Hsrc. run_monad. rewrite !Hdur, Hnb. run_monad.
  rewrite Howned, Hother. simpl. auto.
Qed.

(** X7. Any failure to read the source is a 404.  When no row has the
    id, and also when the statement reading it fails although the row is
    there, the handler answers 404 "Source not found" after that one
    statement, and nothing changes but the clock. *)
Theorem handleDeleteSource_not_found (c : Context.t) (w : World) :
  (∀ s, In s (tbl_sources w) -> Source.ID s ≠ Context.Param_sourceId c)
  ∨ storageFault E (clock w) ≠ None ->
  let out := serve (handleDeleteSource E c) w in
  answerOf out = JSON StatusNotFound (ErrorResponse "Source not found")
  ∧ sourceDeletes (callsOf out) = []
  ∧ worldAfter out = setClock (1 + clock w) w.
Proof.
  intros Hwhy. cbv zeta.
  unfold serve, handleDeleteSource, checkNotebookAccess. unfold_store. run_monad.
  destruct (storageFault E (clock w)) as [err|] eqn:Hfault; run_monad; [auto|].
  destruct Hwhy as [Hnone|Hfail]; [|congruence].
  rewrite find_none_fresh; [run_monad; auto|].
  intros s Hs. apply String.eqb_neq, Hnone, Hs.
Qed.
End DeleteSourceFacts.

Definition strangerContext : Context.t :=
  Context.mk "nb" "s1" "someone else" "10.0.0.2" "ua" (inr (demoRequest "summary")).

Lemma handleDeleteSource_owner_only_witness :
  answerOf (serve (handleDeleteSource reliableEnv strangerContext) demoWorld)
  = JSON StatusForbidden (ErrorResponse "access denied").
Proof.
  apply (handleDeleteSource_owner_only reliableEnv strangerContext demoWorld
           demoSource (Notebook.mk "nb" "u" "N")).
  - intros t. reflexivity.
  - reflexivity.
  - reflexivity.
  - discriminate.
  - discriminate.
Defined.

Definition unknownSourceContext : Context.t :=
  Context.mk "nb" "s9" "u" "10.0.0.1" "ua" (inr (demoRequest "summary")).

Lemma handleDeleteSource_not_found_witness :
  answerOf (serve (handleDeleteSource reliableEnv unknownSourceContext) demoWorld)
  = JSON StatusNotFound (ErrorResponse "Source not found").
Proof.
  apply (handleDeleteSource_not_found reliableEnv unknownSourceContext demoWorld).
  left. intros s [<-|[<-|[<-|[]]]]; discriminate.
Defined.

(** * The index loader: retries and isolation *)

Lemma indexed_In (E : Env) (t : list Event) (ch : Chunk.t) :
  In ch (indexed E t) ->
  ∃ content,
    In (Chunk.NotebookID ch, Chunk.SourceName ch, content) (ingestArgs t)
    ∧ In (Chunk.Text ch) (splitText (ChunkSize E) (ChunkOverlap E) content).
Proof.
  unfold indexed, ingestArgs. intros Hin. apply in_flat_map in Hin.
  destruct Hin as ([[[nb name] content] [err|n]] & Hcall & Hch); [destruct Hch|].
  apply in_map_iff in Hch. destruct Hch as (text & <- & Htext).
  exists content. split; [|exact Htext].
  apply in_map_iff. exists (nb, name, content, inr n). auto.
Qed.

Section LoaderFacts.
Variable E : Env.

(** X8. A load that could not list the sources is tried again.  When the
    listing fails the loader returns the error, stores nothing and does not
    mark the notebook, so the world is as before but for the clock; the
    next call lists the sources again and, the listing working, marks the
    notebook as loaded. *)
Theorem load_failure_is_retried (notebookID : string) (w : World) (err : string) :
  isLoaded w notebookID = false ->
  storageFault E (clock w) = Some err ->
  let out1 := loadNotebookVectorIndex E notebookID w in
  result_of out1 = inr (Some ("failed to list sources: " +:+ err))
  ∧ world_of out1 = setClock (S (clock w)) w
  ∧ ingestCalls (events_of out1) = []
  ∧ (storageFault E (S (clock w)) = None ->
     let out2 := loadNotebookVectorIndex E notebookID (world_of out1) in
     result_of out2 = inr None
     ∧ listings (events_of out2)
       = [(notebookID, inr (selectSources notebookID (tbl_sources w)))]
     ∧ isLoaded (world_of out2) notebookID = true).
Proof.
  intros Hl Hf. cbv zeta.
  assert (Hrun : loadNotebookVectorIndex E notebookID w
                 = (inr (Some ("failed to list sources: " +:+ err)),
                    setClock (S (clock w)) w,
                    [EvLog (InfoLoadingIndex notebookID);
                     EvListSources notebookID (inl err)])).
  { unfold isLoaded in Hl. unfold loadNotebookVectorIndex, ListSources. run_monad.
    rewrite Hl, Hf. reflexivity. }
  rewrite Hrun. unfold result_of, world_of, events_of. simpl.
  repeat (split; [reflexivity|]).
  intros Hok.
  destruct (load_first E notebookID (setClock (S (clock w)) w) Hl Hok)
    as (w' & t & Hrun2 & Hlist & _ & Hloaded & _).
  rewrite Hrun2. simpl. split; [reflexivity|]. split; [exact Hlist|].
  unfold isLoaded. rewrite Hloaded, lookup_insert_eq. reflexivity.
Qed.

(** X9. A load touches one notebook.  Whatever fails, the loader leaves
    the tables alone and the loaded mark of every other notebook as it
    was, and it never unmarks a notebook; the chunks it adds come after
    those already in the index, and each is tagged with the notebook
    asked for and named after a source of that notebook that has content,
    of which it holds a piece. *)
Theorem load_touches_one_notebook (notebookID : string) (w : World) :
  let w' := world_of (loadNotebookVectorIndex E notebookID w) in
  tbl_notebooks w' = tbl_notebooks w
  ∧ tbl_sources w' = tbl_sources w
  ∧ tbl_notes w' = tbl_notes w
  ∧ tbl_activity_logs w' = tbl_activity_logs w
  ∧ (∀ other, other ≠ notebookID -> isLoaded w' other = isLoaded w other)
  ∧ (isLoaded w notebookID = true -> isLoaded w' notebookID = true)
  ∧ ∃ added,
      vectorStore w' = vectorStore w ++ added
      ∧ ∀ ch, In ch added ->
          Chunk.NotebookID ch = notebookID
          ∧ ∃ s, In s (tbl_sources w)
                 ∧ Source.NotebookID s = notebookID
                 ∧ Source.Name s = Chunk.SourceName ch
                 ∧ Source.Content s ≠ ""
                 ∧ In (Chunk.Text ch)
                      (splitText (ChunkSize E) (ChunkOverlap E) (Source.Content s)).
Proof.
  cbv zeta.
  repeat (split; [apply (loadNotebookVectorIndex_Frame E); reflexivity|]).
  destruct (isLoaded w notebookID) eqn:Hl.
  { rewrite (load_loaded E notebookID w Hl). unfold world_of. simpl.
    split; [reflexivity|]. split; [exact (λ _, Hl)|].
    exists []. rewrite app_nil_r. split; [reflexivity|]. intros ch []. }
  destruct (storageFault E (clock w)) as [err|] eqn:Hf.
  { destruct (load_listing_fails E notebookID w err Hl Hf)
      as (w' & t & Hrun & Hloaded & Hvs & _).
    rewrite Hrun. unfold world_of, isLoaded. simpl. rewrite Hloaded, Hvs.
    split; [reflexivity|]. split; [discriminate|].
    exists []. rewrite app_nil_r. split; [reflexivity|]. intros ch []. }
  destruct (load_first E notebookID w Hl Hf)
    as (w' & t & Hrun & _ & Hargs & Hloaded & _ & Hvs & _).
  rewrite Hrun. unfold world_of, isLoaded. simpl. rewrite Hloaded.
  split; [|split; [discriminate|]].
  { intros other Hother. rewrite lookup_insert_ne by done. reflexivity. }
  exists (indexed E t). split; [exact Hvs|].
  intros ch Hch. apply indexed_In in Hch. destruct Hch as (content & Hcall & Htext).
  rewrite Hargs in Hcall. apply in_map_iff in Hcall.
  destruct Hcall as (s & Heq & Hs). injection Heq as Hnb Hname Hcontent.
  split; [congruence|].
  unfold nonEmptySources in Hs.
  apply list_elem_of_In, list_elem_of_filter in Hs. destruct Hs as [Hne Hs].
  apply list_elem_of_In, selectSources_In in Hs. destruct Hs as [Hin Hown].
  exists s. subst content. auto.
Qed.
End LoaderFacts.

Definition listingFailsOnceEnv : Env :=
  demoEnv true (λ t, if Nat.eqb t 0 then Some "database is locked" else None)
          never demoText (λ _, inr "/img.png") [].

Lemma load_failure_is_retried_witness :
  let out1 := loadNotebookVectorIndex listingFailsOnceEnv "nb" demoWorld in
  result_of out1 = inr (Some "failed to list sources: database is locked")
  ∧ isLoaded (world_of (loadNotebookVectorIndex listingFailsOnceEnv "nb" (world_of out1)))
             "nb" = true.
Proof.
  cbv zeta.
  destruct (load_failure_is_retried listingFailsOnceEnv "nb" demoWorld
              "database is locked" eq_refl eq_refl) as (Hres & _ & _ & Hnext).
  split; [exact Hres|]. apply (Hnext eq_refl).
Defined.

(** * Transformations: the whole handler *)

(** The sources a request selects among those listed: all of them when
    it names none, else those whose id it names, in the order listed. *)
Definition selectedSources (ids : list string) (listed : list Source.t) : list Source.t :=
  match ids with
  | [] => listed
  | _ => filter (λ s, Source.ID s ∈ ids) listed
  end.

(** The source ids a request ends up with: the ids of the listed sources
    when it names none, else its own. *)
Definition resolvedSourceIDs (ids : list string) (listed : list Source.t) : list string :=
  match ids with
  | [] => map Source.ID listed
  | _ => ids
  end.

(** No note in the way: duplicates are allowed, or the notebook has no
    note of the requested type. *)
Definition NoDuplicateType (E : Env) (notebookID type : string) (w : World) : Prop :=
  AllowMultipleNotesOfSameType E = true
  ∨ ∀ n, In n (tbl_notes w) -> Note.NotebookID n = notebookID -> Note.Type_ n ≠ type.

Lemma sourceMapOf_lookup (ids : list string) (k : string) :
  default false (sourceMapOf ids !! k) = true <-> k ∈ ids.
Proof.
  unfold sourceMapOf.
  assert (H : ∀ m : gmap string bool,
             default false (foldl (λ m id, <[id := true]> m) m ids !! k) = true
             <-> k ∈ ids ∨ default false (m !! k) = true).
  { induction ids as [|id ids IH]; intros m; simpl.
    - rewrite elem_of_nil. tauto.
    - rewrite IH, elem_of_cons. destruct (decide (id = k)) as [->|Hne].
      + rewrite lookup_insert_eq. simpl. tauto.
      + rewrite lookup_insert_ne by done. split; [tauto|].
        intros [[Heq|Hin]|Hm]; auto; congruence. }
  rewrite H, lookup_empty. simpl. split; [intros [?|?]; [done|discriminate] | auto].
Qed.

Lemma existsb_type_false (type nb : string) (rows : list Note.t) :
  (∀ n, In n rows -> Note.NotebookID n = nb -> Note.Type_ n ≠ type) ->
  existsb (λ note, String.eqb (Note.Type_ note) type) (selectNotes nb rows) = false.
Proof.
  intros H. apply not_true_is_false. intros Hex.
  apply existsb_exists in Hex. destruct Hex as (n & Hin & Hty).
  apply selectNotes_In in Hin. destruct Hin as [Hin Hnb].
  apply String.eqb_eq in Hty. exact (H n Hin Hnb Hty).
Qed.

Section TransformFacts.
Variable E : Env.

(** The handler, stage by stage. *)
Lemma handleTransform_run c w :
  ∃ r0 w0 t0,
    transformSources E c w = (r0, w0, t0)
    ∧ match r0 with
      | inl resp => serve (handleTransform E c) w = (resp, w0, t0)
      | inr (req, srcs) =>
          let w1 := setClock (S (clock w0)) w0 in
          match GenerateTransformation E (clock w0) req srcs with
          | inl err =>
              serve (handleTransform E c) w
              = (JSON StatusInternalServerError
                   (ErrorResponse ("Generation failed: " +:+ err)),
                 w1, t0 ++ [EvGenerateTransformation req srcs (inl err)])
          | inr response =>
              ∃ rf wf tf,
                transformFinish E c req response w1 = (rf, wf, tf)
                ∧ serve (handleTransform E c) w
                  = (match rf with inl r => r | inr r => r end, wf,
                     t0 ++ EvGenerateTransformation req srcs (inr response) :: tf)
          end
      end.
Proof.
  unfold serve, handleTransform. run_monad.
  destruct (transformSources E c w) as [[[resp|[req srcs]] w0] t0];
    eexists _, _, _; (split; [reflexivity|]); simpl; [reflexivity|].
  unfold agent_GenerateTransformation. run_monad.
  destruct (GenerateTransformation E (clock w0) req srcs) as [err|response];
    run_monad; [reflexivity|].
  destruct (transformFinish E c req response (setClock (S (clock w0)) w0))
    as [[rf wf] tf].
  eexists _, _, _. split; [reflexivity|]. destruct rf; reflexivity.
Qed.

(** The first stage when the index load is all it does: the body does
    not decode. *)
Lemma transformSources_undecodable c w msg :
  Context.ShouldBindJSON c = inl msg ->
  transformSources E c w
  = (inl (JSON StatusBadRequest (ErrorResponse msg)),
     world_of (loadNotebookVectorIndex E (Context.Param_id c) w),
     events_of (loadNotebookVectorIndex E (Context.Param_id c) w)
       ++ match result_of (loadNotebookVectorIndex E (Context.Param_id c) w) with
          | inr (Some err) => [EvLog (ErrLoadIndex err)]
          | _ => []
          end).
Proof.
  intros Hbind.
  destruct (loadNotebookVectorIndex_Total E (Context.Param_id c) w) as [err Herr].
  unfold transformSources, world_of, events_of, result_of in *. run_monad.
  destruct (loadNotebookVectorIndex E (Context.Param_id c) w) as [[r0 w0] t0].
  simpl in Herr. subst r0.
  destruct err; run_monad; rewrite ?Hbind; run_monad; rewrite ?app_nil_r; reflexivity.
Qed.

(** The first stage with the storage working and no note in the way:
    the sources are those the request selects among the listed ones. *)
Lemma transformSources_resolved c w req0 :
  StorageDurable E ->
  Context.ShouldBindJSON c = inr req0 ->
  NoDuplicateType E (Context.Param_id c) (TransformationRequest.Type_ req0) w ->
  let ids := TransformationRequest.SourceIDs req0 in
  let listed := selectSources (Context.Param_id c) (tbl_sources w) in
  result_of (transformSources E c w)
  = match selectedSources ids listed with
    | [] => inl (JSON StatusBadRequest (ErrorResponse "No sources available"))
    | srcs =>
        inr (TransformationRequest.setSourceIDs (resolvedSourceIDs ids listed) req0, srcs)
    end.
Proof.
  intros Hdur Hbind Hnodup. cbv zeta.
  unfold transformSources, result_of. run_monad.
  destruct (loadNotebookVectorIndex_Total E (Context.Param_id c) w) as [err Herr].
  pose proof (loadNotebookVectorIndex_Frame E tbl_notes (Context.Param_id c)
                ltac:(reflexivity) ltac:(reflexivity) ltac:(reflexivity) w) as Hfn.
  pose proof (loadNotebookVectorIndex_Frame E tbl_sources (Context.Param_id c)
                ltac:(reflexivity) ltac:(reflexivity) ltac:(reflexivity) w) as Hfs.
  unfold result_of, world_of in *.
  destruct (loadNotebookVectorIndex E (Context.Param_id c) w) as [[r0 w0] t0].
  simpl in *. subst r0. rewrite Hbind. unfold_store.
  assert (Hfilter :
            filter (λ src, default false
                             (sourceMapOf (TransformationRequest.SourceIDs req0)
                                !! Source.ID src) = true)
                   (selectSources (Context.Param_id c) (tbl_sources w))
            = filter (λ s, Source.ID s ∈ TransformationRequest.SourceIDs req0)
                     (selectSources (Context.Param_id c) (tbl_sources w))).
  { apply list_filter_iff. intros s. apply sourceMapOf_lookup. }
  assert (Hex : AllowMultipleNotesOfSameType E = false ->
                existsb (λ note, String.eqb (Note.Type_ note)
                                   (TransformationRequest.Type_ req0))
                  (selectNotes (Context.Param_id c) (tbl_notes w0)) = false).
  { intros Hallow. destruct Hnodup as [Hyes|Hnone]; [congruence|].
    rewrite Hfn. apply existsb_type_false, Hnone. }
  destruct (AllowMultipleNotesOfSameType E) eqn:Hallow;
    destruct err; run_monad; rewrite ?Hdur; run_monad;
    rewrite ?Hex by reflexivity; run_monad; rewrite ?Hdur; run_monad; rewrite Hfs.
  all: destruct req0 as [ty prompt [|id ids] len fmt]; simpl in *.
  all: try (destruct (selectSources (Context.Param_id c) (tbl_sources w));
            reflexivity).
  all: unfold selectedSources; rewrite <- Hfilter;
    match goal with
    | |- context [filter ?P ?l] => destruct (filter P l); reflexivity
    end.
Qed.
End TransformFacts.

(** The activity entries of a world that were not in an earlier one. *)
Definition describesNote (c : Context.t) (note : Note.t) (entry : ActivityLog.t) : Prop :=
  ActivityLog.UserID entry = Context.user_id c
  ∧ ActivityLog.Action entry = "transform"
  ∧ ActivityLog.ResourceType entry = "note"
  ∧ ActivityLog.ResourceID entry = Note.ID note
  ∧ ActivityLog.ResourceName entry = Note.Title note
  ∧ ActivityLog.IPAddress entry = Context.ClientIP c
  ∧ ActivityLog.UserAgent entry = Context.UserAgent c.

Ltac walk_slides E :=
  repeat (run_monad;
          first
            [ match goal with
              | |- context [generateSlides E ?u ?s ?i ?r ?urls ?w0] =>
                  let t := fresh "ts" in
                  let H := fresh "Hslides" in
                  destruct (generateSlides_run E u s r i urls w0) as (t & H & _);
                  rewrite H; clear H
              end
            | match goal with
              | |- context [match ?x with _ => _ end] => destruct_innermost x
              end ]).

Ltac find_in :=
  simpl; repeat first [left; reflexivity | right | apply in_or_app; right].

Section FinishFacts.
Variable E : Env.

(** What follows the primary generation, for every type: one note is
    built; either its insertion fails, the answer is the 500 and nothing
    was stored, or it is stored and the answer is the 200 with it,
    whatever becomes of the images, of the activity entry and of the
    insight source. *)
Lemma transformFinish_saves c req response w :
  ∃ note rf w' tf,
    transformFinish E c req response w = (rf, w', tf)
    ∧ Note.NotebookID note = Context.Param_id c
    ∧ Note.Type_ note = TransformationRequest.Type_ req
    ∧ Note.Title note = getTitleForType (TransformationRequest.Type_ req)
    ∧ Note.SourceIDs note = TransformationRequest.SourceIDs req
    ∧ Note.Content note
      = (if String.eqb (TransformationRequest.Type_ req) "infograph" then ""
         else TransformationResponse.Content response)
    ∧ ((rf = inr (JSON StatusOK (NoteBody note))
        ∧ tbl_notes w' = tbl_notes w ++ [note]
        ∧ ((∃ entry, tbl_activity_logs w' = tbl_activity_logs w ++ [entry]
                     ∧ describesNote c note entry)
           ∨ (tbl_activity_logs w' = tbl_activity_logs w
              ∧ ∃ msg, In (EvLog (ErrLogActivity msg)) tf)))
       ∨ (rf = inl (JSON StatusInternalServerError (ErrorResponse "Failed to save note"))
          ∧ tbl_notes w' = tbl_notes w
          ∧ tbl_sources w' = tbl_sources w
          ∧ tbl_activity_logs w' = tbl_activity_logs w
          ∧ vectorStore w' = vectorStore w)).
Proof.
  unfold transformFinish, IngestText. unfold_store.
  walk_slides E.
  all: match goal with
       | |- context [EvCreateNote ?n _] => exists n
       end.
  all: eexists _, _, _; (split; [reflexivity|]); simpl.
  all: repeat (split; [reflexivity|]).
  all: first
         [ right; repeat split; reflexivity
         | left; (split; [reflexivity|]); (split; [reflexivity|]);
           first
             [ left; eexists; (split; [reflexivity|]); repeat split; reflexivity
             | right; (split; [reflexivity|]); eexists; find_in ] ].
Qed.
End FinishFacts.

Lemma textCalls_generated (t0 tf : list Event) req srcs
    (r : Result TransformationResponse.t) :
  forallb quietEvent t0 = true ->
  forallb notTextCall tf = true ->
  textCalls (t0 ++ EvGenerateTransformation req srcs r :: tf) = [(req, srcs, r)].
Proof.
  intros Hq Hn. unfold textCalls. rewrite omap_app. fold (textCalls t0).
  rewrite (quiet_no_textCalls _ Hq). simpl. f_equal.
  apply (omap_none_forallb _ notTextCall); [|exact Hn].
  intros []; simpl; congruence.
Qed.

Lemma selectedSources_In (ids : list string) (nb : string) (rows : list Source.t)
    (s : Source.t) :
  In s (selectedSources ids (selectSources nb rows))
  <-> In s rows ∧ Source.NotebookID s = nb ∧ (ids = [] ∨ In (Source.ID s) ids).
Proof.
  unfold selectedSources. destruct ids as [|id ids'].
  - rewrite selectSources_In. intuition.
  - split.
    + intros H. apply list_elem_of_In, list_elem_of_filter in H.
      destruct H as [Hid H]. apply list_elem_of_In, selectSources_In in H.
      destruct H as [Hin Hnb]. repeat split; auto.
      right. apply list_elem_of_In, Hid.
    + intros (Hin & Hnb & [Hnil|Hid]); [discriminate|].
      apply list_elem_of_In, list_elem_of_filter.
      split; [apply list_elem_of_In, Hid|].
      apply list_elem_of_In, selectSources_In. auto.
Qed.

Section TransformTheorems.
Variable E : Env.

#[local] Hint Resolve
  IngestText_Total IngestText_Frame IngestText_Emits
  generateSlides_Total generateSlides_Frame generateSlides_Emits
  loadNotebookVectorIndex_Total loadNotebookVectorIndex_Frame
  loadNotebookVectorIndex_quiet : keeps.

Lemma transformSources_tbl_activity_logs c :
  Frame tbl_activity_logs (transformSources E c).
Proof. unfold transformSources. unfold_store. keeps. Qed.

(** The first stage changes the index and the loaded marks as the index
    load it starts with does. *)
Lemma transformSources_after_load c w :
  vectorStore (world_of (transformSources E c w))
  = vectorStore (world_of (loadNotebookVectorIndex E (Context.Param_id c) w))
  ∧ loadedNotebooks (world_of (transformSources E c w))
    = loadedNotebooks (world_of (loadNotebookVectorIndex E (Context.Param_id c) w)).
Proof.
  destruct (loadNotebookVectorIndex_Total E (Context.Param_id c) w) as [err Herr].
  unfold transformSources, world_of, result_of in *. run_monad.
  destruct (loadNotebookVectorIndex E (Context.Param_id c) w) as [[r0 w0] t0].
  simpl in Herr. subst r0. unfold_store.
  walk; simpl; auto.
Qed.

(** The first stage answers with the conflict only when duplicates are
    not allowed and a note of the type is in the notebook. *)
Lemma transformSources_conflict_inv c w msg :
  result_of (transformSources E c w) = inl (JSON StatusConflict (ErrorResponse msg)) ->
  AllowMultipleNotesOfSameType E = false
  ∧ ∃ req0 note,
      Context.ShouldBindJSON c = inr req0
      ∧ In note (tbl_notes w)
      ∧ Note.NotebookID note = Context.Param_id c
      ∧ Note.Type_ note = TransformationRequest.Type_ req0.
Proof.
  destruct (loadNotebookVectorIndex_Total E (Context.Param_id c) w) as [err Herr].
  pose proof (loadNotebookVectorIndex_Frame E tbl_notes (Context.Param_id c)
                ltac:(reflexivity) ltac:(reflexivity) ltac:(reflexivity) w) as Hfn.
  unfold transformSources, world_of, result_of in *. run_monad.
  destruct (loadNotebookVectorIndex E (Context.Param_id c) w) as [[r0 w0] t0].
  simpl in Herr, Hfn. subst r0. unfold_store.
  walk; simpl; intros Hres; try discriminate Hres.
  all: match goal with
       | H : negb (AllowMultipleNotesOfSameType E) = true |- _ =>
           apply negb_true_iff in H; split; [exact H|]
       end.
  all: match goal with
       | H : existsb _ _ = true |- _ =>
           apply existsb_exists in H; destruct H as (note & Hin & Hty);
           apply selectNotes_In in Hin; simpl in Hin; rewrite Hfn in Hin;
           destruct Hin as [Hin Hnb]; apply String.eqb_eq in Hty
       end.
  all: eexists _, note; eauto.
Qed.

(** X10. A body that does not decode is refused after the index load.
    The handler answers 400 with the decoder's message having run the
    index load and nothing else: no listing of notes, no generation, no
    note.  So a request that is refused this way still loads the index of
    a notebook not yet loaded, when the listing works. *)
Theorem transform_undecodable_body (c : Context.t) (w : World) (msg : string) :
  Context.ShouldBindJSON c = inl msg ->
  let out := serve (handleTransform E c) w in
  let load := loadNotebookVectorIndex E (Context.Param_id c) w in
  answerOf out = JSON StatusBadRequest (ErrorResponse msg)
  ∧ worldAfter out = world_of load
  ∧ (∃ logged, callsOf out = events_of load ++ logged
               ∧ forallb (λ ev, match ev with EvLog _ => true | _ => false end) logged
                 = true)
  ∧ textCalls (callsOf out) = []
  ∧ noteInserts (callsOf out) = []
  ∧ (isLoaded w (Context.Param_id c) = false ->
     storageFault E (clock w) = None ->
     isLoaded (worldAfter out) (Context.Param_id c) = true).
Proof.
  intros Hbind. cbv zeta.
  pose proof (transformSources_quiet E c w) as Hq.
  destruct (handleTransform_run E c w) as (r0 & w0 & t0 & Hrun & Hserve).
  rewrite (transformSources_undecodable E c w msg Hbind) in Hrun.
  unfold events_of in Hq.
  rewrite (transformSources_undecodable E c w msg Hbind) in Hq. simpl in Hq.
  injection Hrun as <- <- <-. rewrite Hserve. simpl.
  split; [reflexivity|]. split; [reflexivity|]. split; [|split; [|split]].
  - eexists. split; [reflexivity|]. destruct (result_of _) as [|[|]]; reflexivity.
  - apply quiet_no_textCalls, Hq.
  - apply quiet_no_noteInserts, Hq.
  - intros Hl Hf.
    destruct (load_first E (Context.Param_id c) w Hl Hf)
      as (w' & t & Hload & _ & _ & Hloaded & _).
    rewrite Hload. unfold world_of, isLoaded. simpl.
    rewrite Hloaded, lookup_insert_eq. reflexivity.
Qed.

(** X11. Nothing to transform.  With the storage working and no note in
    the way, when the request selects none of the notebook's sources (the
    notebook has none, or none has a requested id) the handler answers
    400 "No sources available": nothing is generated and no note is
    inserted. *)
Theorem transform_without_sources (c : Context.t) (w : World)
    (req0 : TransformationRequest.t) :
  StorageDurable E ->
  Context.ShouldBindJSON c = inr req0 ->
  NoDuplicateType E (Context.Param_id c) (TransformationRequest.Type_ req0) w ->
  selectedSources (TransformationRequest.SourceIDs req0)
    (selectSources (Context.Param_id c) (tbl_sources w)) = [] ->
  let out := serve (handleTransform E c) w in
  answerOf out = JSON StatusBadRequest (ErrorResponse "No sources available")
  ∧ textCalls (callsOf out) = []
  ∧ imageCalls (callsOf out) = []
  ∧ noteInserts (callsOf out) = []
  ∧ tbl_notes (worldAfter out) = tbl_notes w
  ∧ tbl_activity_logs (worldAfter out) = tbl_activity_logs w.
Proof.
  intros Hdur Hbind Hnodup Hnone. cbv zeta.
  pose proof (transformSources_resolved E c w req0 Hdur Hbind Hnodup) as Hres.
  cbv zeta in Hres. rewrite Hnone in Hres.
  pose proof (transformSources_quiet E c w) as Hq.
  pose proof (transformSources_tbl_notes E c w) as Hn.
  pose proof (transformSources_tbl_activity_logs c w) as Ha.
  destruct (handleTransform_run E c w) as (r0 & w0 & t0 & Hrun & Hserve).
  rewrite Hrun in Hres, Hq, Hn, Ha. unfold result_of, events_of, world_of in *.
  simpl in *. subst r0. rewrite Hserve. simpl.
  repeat split; auto using quiet_no_textCalls, quiet_no_imageCalls, quiet_no_noteInserts.
Qed.

(** X12. The generator sees the selected sources.  With the storage
    working and no note in the way, when the request selects at least one
    source, the one generation call gets exactly the selected sources of
    this notebook, newest first: all of them when the request names none,
    else those whose id it names; an id that names no source of the
    notebook is passed over.  The request handed on, and the note of a 200
    answer, carry the ids of all listed sources in the first case and the
    ids as requested, known or not, in the second. *)
Theorem transform_uses_selected_sources (c : Context.t) (w : World)
    (req0 : TransformationRequest.t) :
  StorageDurable E ->
  Context.ShouldBindJSON c = inr req0 ->
  NoDuplicateType E (Context.Param_id c) (TransformationRequest.Type_ req0) w ->
  let ids := TransformationRequest.SourceIDs req0 in
  let listed := selectSources (Context.Param_id c) (tbl_sources w) in
  selectedSources ids listed ≠ [] ->
  let out := serve (handleTransform E c) w in
  (∃ r, textCalls (callsOf out)
        = [(TransformationRequest.setSourceIDs (resolvedSourceIDs ids listed) req0,
            selectedSources ids listed, r)])
  ∧ (∀ s, In s (selectedSources ids listed)
          <-> In s (tbl_sources w) ∧ Source.NotebookID s = Context.Param_id c
              ∧ (ids = [] ∨ In (Source.ID s) ids))
  ∧ (∀ note, answerOf out = JSON StatusOK (NoteBody note) ->
       Note.SourceIDs note = resolvedSourceIDs ids listed
       ∧ Note.Type_ note = TransformationRequest.Type_ req0
       ∧ Note.NotebookID note = Context.Param_id c).
Proof.
  intros Hdur Hbind Hnodup. cbv zeta. intros Hsome.
  pose proof (transformSources_resolved E c w req0 Hdur Hbind Hnodup) as Hres.
  cbv zeta in Hres.
  pose proof (transformSources_quiet E c w) as Hq.
  destruct (handleTransform_run E c w) as (r0 & w0 & t0 & Hrun & Hserve).
  rewrite Hrun in Hres, Hq. unfold result_of, events_of in *. simpl in *.
  set (ids := TransformationRequest.SourceIDs req0) in *.
  set (listed := selectSources (Context.Param_id c) (tbl_sources w)) in *.
  destruct (selectedSources ids listed) as [|s0 srcs] eqn:Hsel; [done|].
  subst r0. cbv zeta in Hserve.
  split; [|split].
  - destruct (GenerateTransformation E (clock w0) _ _) as [err|response].
    + rewrite Hserve. simpl. eexists. apply textCalls_generated; auto.
    + destruct Hserve as (rf & wf & tf & Hfin & Hserve). rewrite Hserve. simpl.
      eexists. apply textCalls_generated; [exact Hq|].
      match type of Hfin with
      | transformFinish _ _ ?rq _ ?w1 = _ =>
          pose proof (transformFinish_notTextCall E c rq response w1) as Hnt
      end.
      unfold events_of in Hnt. rewrite Hfin in Hnt. exact Hnt.
  - intros s. rewrite <- Hsel. apply selectedSources_In.
  - intros note Hok.
    destruct (GenerateTransformation E (clock w0) _ _) as [err|response].
    + rewrite Hserve in Hok. discriminate Hok.
    + destruct Hserve as (rf & wf & tf & Hfin & Hserve). rewrite Hserve in Hok.
      simpl in Hok.
      match type of Hfin with
      | transformFinish _ _ ?rq _ ?w1 = _ =>
          destruct (transformFinish_saves E c rq response w1)
            as (n & rf' & w' & tf' & Hfin' & Hnb & Hty & _ & Hids & _ & Hcase)
      end.
      rewrite Hfin in Hfin'. injection Hfin' as <- <- <-.
      destruct Hcase as [(-> & _)|(-> & _)]; [|discriminate Hok].
      injection Hok as <-. auto.
Qed.
End TransformTheorems.

Section TransformOutcomes.
Variable E : Env.

(** A type with no step of its own after the primary generation. *)
Lemma transformFinish_plain c req response w :
  TransformationRequest.Type_ req ≠ "infograph" ->
  TransformationRequest.Type_ req ≠ "ppt" ->
  TransformationRequest.Type_ req ≠ "insight" ->
  let tn := clock w in
  let note :=
    Note.mk (newUUID E tn) (Context.Param_id c)
      (getTitleForType (TransformationRequest.Type_ req))
      (TransformationResponse.Content response) (TransformationRequest.Type_ req)
      (TransformationRequest.SourceIDs req) (timeNow E tn) (timeNow E tn)
      (baseMetadata req) in
  ∃ rf w' tf,
    transformFinish E c req response w = (rf, w', tf)
    ∧ imageCalls tf = []
    ∧ tbl_sources w' = tbl_sources w
    ∧ vectorStore w' = vectorStore w
    ∧ loadedNotebooks w' = loadedNotebooks w
    ∧ match storageFault E tn with
      | None => rf = inr (JSON StatusOK (NoteBody note))
                ∧ tbl_notes w' = tbl_notes w ++ [note]
      | Some _ => rf = inl (JSON StatusInternalServerError
                              (ErrorResponse "Failed to save note"))
                  ∧ tbl_notes w' = tbl_notes w
      end.
Proof.
  intros H1 H2 H3. cbv zeta. apply String.eqb_neq in H1, H2, H3.
  unfold transformFinish. unfold_store. rewrite H1, H2, H3.
  walk; (eexists _, _, _; split; [reflexivity|]); simpl; repeat split; auto.
Qed.

(** X13. The conflict is answered for a duplicate only.  Whatever else
    happens, a 409 means that duplicates are not allowed and that the
    notebook holds a note of the requested type. *)
Theorem conflict_means_duplicate (c : Context.t) (w : World) (msg : string) :
  answerOf (serve (handleTransform E c) w) = JSON StatusConflict (ErrorResponse msg) ->
  AllowMultipleNotesOfSameType E = false
  ∧ ∃ req0 note,
      Context.ShouldBindJSON c = inr req0
      ∧ In note (tbl_notes w)
      ∧ Note.NotebookID note = Context.Param_id c
      ∧ Note.Type_ note = TransformationRequest.Type_ req0.
Proof.
  intros Hconflict.
  destruct (handleTransform_run E c w) as (r0 & w0 & t0 & Hrun & Hserve).
  destruct r0 as [resp|[req srcs]].
  - rewrite Hserve in Hconflict. simpl in Hconflict. subst resp.
    apply (transformSources_conflict_inv E c w msg).
    rewrite Hrun. reflexivity.
  - cbv zeta in Hserve.
    destruct (GenerateTransformation E (clock w0) req srcs) as [err|response].
    + rewrite Hserve in Hconflict. discriminate Hconflict.
    + destruct Hserve as (rf & wf & tf & Hfin & Hserve).
      rewrite Hserve in Hconflict. simpl in Hconflict.
      destruct (transformFinish_saves E c req response (setClock (S (clock w0)) w0))
        as (n & rf' & w' & tf' & Hfin' & _ & _ & _ & _ & _ & Hcase).
      rewrite Hfin in Hfin'. injection Hfin' as <- <- <-.
      destruct Hcase as [(-> & _)|(-> & _)]; discriminate Hconflict.
Qed.

(** X14. A note is stored exactly when the answer is the 200.  Whatever
    fails, the handler either answers 200 with a note of this notebook,
    which is then the one row added to the notes table, or answers with an
    error and leaves the notes, the sources and the activity log as they
    were.  Neither a failed image, nor a failed activity entry, nor a
    failed insight source loses the note or turns the 200 into an error. *)
Theorem transform_stores_note_iff_ok (c : Context.t) (w : World) :
  let out := serve (handleTransform E c) w in
  (∃ note,
     answerOf out = JSON StatusOK (NoteBody note)
     ∧ tbl_notes (worldAfter out) = tbl_notes w ++ [note]
     ∧ Note.NotebookID note = Context.Param_id c)
  ∨ ((∃ status msg, answerOf out = JSON status (ErrorResponse msg) ∧ status ≠ StatusOK)
     ∧ tbl_notes (worldAfter out) = tbl_notes w
     ∧ tbl_sources (worldAfter out) = tbl_sources w
     ∧ tbl_activity_logs (worldAfter out) = tbl_activity_logs w).
Proof.
  cbv zeta.
  pose proof (transformSources_result E c w) as Hres.
  pose proof (transformSources_tbl_notes E c w) as Hn.
  pose proof (transformSources_tbl_sources E c w) as Hs.
  pose proof (transformSources_tbl_activity_logs E c w) as Ha.
  destruct (handleTransform_run E c w) as (r0 & w0 & t0 & Hrun & Hserve).
  rewrite Hrun in Hres, Hn, Hs, Ha. unfold result_of, world_of in *. simpl in *.
  destruct r0 as [resp|[req srcs]].
  - rewrite Hserve. simpl. right. auto.
  - destruct (GenerateTransformation E (clock w0) req srcs) as [err|response].
    + rewrite Hserve. simpl. right. split; [|auto].
      eexists _, _. split; [reflexivity|discriminate].
    + destruct Hserve as (rf & wf & tf & Hfin & Hserve). rewrite Hserve. simpl.
      destruct (transformFinish_saves E c req response (setClock (S (clock w0)) w0))
        as (n & rf' & w' & tf' & Hfin' & Hnb & _ & _ & _ & _ & Hcase).
      rewrite Hfin in Hfin'. injection Hfin' as <- <- <-.
      destruct Hcase as [(-> & Hnotes & _)|(-> & Hnotes & Hsources & Hlogs & _)].
      * left. exists n. rewrite Hnotes. simpl. rewrite Hn. auto.
      * right. split; [eexists _, _; split; [reflexivity|discriminate]|].
        rewrite Hnotes, Hsources, Hlogs. simpl. auto.
Qed.

(** X15. The types with no step of their own.  For a type other than
    infograph, ppt and insight no image is asked for, the sources table is
    untouched and the index is as the index load left it; the note of a
    200 answer has the generated text as its content, the title of its
    type (the fallback title for a type that has none) and as metadata the
    length and format of the request and nothing else. *)
Theorem transform_plain_type (c : Context.t) (w : World)
    (req0 : TransformationRequest.t) :
  Context.ShouldBindJSON c = inr req0 ->
  TransformationRequest.Type_ req0 ≠ "infograph" ->
  TransformationRequest.Type_ req0 ≠ "ppt" ->
  TransformationRequest.Type_ req0 ≠ "insight" ->
  let out := serve (handleTransform E c) w in
  let load := loadNotebookVectorIndex E (Context.Param_id c) w in
  imageCalls (callsOf out) = []
  ∧ tbl_sources (worldAfter out) = tbl_sources w
  ∧ vectorStore (worldAfter out) = vectorStore (world_of load)
  ∧ (∀ note, answerOf out = JSON StatusOK (NoteBody note) ->
       ∃ rq srcs response,
         textCalls (callsOf out) = [(rq, srcs, inr response)]
         ∧ Note.Content note = TransformationResponse.Content response
         ∧ Note.Title note = getTitleForType (TransformationRequest.Type_ req0)
         ∧ Note.Type_ note = TransformationRequest.Type_ req0
         ∧ Note.Metadata note = baseMetadata req0
         ∧ (∀ k, k ≠ "format" -> k ≠ "length" -> Note.Metadata note !! k = None)).
Proof.
  intros Hbind H1 H2 H3. cbv zeta.
  pose proof (transformSources_result E c w) as Hres.
  pose proof (transformSources_quiet E c w) as Hq.
  pose proof (transformSources_tbl_sources E c w) as Hs.
  destruct (transformSources_after_load E c w) as [Hv _].
  destruct (handleTransform_run E c w) as (r0 & w0 & t0 & Hrun & Hserve).
  rewrite Hrun in Hres, Hq, Hs, Hv.
  unfold result_of, world_of, events_of in Hres, Hq, Hs, Hv. simpl in *.
  destruct r0 as [resp|[req srcs]].
  { rewrite Hserve. simpl. destruct Hres as (status & m & -> & Hstatus).
    repeat split; auto using quiet_no_imageCalls.
    intros note Hok. injection Hok as Hst _. contradiction. }
  destruct Hres as (req1 & Hbind1 & Hty & Hlen & Hfmt & _).
  rewrite Hbind in Hbind1. injection Hbind1 as <-.
  destruct (GenerateTransformation E (clock w0) req srcs) as [err|response].
  { rewrite Hserve. simpl. repeat split; auto.
    - unfold imageCalls. rewrite omap_app. fold (imageCalls t0).
      rewrite (quiet_no_imageCalls _ Hq). reflexivity.
    - intros note Hok. discriminate Hok. }
  destruct Hserve as (rf & wf & tf & Hfin & Hserve). rewrite Hserve. simpl.
  rewrite <- Hty in H1, H2, H3.
  destruct (transformFinish_plain c req response (setClock (S (clock w0)) w0) H1 H2 H3)
    as (rf' & w' & tf' & Hfin' & Himg & Hsrc & Hvs & _ & Hcase).
  rewrite Hfin in Hfin'. injection Hfin' as <- <- <-.
  pose proof (transformFinish_notTextCall E c req response
                (setClock (S (clock w0)) w0)) as Hnt.
  unfold events_of in Hnt. rewrite Hfin in Hnt.
  destruct (generated_calls t0 tf req srcs (inr response) Hq) as [Hi _].
  rewrite Hi, Himg, Hsrc, Hvs. simpl.
  repeat split; auto.
  intros note Hok. exists req, srcs, response.
  split; [apply textCalls_generated; auto|].
  simpl in Hcase. destruct (storageFault E (S (clock w0))).
  - destruct Hcase as [-> _]. discriminate Hok.
  - destruct Hcase as [-> _]. injection Hok as <-. simpl.
    rewrite (baseMetadata_ext req req0 Hlen Hfmt).
    rewrite Hty. do 4 (split; [reflexivity|]). intros k. apply baseMetadata_lookup.
Qed.

(** X16. The activity entry of a transformation.  A 200 answer comes
    with one new activity entry that names the caller, the action
    "transform", the note by id and title, and the caller's address and
    agent; or, when that entry could not be written, with the activity log
    as it was and the failure logged.  The answer is the 200 in both
    cases. *)
Theorem transform_activity_entry (c : Context.t) (w : World) (note : Note.t) :
  let out := serve (handleTransform E c) w in
  answerOf out = JSON StatusOK (NoteBody note) ->
  (∃ entry,
     tbl_activity_logs (worldAfter out) = tbl_activity_logs w ++ [entry]
     ∧ describesNote c note entry)
  ∨ (tbl_activity_logs (worldAfter out) = tbl_activity_logs w
     ∧ ∃ msg, In (EvLog (ErrLogActivity msg)) (callsOf out)).
Proof.
  cbv zeta. intros Hok.
  pose proof (transformSources_result E c w) as Hres.
  pose proof (transformSources_tbl_activity_logs E c w) as Ha.
  destruct (handleTransform_run E c w) as (r0 & w0 & t0 & Hrun & Hserve).
  rewrite Hrun in Hres, Ha. unfold result_of, world_of in *. simpl in *.
  destruct r0 as [resp|[req srcs]].
  { rewrite Hserve in Hok. simpl in Hok. subst resp.
    destruct Hres as (status & m & Heq & Hstatus). discriminate Heq. }
  destruct (GenerateTransformation E (clock w0) req srcs) as [err|response].
  { rewrite Hserve in Hok. discriminate Hok. }
  destruct Hserve as (rf & wf & tf & Hfin & Hserve). rewrite Hserve in *.
  simpl in *.
  destruct (transformFinish_saves E c req response (setClock (S (clock w0)) w0))
    as (n & rf' & w' & tf' & Hfin' & _ & _ & _ & _ & _ & Hcase).
  rewrite Hfin in Hfin'. injection Hfin' as <- <- <-.
  destruct Hcase as [(-> & _ & Hlog)|(-> & _)]; [|discriminate Hok].
  injection Hok as <-. simpl in Hlog. rewrite Ha in Hlog.
  destruct Hlog as [Hentry|(Hsame & msg & Hin)]; [left; exact Hentry|].
  right. split; [exact Hsame|]. exists msg.
  apply in_or_app. right. right. exact Hin.
Qed.
End TransformOutcomes.

(** ** The theorems on the small server *)

Definition undecodableContext : Context.t :=
  Context.mk "nb" "s1" "u" "10.0.0.1" "ua" (inl "EOF").

Lemma transform_undecodable_body_witness :
  let out := serve (handleTransform reliableEnv undecodableContext) demoWorld in
  answerOf out = JSON StatusBadRequest (ErrorResponse "EOF")
  ∧ isLoaded (worldAfter out) "nb" = true.
Proof.
  cbv zeta.
  destruct (transform_undecodable_body reliableEnv undecodableContext demoWorld "EOF"
              eq_refl) as (Hanswer & _ & _ & _ & _ & Hloaded).
  split; [exact Hanswer|]. apply Hloaded; reflexivity.
Defined.

(** A request for a summary of the sources with the given ids. *)
Definition selectingContext (ids : list string) : Context.t :=
  Context.mk "nb" "s1" "u" "10.0.0.1" "ua"
    (inr (TransformationRequest.mk "summary" "" ids "medium" "markdown")).

Lemma transform_without_sources_witness :
  answerOf (serve (handleTransform reliableEnv (selectingContext ["zz"])) demoWorld)
  = JSON StatusBadRequest (ErrorResponse "No sources available").
Proof.
  apply (transform_without_sources reliableEnv (selectingContext ["zz"]) demoWorld
           (TransformationRequest.mk "summary" "" ["zz"] "medium" "markdown")).
  - intros t. reflexivity.
  - reflexivity.
  - left. reflexivity.
  - vm_compute. reflexivity.
Defined.

Lemma transform_uses_selected_sources_witness :
  ∃ r, textCalls
         (callsOf (serve (handleTransform reliableEnv (selectingContext ["s3"; "zz"]))
                     demoWorld))
       = [(TransformationRequest.mk "summary" "" ["s3"; "zz"] "medium" "markdown",
           [otherSource], r)].
Proof.
  destruct (transform_uses_selected_sources reliableEnv (selectingContext ["s3"; "zz"])
              demoWorld
              (TransformationRequest.mk "summary" "" ["s3"; "zz"] "medium" "markdown"))
    as [Htext _].
  - intros t. reflexivity.
  - reflexivity.
  - left. reflexivity.
  - vm_compute. discriminate.
  - exact Htext.
Defined.

Lemma conflict_means_duplicate_witness :
  AllowMultipleNotesOfSameType strictEnv = false
  ∧ ∃ req0 note,
      Context.ShouldBindJSON (demoContext "summary") = inr req0
      ∧ In note (tbl_notes worldWithSummary)
      ∧ Note.NotebookID note = "nb"
      ∧ Note.Type_ note = TransformationRequest.Type_ req0.
Proof.
  apply (conflict_means_duplicate strictEnv (demoContext "summary") worldWithSummary
           "该笔记本已存在相同类型的笔记，不允许创建重复类型").
  vm_compute. reflexivity.
Defined.

Definition plainSummaryNote : Note.t :=
  Note.mk "id-5" "nb" "摘要" "TEXT" "summary" ["s3"; "s2"; "s1"] 105 105
    (baseMetadata (demoRequest "summary")).

Lemma transform_plain_type_witness :
  let out := serve (handleTransform reliableEnv (demoContext "summary")) demoWorld in
  imageCalls (callsOf out) = []
  ∧ ∃ rq srcs response,
      textCalls (callsOf out) = [(rq, srcs, inr response)]
      ∧ Note.Content plainSummaryNote = TransformationResponse.Content response.
Proof.
  cbv zeta.
  destruct (transform_plain_type reliableEnv (demoContext "summary") demoWorld
              (demoRequest "summary"))
    as (Himg & _ & _ & Hnote); try reflexivity; try discriminate.
  split; [exact Himg|].
  destruct (Hnote plainSummaryNote) as (rq & srcs & response & Htext & Hcontent & _).
  - vm_compute. reflexivity.
  - exists rq, srcs, response. auto.
Defined.

Lemma transform_activity_entry_witness :
  let out := serve (handleTransform reliableEnv (demoContext "summary")) demoWorld in
  (∃ entry,
     tbl_activity_logs (worldAfter out) = tbl_activity_logs demoWorld ++ [entry]
     ∧ describesNote (demoContext "summary") plainSummaryNote entry)
  ∨ (tbl_activity_logs (worldAfter out) = tbl_activity_logs demoWorld
     ∧ ∃ msg, In (EvLog (ErrLogActivity msg)) (callsOf out)).
Proof.
  apply (transform_activity_entry reliableEnv (demoContext "summary") demoWorld
           plainSummaryNote).
  vm_compute. reflexivity.
Defined.

(** * The rest of the API: sources, notes, notebooks, chat, users

    The handlers of [server.go] for adding and listing sources, for
    notes, for deleting a notebook and for chat, with the operations of
    [store.go] they call, and the user operations of [store.go].  They run
    over a [Site]: the world of the first part together with the tables of
    the users and of the chat.  What they call outside the store comes from
    a record of [Services] indexed by the call counter, as the oracles of
    [Env] are. *)

(** ** The users *)

Module User.
Record t : Type := mk {
  ID : string;
  Email : string;
  Name : string;
  AvatarURL : string;
  Provider : string;
  CreatedAt : option Z;  (* [None] is the zero [time.Time] *)
  UpdatedAt : Z;
}.

Definition setID (id : string) (u : t) : t :=
  mk id (Email u) (Name u) (AvatarURL u) (Provider u) (CreatedAt u) (UpdatedAt u).
Definition setCreatedAt (created : option Z) (u : t) : t :=
  mk (ID u) (Email u) (Name u) (AvatarURL u) (Provider u) created (UpdatedAt u).
Definition setUpdatedAt (now : Z) (u : t) : t :=
  mk (ID u) (Email u) (Name u) (AvatarURL u) (Provider u) (CreatedAt u) now.
(** [SET name = ?, avatar_url = ?, provider = ?, updated_at = ?] *)
Definition setProfile (name avatar provider : string) (now : Z) (u : t) : t :=
  mk (ID u) (Email u) name avatar provider (CreatedAt u) now.
End User.

(** ** The records of the chat *)

Module ChatMessage.
Record t : Type := mk {
  ID : string;
  SessionID : string;
  Role : string;
  Content : string;
  Sources : list string;
  CreatedAt : Z;
  Metadata : gmap string MetaValue;
}.
End ChatMessage.

Module ChatSession.
Record t : Type := mk {
  ID : string;
  NotebookID : string;
  Title : string;
  CreatedAt : Z;
  UpdatedAt : Z;
  Messages : list ChatMessage.t;  (* filled in by [GetChatSession] only *)
  Metadata : gmap string MetaValue;
}.

Definition setUpdatedAt (now : Z) (s : t) : t :=
  mk (ID s) (NotebookID s) (Title s) (CreatedAt s) now (Messages s) (Metadata s).
Definition setMessages (l : list ChatMessage.t) (s : t) : t :=
  mk (ID s) (NotebookID s) (Title s) (CreatedAt s) (UpdatedAt s) l (Metadata s).
End ChatSession.

Module ChatRequest.
Record t : Type := mk {
  Message : string;
  SessionID : string;
}.
End ChatRequest.

Module ChatResponse.
Record t : Type := mk {
  Message : string;
  Sources : list Source.t;  (* the handlers read the [ID] of each *)
  SessionID : string;
}.

Definition setSessionID (id : string) (r : t) : t :=
  mk (Message r) (Sources r) id.
End ChatResponse.

(** The body of [POST /notebooks/:id/sources]. *)
Module AddSourceRequest.
Record t : Type := mk {
  Name : string;
  Type_ : string;
  URL : string;
  Content : string;
  Metadata : gmap string MetaValue;
}.
End AddSourceRequest.

(** The body of [POST /notebooks/:id/notes]. *)
Module CreateNoteRequest.
Record t : Type := mk {
  Title : string;
  Content : string;
  Type_ : string;
  SourceIDs : list string;
}.
End CreateNoteRequest.

(** ** Replies *)

(** What a handler of this part writes as the body of its answer. *)
Inductive Payload : Type :=
| OfBody (b : Body)
| SourceBody (s : Source.t)
| SourcesBody (l : list Source.t)
| ChatBody (r : ChatResponse.t).

Inductive Reply : Type :=
| ReplyJSON (status : nat) (p : Payload)
| ReplyStatus (code : nat).

Definition StatusCreated : nat := 201.

Definition errorReply (status : nat) (msg : string) : Reply :=
  ReplyJSON status (OfBody (ErrorResponse msg)).

Definition replyOf (r : Response) : Reply :=
  match r with
  | JSON status body => ReplyJSON status (OfBody body)
  | Status code => ReplyStatus code
  end.

(** ** Calls *)

(** The log lines of the handlers of this part. *)
Inductive ApiLog : Type :=
| InfoFetchingURL (url : string)
    (* "fetching content from URL: %s" *)
| ErrFetchURL (err : string)
    (* "failed to fetch URL content: %v" *)
| InfoURLFetched (size : nat)
    (* "URL content fetched successfully, size: %d bytes" *)
| ErrLogSourceImport (err : string)
    (* "failed to log source import activity: %v" *)
| ErrIngestText (err : string)
    (* "failed to ingest text: %v" *)
| ErrLogNoteCreation (err : string)
    (* "failed to log note creation activity: %v" *).

(** The calls of the first part, and those to the services of this one.
    The statements of the store operations of this part are not
    recorded. *)
Inductive Call : Type :=
| CoreCall (ev : Event)
| CallExtractFromURL (url : string) (r : Result string)
| CallChat (notebookID message : string) (history : list ChatMessage.t)
    (r : Result ChatResponse.t)
| CallLog (l : ApiLog).

(** [VectorStore.ExtractFromURL] and [Agent.Chat], whose code is not part
    of this development. *)
Record Services : Type := {
  ExtractFromURL : nat -> string -> Result string;
  Chat : nat -> string -> string -> list ChatMessage.t -> Result ChatResponse.t;
}.

(** ** The site *)

Record Site : Type := mkSite {
  core : World;
  tbl_users : list User.t;
  tbl_chat_sessions : list ChatSession.t;
  tbl_chat_messages : list ChatMessage.t;
}.

Definition setCore (w : World) (s : Site) : Site :=
  mkSite w (tbl_users s) (tbl_chat_sessions s) (tbl_chat_messages s).
Definition setUsers (l : list User.t) (s : Site) : Site :=
  mkSite (core s) l (tbl_chat_sessions s) (tbl_chat_messages s).
Definition setChatSessions (l : list ChatSession.t) (s : Site) : Site :=
  mkSite (core s) (tbl_users s) l (tbl_chat_messages s).
Definition setChatMessages (l : list ChatMessage.t) (s : Site) : Site :=
  mkSite (core s) (tbl_users s) (tbl_chat_sessions s) l.

(** ** Computations over the site *)

Definition N (A : Type) : Type := Site -> (Reply + A) * Site * list Call.

Definition retN {A : Type} (a : A) : N A := fun s => (inr a, s, []).

Definition bindN {A B : Type} (m : N A) (k : A -> N B) : N B :=
  fun s =>
    let '(r, s1, t1) := m s in
    match r with
    | inl reply => (inl reply, s1, t1)
    | inr a => let '(b, s2, t2) := k a s1 in (b, s2, t1 ++ t2)
    end.

#[global] Instance N_ret : MRet N := @retN.
#[global] Instance N_bind : MBind N := fun A B k m => bindN m k.

(** [c.JSON(...); return] *)
Definition replyWith {A : Type} (r : Reply) : N A := fun s => (inl r, s, []).

Definition getSite : N Site := fun s => (inr s, s, []).
Definition modifySite (f : Site -> Site) : N unit := fun s => (inr tt, f s, []).
Definition call (c : Call) : N unit := fun s => (inr tt, s, [c]).
Definition logApi (l : ApiLog) : N unit := call (CallLog l).

(** A computation of the first part, run on the core of the site. *)
Definition liftM {A : Type} (m : M A) : N A :=
  fun s =>
    let '(r, w, t) := m (core s) in
    (match r with
     | inl resp => inl (replyOf resp)
     | inr a => inr a
     end, setCore w s, map CoreCall t).

(** Running a handler of this part. *)
Definition serveN (h : N Reply) (s : Site) : Reply * Site * list Call :=
  let '(r, s', t) := h s in
  (match r with inl reply => reply | inr reply => reply end, s', t).

(** ** Rows in the order of [ORDER BY created_at ASC] *)

Section OrderByAsc.
Context {A : Type} (createdAt : A -> Z).

Fixpoint insertAsc (x : A) (l : list A) : list A :=
  match l with
  | [] => [x]
  | y :: l' =>
      if (createdAt x <=? createdAt y)%Z then x :: y :: l'
      else y :: insertAsc x l'
  end.

Definition orderByCreatedAtAsc (l : list A) : list A :=
  foldr insertAsc [] l.
End OrderByAsc.

Definition Source_setContent (content : string) (s : Source.t) : Source.t :=
  Source.mk (Source.ID s) (Source.NotebookID s) (Source.Name s) (Source.Type_ s)
    (Source.URL s) content (Source.FileName s) (Source.FileSize s)
    (Source.ChunkCount s) (Source.CreatedAt s) (Source.UpdatedAt s)
    (Source.Metadata s).

(** The [Details] of the activity entries. *)
Definition addSourceDetails (notebookID : string) (source : Source.t) : string :=
  "{" +:+ dq +:+ "notebook_id" +:+ dq +:+ ": " +:+ dq +:+ notebookID +:+ dq
    +:+ ", " +:+ dq +:+ "source_type" +:+ dq +:+ ": " +:+ dq
    +:+ Source.Type_ source +:+ dq
    +:+ ", " +:+ dq +:+ "source_url" +:+ dq +:+ ": " +:+ dq
    +:+ Source.URL source +:+ dq +:+ "}".

Definition createNoteDetails (notebookID : string) (note : Note.t) : string :=
  "{" +:+ dq +:+ "notebook_id" +:+ dq +:+ ": " +:+ dq +:+ notebookID +:+ dq
    +:+ ", " +:+ dq +:+ "note_type" +:+ dq +:+ ": " +:+ dq
    +:+ Note.Type_ note +:+ dq
    +:+ ", " +:+ dq +:+ "source_count" +:+ dq +:+ ": "
    +:+ pretty (length (Note.SourceIDs note)) +:+ "}".

Section Api.
Variable E : Env.
Variable V : Services.

Definition tickN : N nat := liftM tick.

(** *** store.go: users *)

(** [SELECT ... FROM users WHERE email = ?] *)
Definition GetUserByEmail (email : string) : N (Result User.t) :=
  t ← tickN;
  s ← getSite;
  mret (match storageFault E t with
        | Some err => inl err
        | None =>
            match find (λ u, String.eqb (User.Email u) email) (tbl_users s) with
            | Some user => inr user
            | None => inl "user not found"
            end
        end).

(** Creates or updates a user.  The caller's record is written to as
    the function goes, so it is returned next to the error.  The insert
    fails when a row has the id ([id] is the primary key) or the email
    ([email] is [UNIQUE]). *)
Definition CreateUser (user : User.t) : N (User.t * option string) :=
  t ← tickN;
  let now := timeNow E t in
  let user := match User.CreatedAt user with
              | None => User.setCreatedAt (Some now) user
              | Some _ => user
              end in
  let user := User.setUpdatedAt now user in
  (* Check if user exists *)
  r ← GetUserByEmail (User.Email user);
  match r with
  | inr existing =>
      (* Update existing user *)
      let user := User.setID (User.ID existing) user in
      let user := User.setCreatedAt (User.CreatedAt existing) user in
      t ← tickN;
      match storageFault E t with
      | Some err => mret (user, Some err)
      | None =>
          modifySite (λ s, setUsers
                             (map (λ u, if String.eqb (User.ID u) (User.ID user)
                                        then User.setProfile (User.Name user)
                                               (User.AvatarURL user) (User.Provider user)
                                               now u
                                        else u)
                                  (tbl_users s)) s);;
          mret (user, None)
      end
  | inl _ =>
      t ← tickN;
      s ← getSite;
      let user := if String.eqb (User.ID user) ""
                  then User.setID (newUUID E t) user else user in
      match storageFault E t with
      | Some err => mret (user, Some err)
      | None =>
          if existsb (λ u, String.eqb (User.ID u) (User.ID user)
                           || String.eqb (User.Email u) (User.Email user))
                     (tbl_users s)
          then mret (user, Some "UNIQUE constraint failed")
          else
            modifySite (λ s, setUsers (tbl_users s ++ [user]) s);;
            mret (user, None)
      end
  end.

(** *** store.go: notes, notebooks, chat *)

(** [SELECT ... FROM notes WHERE id = ?] *)
Definition GetNote (id : string) : N (Result Note.t) :=
  t ← tickN;
  s ← getSite;
  mret (match storageFault E t with
        | Some err => inl err
        | None =>
            match find (λ n, String.eqb (Note.ID n) id) (tbl_notes (core s)) with
            | Some note => inr note
            | None => inl "note not found"
            end
        end).

(** [DELETE FROM notes WHERE id = ?] *)
Definition DeleteNote (id : string) : N (option string) :=
  t ← tickN;
  match storageFault E t with
  | Some err => mret (Some err)
  | None =>
      modifySite (λ s, setCore (setNotes (filter (λ n, Note.ID n ≠ id)
                                            (tbl_notes (core s))) (core s)) s);;
      mret None
  end.

(** The rows that go with the notebooks deleted: the foreign keys of
    [sources], [notes] and [chat_sessions] on [notebooks(id)], and of
    [chat_messages] on [chat_sessions(id)], are declared [ON DELETE
    CASCADE], and [NewStore] turns the foreign keys on.  Nothing writes to
    the [podcasts] table, which is left out. *)
Definition cascadeNotebook (id : string) (s : Site) : Site :=
  let w := core s in
  if existsb (λ n, String.eqb (Notebook.ID n) id) (tbl_notebooks w) then
    let gone := filter (λ cs, ChatSession.NotebookID cs = id) (tbl_chat_sessions s) in
    mkSite
      (mkWorld (loadedNotebooks w) (vectorStore w)
         (filter (λ n, Notebook.ID n ≠ id) (tbl_notebooks w))
         (filter (λ src, Source.NotebookID src ≠ id) (tbl_sources w))
         (filter (λ n, Note.NotebookID n ≠ id) (tbl_notes w))
         (tbl_activity_logs w) (clock w))
      (tbl_users s)
      (filter (λ cs, ChatSession.NotebookID cs ≠ id) (tbl_chat_sessions s))
      (filter (λ m, ChatMessage.SessionID m ∉ map ChatSession.ID gone)
         (tbl_chat_messages s))
  else s.

(** [DELETE FROM notebooks WHERE id = ?] *)
Definition DeleteNotebook (id : string) : N (option string) :=
  t ← tickN;
  match storageFault E t with
  | Some err => mret (Some err)
  | None => modifySite (cascadeNotebook id);; mret None
  end.

(** [SELECT ... FROM chat_messages WHERE session_id = ? ORDER BY created_at ASC] *)
Definition selectChatMessages (sessionID : string) (rows : list ChatMessage.t)
    : list ChatMessage.t :=
  orderByCreatedAtAsc ChatMessage.CreatedAt
    (filter (λ m, ChatMessage.SessionID m = sessionID) rows).

Definition listChatMessages (sessionID : string) : N (Result (list ChatMessage.t)) :=
  t ← tickN;
  s ← getSite;
  mret (match storageFault E t with
        | Some err => inl err
        | None => inr (selectChatMessages sessionID (tbl_chat_messages s))
        end).

Definition getChatMessage (id : string) : N (Result ChatMessage.t) :=
  t ← tickN;
  s ← getSite;
  mret (match storageFault E t with
        | Some err => inl err
        | None =>
            match find (λ m, String.eqb (ChatMessage.ID m) id) (tbl_chat_messages s) with
            | Some msg => inr msg
            | None => inl "chat message not found"
            end
        end).

Definition GetChatSession (id : string) : N (Result ChatSession.t) :=
  t ← tickN;
  s ← getSite;
  match storageFault E t with
  | Some err => mret (inl err)
  | None =>
      match find (λ cs, String.eqb (ChatSession.ID cs) id) (tbl_chat_sessions s) with
      | None => mret (inl "chat session not found")
      | Some session =>
          (* Load messages *)
          r ← listChatMessages id;
          match r with
          | inl err => mret (inl err)
          | inr messages => mret (inr (ChatSession.setMessages messages session))
          end
      end
  end.

(** The insert fails when the notebook does not exist: [notebook_id]
    references [notebooks(id)]. *)
Definition CreateChatSession (notebookID title : string) : N (Result ChatSession.t) :=
  t ← tickN;
  s ← getSite;
  let id := newUUID E t in
  let now := timeNow E t in
  let title := if String.eqb title "" then "New Chat" else title in
  match storageFault E t with
  | Some err => mret (inl err)
  | None =>
      if existsb (λ n, String.eqb (Notebook.ID n) notebookID) (tbl_notebooks (core s))
      then
        modifySite (λ s, setChatSessions
                           (tbl_chat_sessions s
                              ++ [ChatSession.mk id notebookID title now now [] ∅]) s);;
        GetChatSession id
      else mret (inl "FOREIGN KEY constraint failed")
  end.

(** Three statements, each of which may fail: the insert (also when the
    session does not exist: [session_id] references [chat_sessions(id)]),
    the update of the session's time, the reading back of the message. *)
Definition AddChatMessage (sessionID role content : string) (sources : list string)
    : N (Result ChatMessage.t) :=
  t ← tickN;
  s ← getSite;
  let id := newUUID E t in
  let now := timeNow E t in
  match storageFault E t with
  | Some err => mret (inl err)
  | None =>
      if existsb (λ cs, String.eqb (ChatSession.ID cs) sessionID) (tbl_chat_sessions s)
      then
        modifySite (λ s, setChatMessages
                           (tbl_chat_messages s
                              ++ [ChatMessage.mk id sessionID role content sources
                                    now ∅]) s);;
        (* Update session timestamp *)
        t ← tickN;
        match storageFault E t with
        | Some err => mret (inl err)
        | None =>
            modifySite (λ s, setChatSessions
                               (map (λ cs, if String.eqb (ChatSession.ID cs) sessionID
                                           then ChatSession.setUpdatedAt now cs else cs)
                                    (tbl_chat_sessions s)) s);;
            getChatMessage id
        end
      else mret (inl "FOREIGN KEY constraint failed")
  end.

(** Modelled from the spec: the caching wrapper [CachedStore] through
    which the handlers reach the store, see [CachedStore_ListSources]. *)
Definition CachedStore_DeleteNote := DeleteNote.
(** Modelled from the spec: see [CachedStore_ListSources]. *)
Definition CachedStore_DeleteNotebook := DeleteNotebook.
(** Modelled from the spec: see [CachedStore_ListSources]. *)
Definition CachedStore_CreateChatSession := CreateChatSession.
(** Modelled from the spec: see [CachedStore_ListSources]. *)
Definition CachedStore_GetChatSession := GetChatSession.
(** Modelled from the spec: see [CachedStore_ListSources]. *)
Definition CachedStore_AddChatMessage := AddChatMessage.

(** *** The services *)

Definition vectorStore_ExtractFromURL (url : string) : N (Result string) :=
  t ← tickN;
  let r := ExtractFromURL V t url in
  call (CallExtractFromURL url r);;
  mret r.

Definition agent_Chat (notebookID message : string) (history : list ChatMessage.t)
    : N (Result ChatResponse.t) :=
  t ← tickN;
  let r := Chat V t notebookID message history in
  call (CallChat notebookID message history r);;
  mret r.

(** *** server.go: sources *)

Definition handleListSources (c : Context.t) : N Reply :=
  let notebookID := Context.Param_id c in
  let userID := Context.user_id c in
  err ← liftM (checkNotebookAccess E notebookID userID);
  match err with
  | Some msg => replyWith (errorReply StatusForbidden msg)
  | None => mret tt
  end;;
  r ← liftM (CachedStore_ListSources E notebookID);
  match r with
  | inl _ => replyWith (errorReply StatusInternalServerError "Failed to list sources")
  | inr sources => mret (ReplyJSON StatusOK (SourcesBody sources))
  end.

(** [body] is what [c.ShouldBindJSON(&req)] gives for the body of the
    request. *)
Definition handleAddSource (c : Context.t) (body : Result AddSourceRequest.t)
    : N Reply :=
  let notebookID := Context.Param_id c in
  let userID := Context.user_id c in
  err ← liftM (checkNotebookAccess E notebookID userID);
  match err with
  | Some msg => replyWith (errorReply StatusForbidden msg)
  | None => mret tt
  end;;
  req ← match body with
        | inl msg => replyWith (errorReply StatusBadRequest msg)
        | inr req => mret req
        end;
  let source :=
    Source.mk "" notebookID (AddSourceRequest.Name req) (AddSourceRequest.Type_ req)
      (AddSourceRequest.URL req) (AddSourceRequest.Content req) "" 0 0 0 0
      (AddSourceRequest.Metadata req) in
  (* If URL is provided and Content is empty, fetch content from URL *)
  source ←
    (if negb (String.eqb (AddSourceRequest.URL req) "") then
       logApi (InfoFetchingURL (AddSourceRequest.URL req));;
       r ← vectorStore_ExtractFromURL (AddSourceRequest.URL req);
       match r with
       | inl err =>
           logApi (ErrFetchURL err);;
           replyWith (errorReply StatusInternalServerError
                        ("Failed to fetch URL content: " +:+ err))
       | inr content =>
           logApi (InfoURLFetched (String.length content));;
           mret (Source_setContent content source)
       end
     else mret source);
  '(source, err) ← liftM (CachedStore_CreateSource E source);
  match err with
  | Some _ => replyWith (errorReply StatusInternalServerError "Failed to create source")
  | None => mret tt
  end;;
  (* Log source import activity *)
  let activityLog :=
    ActivityLog.mk "" userID "add_source" "source" (Source.ID source) (Source.Name source)
                   (addSourceDetails notebookID source)
                   (Context.ClientIP c) (Context.UserAgent c) None in
  err ← liftM (CachedStore_LogActivity E activityLog);
  match err with
  | Some msg => logApi (ErrLogSourceImport msg)
  | None => mret tt
  end;;
  (* Ingest into vector store (synchronous for immediate availability) *)
  (if negb (String.eqb (Source.Content source) "") then
     r ← liftM (IngestText E notebookID (Source.Name source) (Source.Content source));
     match r with
     | inl err => logApi (ErrIngestText err)
     | inr chunkCount =>
         liftM (CachedStore_UpdateSourceChunkCount E (Source.ID source) chunkCount);;
         mret tt
     end
   else mret tt);;
  mret (ReplyJSON StatusCreated (SourceBody source)).

(** *** server.go: notes *)

Definition handleCreateNote (c : Context.t) (body : Result CreateNoteRequest.t)
    : N Reply :=
  let notebookID := Context.Param_id c in
  req ← match body with
        | inl msg => replyWith (errorReply StatusBadRequest msg)
        | inr req => mret req
        end;
  let note :=
    Note.mk "" notebookID (CreateNoteRequest.Title req) (CreateNoteRequest.Content req)
            (CreateNoteRequest.Type_ req) (CreateNoteRequest.SourceIDs req) 0 0 ∅ in
  '(note, err) ← liftM (CachedStore_CreateNote E note);
  match err with
  | Some _ => replyWith (errorReply StatusInternalServerError "Failed to create note")
  | None => mret tt
  end;;
  (* Log note creation activity *)
  let activityLog :=
    ActivityLog.mk "" (Context.user_id c) "create_note" "note" (Note.ID note)
                   (Note.Title note) (createNoteDetails notebookID note)
                   (Context.ClientIP c) (Context.UserAgent c) None in
  err ← liftM (CachedStore_LogActivity E activityLog);
  match err with
  | Some msg => logApi (ErrLogNoteCreation msg)
  | None => mret tt
  end;;
  mret (ReplyJSON StatusCreated (OfBody (NoteBody note))).

(** [noteID] is [c.Param("noteId")]. *)
Definition handleDeleteNote (noteID : string) : N Reply :=
  err ← CachedStore_DeleteNote noteID;
  match err with
  | Some _ => replyWith (errorReply StatusInternalServerError "Failed to delete note")
  | None => mret tt
  end;;
  mret (ReplyStatus StatusNoContent).

(** *** server.go: notebooks *)

Definition handleDeleteNotebook (c : Context.t) : N Reply :=
  let id := Context.Param_id c in
  let userID := Context.user_id c in
  (* Check ownership first *)
  r ← liftM (CachedStore_GetNotebook E id);
  existing ← match r with
             | inl _ => replyWith (errorReply StatusNotFound "Notebook not found")
             | inr existing => mret existing
             end;
  (if negb (String.eqb (Notebook.UserID existing) "")
      && negb (String.eqb (Notebook.UserID existing) userID)
   then replyWith (errorReply StatusForbidden "Access denied")
   else mret tt);;
  err ← CachedStore_DeleteNotebook id;
  match err with
  | Some _ => replyWith (errorReply StatusInternalServerError "Failed to delete notebook")
  | None => mret tt
  end;;
  mret (ReplyStatus StatusNoContent).

(** *** server.go: chat *)

(** The index load at the head of the chat handlers. *)
Definition loadForChat (notebookID : string) : N unit :=
  err ← liftM (loadNotebookVectorIndex E notebookID);
  match err with
  | Some msg => liftM (golog (ErrLoadIndex msg))
  | None => mret tt
  end.

Definition handleSendMessage (c : Context.t) (sessionID : string)
    (body : Result ChatRequest.t) : N Reply :=
  let notebookID := Context.Param_id c in
  loadForChat notebookID;;
  req ← match body with
        | inl msg => replyWith (errorReply StatusBadRequest msg)
        | inr req => mret req
        end;
  (* Add user message *)
  r ← CachedStore_AddChatMessage sessionID "user" (ChatRequest.Message req) [];
  match r with
  | inl _ => replyWith (errorReply StatusInternalServerError "Failed to add message")
  | inr _ => mret tt
  end;;
  (* Get session history *)
  r ← CachedStore_GetChatSession sessionID;
  session ← match r with
            | inl _ => replyWith (errorReply StatusInternalServerError
                                    "Failed to get session")
            | inr session => mret session
            end;
  (* Generate response *)
  r ← agent_Chat notebookID (ChatRequest.Message req) (ChatSession.Messages session);
  response ← match r with
             | inl err => replyWith (errorReply StatusInternalServerError
                                       ("Chat failed: " +:+ err))
             | inr response => mret response
             end;
  (* Add assistant message *)
  let sourceIDs := map Source.ID (ChatResponse.Sources response) in
  r ← CachedStore_AddChatMessage sessionID "assistant" (ChatResponse.Message response)
        sourceIDs;
  match r with
  | inl _ => replyWith (errorReply StatusInternalServerError "Failed to save response")
  | inr _ => mret tt
  end;;
  mret (ReplyJSON StatusOK (ChatBody response)).

Definition handleChat (c : Context.t) (body : Result ChatRequest.t) : N Reply :=
  let notebookID := Context.Param_id c in
  loadForChat notebookID;;
  req ← match body with
        | inl msg => replyWith (errorReply StatusBadRequest msg)
        | inr req => mret req
        end;
  (* Create or get session *)
  sessionID ←
    (if String.eqb (ChatRequest.SessionID req) "" then
       r ← CachedStore_CreateChatSession notebookID "";
       match r with
       | inl _ => replyWith (errorReply StatusInternalServerError
                               "Failed to create session")
       | inr session => mret (ChatSession.ID session)
       end
     else mret (ChatRequest.SessionID req));
  (* Get session history *)
  r ← CachedStore_GetChatSession sessionID;
  session ← match r with
            | inl _ => replyWith (errorReply StatusInternalServerError
                                    "Failed to get session")
            | inr session => mret session
            end;
  (* Generate response *)
  r ← agent_Chat notebookID (ChatRequest.Message req) (ChatSession.Messages session);
  response ← match r with
             | inl err => replyWith (errorReply StatusInternalServerError
                                       ("Chat failed: " +:+ err))
             | inr response => mret response
             end;
  let response := ChatResponse.setSessionID sessionID response in
  (* Add messages *)
  let sourceIDs := map Source.ID (ChatResponse.Sources response) in
  CachedStore_AddChatMessage sessionID "user" (ChatRequest.Message req) [];;
  CachedStore_AddChatMessage sessionID "assistant" (ChatResponse.Message response)
    sourceIDs;;
  mret (ReplyJSON StatusOK (ChatBody response)).
End Api.

(** * Reasoning about the rest of the API *)

(** The site a served request leaves. *)
Abbreviation siteAfter out := (snd (fst out)) (only parsing).

Definition reply_of {A : Type} (x : (Reply + A) * Site * list Call) : Reply + A := x.1.1.
Definition site_of {A : Type} (x : (Reply + A) * Site * list Call) : Site := x.1.2.

(** Runs the binds and primitives of both parts in the goal. *)
Ltac run_api :=
  repeat progress
    (unfold mbind, N_bind, mret, N_ret, bindN, retN, replyWith, getSite, modifySite,
       call, logApi, liftM, tickN, errorReply,
       M_bind, M_ret, bind, ret, respond, get, modify, emit, golog, tick;
     simpl).

Ltac unfold_cached :=
  unfold CachedStore_DeleteNote, CachedStore_DeleteNotebook,
    CachedStore_CreateChatSession, CachedStore_GetChatSession,
    CachedStore_AddChatMessage.

(** The calls to the services among a list of calls. *)
Definition fetches (t : list Call) : list (string * Result string) :=
  omap (λ c, match c with CallExtractFromURL url r => Some (url, r) | _ => None end) t.

Definition chats (t : list Call)
    : list (string * string * list ChatMessage.t * Result ChatResponse.t) :=
  omap (λ c, match c with
             | CallChat nb msg history r => Some (nb, msg, history, r)
             | _ => None
             end) t.

(** The calls of the first part among a list of calls. *)
Definition coreCalls (t : list Call) : list Event :=
  omap (λ c, match c with CoreCall ev => Some ev | _ => None end) t.

(** The caller may use the notebook: it exists, and has no owner or the
    caller as its owner. *)
Definition MayUse (w : World) (notebookID userID : string) : Prop :=
  ∃ nb, find (λ n, String.eqb (Notebook.ID n) notebookID) (tbl_notebooks w) = Some nb
        ∧ (Notebook.UserID nb = "" ∨ Notebook.UserID nb = userID).

(** The notebook has an owner who is not the caller. *)
Definition OwnedByOther (w : World) (notebookID userID : string) : Prop :=
  ∃ nb, find (λ n, String.eqb (Notebook.ID n) notebookID) (tbl_notebooks w) = Some nb
        ∧ Notebook.UserID nb ≠ "" ∧ Notebook.UserID nb ≠ userID.

Lemma MayUse_check (w : World) (notebookID userID : string) (nb : Notebook.t) :
  find (λ n, String.eqb (Notebook.ID n) notebookID) (tbl_notebooks w) = Some nb ->
  Notebook.UserID nb = "" ∨ Notebook.UserID nb = userID ->
  negb (String.eqb (Notebook.UserID nb) "")
  && negb (String.eqb (Notebook.UserID nb) userID) = false.
Proof.
  intros _ [H|H]; rewrite H, ?String.eqb_refl; simpl; [reflexivity|].
  apply andb_false_r.
Qed.

Section ApiFacts.
Variable E : Env.
Variable V : Services.

Lemma access_granted w nb user :
  StorageDurable E ->
  MayUse w nb user ->
  checkNotebookAccess E nb user w
  = (inr None, setClock (S (clock w)) w,
     [EvGetNotebook nb
        (match find (λ n, String.eqb (Notebook.ID n) nb) (tbl_notebooks w) with
         | Some n => inr n
         | None => inl "notebook not found"
         end)]).
Proof.
  intros Hdur (n & Hfind & Hown).
  unfold checkNotebookAccess. unfold_store. run_monad. rewrite Hdur, Hfind. run_monad.
  rewrite (MayUse_check w nb user n Hfind Hown). reflexivity.
Qed.

Lemma access_denied w nb user :
  StorageDurable E ->
  OwnedByOther w nb user ->
  checkNotebookAccess E nb user w
  = (inr (Some "access denied"), setClock (S (clock w)) w,
     [EvGetNotebook nb
        (match find (λ n, String.eqb (Notebook.ID n) nb) (tbl_notebooks w) with
         | Some n => inr n
         | None => inl "notebook not found"
         end)]).
Proof.
  intros Hdur (n & Hfind & H1 & H2). apply String.eqb_neq in H1, H2.
  unfold checkNotebookAccess. unfold_store. run_monad. rewrite Hdur, Hfind. run_monad.
  rewrite H1, H2. reflexivity.
Qed.

(** X17. Strangers are refused before anything else happens.  With the
    storage working, when the notebook has an owner who is not the caller,
    [handleListSources] and [handleAddSource] answer 403 "access denied"
    and [handleDeleteNotebook] answers 403 "Access denied", each after the
    one statement that reads the notebook: the body is not looked at, no
    URL is fetched, nothing is listed, stored, ingested or deleted. *)
Theorem strangers_are_refused (c : Context.t) (body : Result AddSourceRequest.t)
    (s : Site) :
  StorageDurable E ->
  OwnedByOther (core s) (Context.Param_id c) (Context.user_id c) ->
  let listed := serveN (handleListSources E c) s in
  let added := serveN (handleAddSource E V c body) s in
  let deleted := serveN (handleDeleteNotebook E c) s in
  let s' := setCore (setClock (S (clock (core s))) (core s)) s in
  answerOf listed = errorReply StatusForbidden "access denied"
  ∧ answerOf added = errorReply StatusForbidden "access denied"
  ∧ answerOf deleted = errorReply StatusForbidden "Access denied"
  ∧ siteAfter listed = s' ∧ siteAfter added = s' ∧ siteAfter deleted = s'
  ∧ fetches (callsOf added) = []
  ∧ listings (coreCalls (callsOf listed)) = [].
Proof.
  intros Hdur Hother. cbv zeta.
  unfold serveN, handleListSources, handleAddSource, handleDeleteNotebook. run_api.
  rewrite (access_denied (core s) _ _ Hdur Hother). simpl.
  destruct Hother as (nb & Hfind & H1 & H2). apply String.eqb_neq in H1, H2.
  unfold_store. run_api. rewrite Hdur, Hfind. run_api. rewrite H1, H2. simpl.
  repeat split; reflexivity.
Qed.
End ApiFacts.



Ltac finish_add :=
  repeat (split; [reflexivity|]);
  (split; [eexists; (split; [reflexivity|]); auto|]);
  rewrite ?app_nil_r; split; reflexivity.

Section AddSourceFacts.
Variable E : Env.
Variable V : Services.

(** [handleAddSource] for a caller who may use the notebook, the storage
    working: the statements run at consecutive moments, the first reading
    the notebook. *)
Lemma handleAddSource_run (c : Context.t) (req : AddSourceRequest.t) (s : Site) :
  StorageDurable E ->
  MayUse (core s) (Context.Param_id c) (Context.user_id c) ->
  let w := core s in
  let notebookID := Context.Param_id c in
  let url := AddSourceRequest.URL req in
  let name := AddSourceRequest.Name req in
  let fetched : Result string :=
    if String.eqb url "" then inr (AddSourceRequest.Content req)
    else ExtractFromURL V (S (clock w)) url in
  let tc := if String.eqb url "" then S (clock w) else S (S (clock w)) in
  let out := serveN (handleAddSource E V c (inr req)) s in
  fetches (callsOf out)
  = (if String.eqb url "" then [] else [(url, ExtractFromURL V (S (clock w)) url)])
  ∧ tbl_chat_sessions (siteAfter out) = tbl_chat_sessions s
  ∧ tbl_chat_messages (siteAfter out) = tbl_chat_messages s
  ∧ tbl_notebooks (core (siteAfter out)) = tbl_notebooks w
  ∧ tbl_notes (core (siteAfter out)) = tbl_notes w
  ∧ loadedNotebooks (core (siteAfter out)) = loadedNotebooks w
  ∧ match fetched with
    | inl err =>
        answerOf out = errorReply StatusInternalServerError
                    ("Failed to fetch URL content: " +:+ err)
        ∧ tbl_sources (core (siteAfter out)) = tbl_sources w
        ∧ tbl_activity_logs (core (siteAfter out)) = tbl_activity_logs w
        ∧ vectorStore (core (siteAfter out)) = vectorStore w
        ∧ ingestArgs (coreCalls (callsOf out)) = []
    | inr content =>
        let source :=
          Source.mk (newUUID E tc) notebookID name (AddSourceRequest.Type_ req) url
            content "" 0 0 (timeNow E tc) (timeNow E tc) (AddSourceRequest.Metadata req) in
        let chunks := splitText (ChunkSize E) (ChunkOverlap E) content in
        let ingested :=
          negb (String.eqb content "")
          && match ingestFault E (S (S tc)) with None => true | Some _ => false end in
        answerOf out = ReplyJSON StatusCreated (SourceBody source)
        ∧ tbl_sources (core (siteAfter out))
          = (if ingested
             then withChunkCount (newUUID E tc) (length chunks) (tbl_sources w ++ [source])
             else tbl_sources w ++ [source])
        ∧ (∃ entry,
             tbl_activity_logs (core (siteAfter out)) = tbl_activity_logs w ++ [entry]
             ∧ ActivityLog.Action entry = "add_source"
             ∧ ActivityLog.ResourceID entry = newUUID E tc
             ∧ ActivityLog.UserID entry = Context.user_id c)
        ∧ vectorStore (core (siteAfter out))
          = vectorStore w ++ (if ingested then map (Chunk.mk notebookID name) chunks else [])
        ∧ ingestArgs (coreCalls (callsOf out))
          = (if String.eqb content "" then [] else [(notebookID, name, content)])
    end.
Proof.
  intros Hdur Hmay. cbv zeta.
  unfold serveN, handleAddSource. run_api.
  rewrite (access_granted E (core s) _ _ Hdur Hmay). simpl.
  unfold vectorStore_ExtractFromURL, IngestText. unfold_store.
  destruct (String.eqb (AddSourceRequest.URL req) "") eqn:Hurl; run_api.
  - rewrite ?Hdur. run_api. rewrite ?Hdur. run_api.
    destruct (String.eqb (AddSourceRequest.Content req) "") eqn:Hcontent; run_api.
    + finish_add.
    + destruct (ingestFault E _) as [err|] eqn:Hingest; run_api; rewrite ?Hdur; run_api.
      * finish_add.
      * finish_add.
  - destruct (ExtractFromURL V (S (clock (core s))) (AddSourceRequest.URL req))
      as [err|content] eqn:Hfetch; run_api.
    { repeat split; reflexivity. }
    rewrite ?Hdur. run_api. rewrite ?Hdur. run_api.
    destruct (String.eqb content "") eqn:Hcontent; run_api.
    + finish_add.
    + destruct (ingestFault E _) as [err|] eqn:Hingest; run_api; rewrite ?Hdur; run_api.
      * finish_add.
      * finish_add.
Qed.

(** X18. A URL decides the content.  For a caller who may use the
    notebook, the storage working, a request with a URL has the URL
    fetched, once, whatever content the request brings itself.  When the
    fetch fails the answer is the 500 with the error and nothing is
    stored, logged as activity or ingested; when it succeeds the fetched
    text is the content of the source answered and of the row stored, and
    it is what is handed to the ingestion, unless it is empty. *)
Theorem handleAddSource_url_decides (c : Context.t) (req : AddSourceRequest.t)
    (s : Site) :
  StorageDurable E ->
  MayUse (core s) (Context.Param_id c) (Context.user_id c) ->
  AddSourceRequest.URL req ≠ "" ->
  let out := serveN (handleAddSource E V c (inr req)) s in
  let r := ExtractFromURL V (S (clock (core s))) (AddSourceRequest.URL req) in
  fetches (callsOf out) = [(AddSourceRequest.URL req, r)]
  ∧ match r with
    | inl err =>
        answerOf out = errorReply StatusInternalServerError
                    ("Failed to fetch URL content: " +:+ err)
        ∧ tbl_sources (core (siteAfter out)) = tbl_sources (core s)
        ∧ tbl_activity_logs (core (siteAfter out)) = tbl_activity_logs (core s)
        ∧ vectorStore (core (siteAfter out)) = vectorStore (core s)
        ∧ ingestArgs (coreCalls (callsOf out)) = []
    | inr content =>
        ∃ source stored,
          answerOf out = ReplyJSON StatusCreated (SourceBody source)
          ∧ Source.Content source = content
          ∧ Source.URL source = AddSourceRequest.URL req
          ∧ In stored (tbl_sources (core (siteAfter out)))
          ∧ Source.ID stored = Source.ID source
          ∧ Source.Content stored = content
          ∧ ingestArgs (coreCalls (callsOf out))
            = (if String.eqb content "" then []
               else [(Context.Param_id c, AddSourceRequest.Name req, content)])
    end.
Proof.
  intros Hdur Hmay Hurl. cbv zeta. apply String.eqb_neq in Hurl.
  pose proof (handleAddSource_run c req s Hdur Hmay) as Hrun. cbv zeta in Hrun.
  rewrite Hurl in Hrun.
  destruct Hrun as (Hfetch & _ & _ & _ & _ & _ & Hcase).
  split; [exact Hfetch|].
  destruct (ExtractFromURL V (S (clock (core s))) (AddSourceRequest.URL req))
    as [err|content].
  - destruct Hcase as (Hreply & Hsrc & Hlog & Hvs & Hing). auto.
  - destruct Hcase as (Hreply & Hsrc & _ & _ & Hing).
    destruct (_ && _) in Hsrc.
    + eexists _, _. split; [exact Hreply|]. split; [reflexivity|]. split; [reflexivity|].
      rewrite Hsrc. split; [|split; [|split; [|exact Hing]]].
      * unfold withChunkCount. rewrite map_app. apply in_or_app. right. left. reflexivity.
      * simpl. rewrite String.eqb_refl. reflexivity.
      * simpl. rewrite String.eqb_refl. reflexivity.
    + eexists _, _. split; [exact Hreply|]. split; [reflexivity|]. split; [reflexivity|].
      rewrite Hsrc. split; [|split; [|split; [|exact Hing]]].
      * apply in_or_app. right. left. reflexivity.
      * reflexivity.
      * reflexivity.
Qed.


(** X20. A source added before the first load is ingested twice.  The
    handler hands the content of the new source to the ingestion itself,
    and leaves the loaded mark of the notebook alone; so when the notebook
    was not loaded yet, the load that follows lists the new source and
    hands the same content to the ingestion once more. *)
Theorem add_then_load_ingests_twice (c : Context.t) (req : AddSourceRequest.t)
    (s : Site) :
  StorageDurable E ->
  MayUse (core s) (Context.Param_id c) (Context.user_id c) ->
  AddSourceRequest.URL req = "" ->
  AddSourceRequest.Content req ≠ "" ->
  isLoaded (core s) (Context.Param_id c) = false ->
  let out := serveN (handleAddSource E V c (inr req)) s in
  let load := loadNotebookVectorIndex E (Context.Param_id c) (core (siteAfter out)) in
  let text := (Context.Param_id c, AddSourceRequest.Name req,
               AddSourceRequest.Content req) in
  (∃ source, answerOf out = ReplyJSON StatusCreated (SourceBody source))
  ∧ isLoaded (core (siteAfter out)) (Context.Param_id c) = false
  ∧ ingestArgs (coreCalls (callsOf out)) = [text]
  ∧ In text (ingestArgs (events_of load))
  ∧ isLoaded (world_of load) (Context.Param_id c) = true.
Proof.
  intros Hdur Hmay Hurl Hcontent Hloaded. cbv zeta.
  pose proof (handleAddSource_run c req s Hdur Hmay) as Hrun. cbv zeta in Hrun.
  rewrite Hurl in Hrun. simpl in Hrun.
  apply String.eqb_neq in Hcontent as Hc. rewrite Hc in Hrun. simpl in Hrun.
  destruct Hrun as (_ & _ & _ & _ & _ & Hmarks & Hreply & Hsrc & _ & _ & Hing).
  set (out := serveN (handleAddSource E V c (inr req)) s) in *.
  assert (Hl : isLoaded (core (siteAfter out)) (Context.Param_id c) = false).
  { unfold isLoaded in *. rewrite Hmarks. exact Hloaded. }
  destruct (load_first E (Context.Param_id c) (core (siteAfter out)) Hl (Hdur _))
    as (w' & t & Hload & _ & Hargs & Hmarked & _).
  split; [eexists; exact Hreply|]. split; [exact Hl|]. split; [exact Hing|].
  rewrite Hload. unfold events_of, world_of, isLoaded. simpl.
  rewrite Hmarked, lookup_insert_eq. split; [|reflexivity].
  rewrite Hargs.
  match type of Hsrc with
  | _ = (if _ then withChunkCount ?id ?n (?rows ++ [?src]) else _) =>
      set (source := src) in *;
      assert (Hin : ∃ row, In row (tbl_sources (core (siteAfter out)))
                           ∧ Source.NotebookID row = Context.Param_id c
                           ∧ Source.Name row = AddSourceRequest.Name req
                           ∧ Source.Content row = AddSourceRequest.Content req)
  end.
  { rewrite Hsrc. destruct (match ingestFault E _ with Some _ => _ | None => _ end).
    - exists (Source.setChunkCount
                (length (splitText (ChunkSize E) (ChunkOverlap E)
                           (AddSourceRequest.Content req))) source).
      split; [|auto]. unfold withChunkCount. rewrite map_app.
      apply in_or_app. right. simpl. rewrite String.eqb_refl. left. reflexivity.
    - exists source. split; [|auto]. apply in_or_app. right. left. reflexivity. }
  destruct Hin as (row & Hrow & Hnb & Hname & Hrc).
  apply in_map_iff. exists row. split; [congruence|].
  unfold nonEmptySources. apply list_elem_of_In, list_elem_of_filter.
  split; [congruence|]. apply list_elem_of_In, selectSources_In. auto.
Qed.
End AddSourceFacts.

(** * Notes and notebooks *)

(** The calls that read a notebook or list the notes: the checks that
    [handleTransform] and the source handlers make. *)
Definition isCheck (ev : Event) : bool :=
  match ev with
  | EvGetNotebook _ _ | EvListNotes _ _ => true
  | _ => false
  end.

Lemma find_existsb {A : Type} (f : A -> bool) (l : list A) (x : A) :
  find f l = Some x -> existsb f l = true.
Proof.
  intros H. apply find_some in H. apply existsb_exists. exists x. exact H.
Qed.

Section NoteFacts.
Variable E : Env.
Variable V : Services.

(** X21. A note is created for whoever asks, of whatever type.  With
    the storage working, [handleCreateNote] answers 201 with the note and
    appends it to the table, for any caller and any owner of the notebook,
    whether or not duplicates are allowed or a note of the type is already
    there: it reads no notebook and lists no notes.  When duplicates are
    not allowed, the note then stands in the way of a transformation of its
    type, which is answered with the conflict. *)
Theorem handleCreateNote_unchecked (c : Context.t) (req : CreateNoteRequest.t)
    (s : Site) :
  StorageDurable E ->
  (∃ nb, In nb (tbl_notebooks (core s)) ∧ Notebook.ID nb = Context.Param_id c) ->
  let out := serveN (handleCreateNote E c (inr req)) s in
  ∃ note,
    answerOf out = ReplyJSON StatusCreated (OfBody (NoteBody note))
    ∧ tbl_notes (core (siteAfter out)) = tbl_notes (core s) ++ [note]
    ∧ Note.NotebookID note = Context.Param_id c
    ∧ Note.Type_ note = CreateNoteRequest.Type_ req
    ∧ Note.Title note = CreateNoteRequest.Title req
    ∧ Note.Content note = CreateNoteRequest.Content req
    ∧ Note.SourceIDs note = CreateNoteRequest.SourceIDs req
    ∧ existsb isCheck (coreCalls (callsOf out)) = false
    ∧ (∀ c' req',
         AllowMultipleNotesOfSameType E = false ->
         Context.Param_id c' = Context.Param_id c ->
         Context.ShouldBindJSON c' = inr req' ->
         TransformationRequest.Type_ req' = CreateNoteRequest.Type_ req ->
         answerOf (serve (handleTransform E c') (core (siteAfter out)))
         = JSON StatusConflict
             (ErrorResponse "该笔记本已存在相同类型的笔记，不允许创建重复类型")).
Proof.
  intros Hdur _. cbv zeta.
  unfold serveN, handleCreateNote. unfold_store. run_api. rewrite ?Hdur. run_api.
  rewrite ?Hdur. run_api.
  eexists. do 7 (split; [reflexivity|]). split; [reflexivity|].
  intros c' req' Hallow Hnb Hbind Hty.
  match goal with
  | |- context [serve (handleTransform E c') ?w] =>
      destruct (handleTransform_run E c' w) as (r0 & w0 & t0 & Hrun & Hserve)
  end.
  match type of Hrun with
  | transformSources _ _ ?w = _ =>
      match goal with
      | |- context [Note.setTimes ?now ?n] =>
          pose proof (transformSources_conflict E c' w req' (Note.setTimes now n)
                        Hallow Hdur Hbind) as Hc
      end
  end.
  rewrite Hrun in Hc. unfold result_of in Hc. simpl in Hc.
  rewrite Hc in Hserve.
  - rewrite Hserve. reflexivity.
  - apply in_or_app. right. left. reflexivity.
  - symmetry. exact Hnb.
  - symmetry. exact Hty.
Qed.

(** X22. A note is deleted for whoever asks.  [handleDeleteNote] looks
    at nothing but the id: with the storage working it answers 204, also
    when no note has the id; the notes with the id are gone, whatever
    notebook they were in, and [GetNote] does not find the id any more;
    every other note and every other table is as before, and no activity
    entry is written. *)
Theorem handleDeleteNote_unchecked (noteID : string) (s : Site) :
  StorageDurable E ->
  let out := serveN (handleDeleteNote E noteID) s in
  answerOf out = ReplyStatus StatusNoContent
  ∧ (∀ n, In n (tbl_notes (core (siteAfter out)))
          <-> In n (tbl_notes (core s)) ∧ Note.ID n ≠ noteID)
  ∧ reply_of (GetNote E noteID (siteAfter out)) = inr (inl "note not found")
  ∧ tbl_notebooks (core (siteAfter out)) = tbl_notebooks (core s)
  ∧ tbl_sources (core (siteAfter out)) = tbl_sources (core s)
  ∧ tbl_activity_logs (core (siteAfter out)) = tbl_activity_logs (core s)
  ∧ vectorStore (core (siteAfter out)) = vectorStore (core s)
  ∧ (callsOf out) = [].
Proof.
  intros Hdur. cbv zeta.
  unfold serveN, handleDeleteNote, CachedStore_DeleteNote, GetNote, DeleteNote, reply_of.
  run_api.
  rewrite ?Hdur. run_api. rewrite ?Hdur.
  split; [reflexivity|]. split; [|split; [|repeat split; reflexivity]].
  - intros n. rewrite <- !list_elem_of_In, list_elem_of_filter. tauto.
  - rewrite find_none_fresh; [reflexivity|].
    intros n Hn. apply list_elem_of_In, list_elem_of_filter in Hn.
    apply String.eqb_neq. tauto.
Qed.

(** X23. Deleting a notebook takes its rows along and leaves its index.
    For a caller who may use the notebook, the storage working,
    [handleDeleteNotebook] answers 204; the notebook, its sources, its
    notes, its chat sessions and the messages of those sessions are gone,
    and every row of another notebook is kept.  The vector index and the
    loaded marks are as they were: the chunks of the notebook stay in the
    index.  No activity entry is written. *)
Theorem handleDeleteNotebook_cascade (c : Context.t) (s : Site) :
  StorageDurable E ->
  MayUse (core s) (Context.Param_id c) (Context.user_id c) ->
  let out := serveN (handleDeleteNotebook E c) s in
  let id := Context.Param_id c in
  let w := core s in
  let w' := core (siteAfter out) in
  answerOf out = ReplyStatus StatusNoContent
  ∧ (∀ n, In n (tbl_notebooks w') <-> In n (tbl_notebooks w) ∧ Notebook.ID n ≠ id)
  ∧ (∀ x, In x (tbl_sources w') <-> In x (tbl_sources w) ∧ Source.NotebookID x ≠ id)
  ∧ (∀ n, In n (tbl_notes w') <-> In n (tbl_notes w) ∧ Note.NotebookID n ≠ id)
  ∧ (∀ cs, In cs (tbl_chat_sessions (siteAfter out))
           <-> In cs (tbl_chat_sessions s) ∧ ChatSession.NotebookID cs ≠ id)
  ∧ (∀ m, In m (tbl_chat_messages (siteAfter out))
          <-> In m (tbl_chat_messages s)
              ∧ ∀ cs, In cs (tbl_chat_sessions s) ->
                      ChatSession.ID cs = ChatMessage.SessionID m ->
                      ChatSession.NotebookID cs ≠ id)
  ∧ vectorStore w' = vectorStore w
  ∧ loadedNotebooks w' = loadedNotebooks w
  ∧ tbl_activity_logs w' = tbl_activity_logs w.
Proof.
  intros Hdur Hmay. cbv zeta. destruct Hmay as (nb & Hfind & Hown).
  unfold serveN, handleDeleteNotebook, CachedStore_DeleteNotebook, DeleteNotebook.
  unfold_store. run_api.
  rewrite ?Hdur, Hfind. run_api.
  rewrite (MayUse_check (core s) _ _ nb Hfind Hown). run_api. rewrite ?Hdur. run_api.
  unfold cascadeNotebook. simpl. rewrite (find_existsb _ _ _ Hfind). simpl.
  split; [reflexivity|].
  split; [intros n; rewrite <- !list_elem_of_In, list_elem_of_filter; tauto|].
  split; [intros n; rewrite <- !list_elem_of_In, list_elem_of_filter; tauto|].
  split; [intros n; rewrite <- !list_elem_of_In, list_elem_of_filter; tauto|].
  split; [intros n; rewrite <- !list_elem_of_In, list_elem_of_filter; tauto|].
  split; [|repeat split; reflexivity].
  intros m. rewrite <- !list_elem_of_In, list_elem_of_filter.
  rewrite list_elem_of_fmap. split.
  - intros [Hnot Hin]. split; [exact Hin|]. intros cs Hcs Hid Hnb. apply Hnot.
    exists cs. split; [auto|]. apply list_elem_of_filter. split; [exact Hnb|].
    apply list_elem_of_In, Hcs.
  - intros [Hin Hall]. split; [|exact Hin]. intros (cs & Hid & Hcs).
    apply list_elem_of_filter in Hcs. destruct Hcs as [Hnb Hcs].
    apply (Hall cs); [apply list_elem_of_In, Hcs | auto | exact Hnb].
Qed.

End NoteFacts.

(** * Chat *)

Lemma insertAsc_In {A : Type} (key : A -> Z) (x y : A) (l : list A) :
  In y (insertAsc key x l) <-> y = x ∨ In y l.
Proof.
  induction l as [|z l IH]; simpl; [intuition|].
  destruct (key x <=? key z)%Z; simpl; [intuition|].
  rewrite IH. intuition.
Qed.

Lemma orderByCreatedAtAsc_In {A : Type} (key : A -> Z) (y : A) (l : list A) :
  In y (orderByCreatedAtAsc key l) <-> In y l.
Proof.
  induction l as [|x l IH]; simpl; [reflexivity|].
  rewrite insertAsc_In, IH. intuition.
Qed.

Lemma selectChatMessages_In (sessionID : string) (m : ChatMessage.t)
    (rows : list ChatMessage.t) :
  In m (selectChatMessages sessionID rows)
  <-> In m rows ∧ ChatMessage.SessionID m = sessionID.
Proof.
  unfold selectChatMessages. rewrite orderByCreatedAtAsc_In.
  rewrite <- !list_elem_of_In, list_elem_of_filter. tauto.
Qed.

Lemma find_app_last {A : Type} (f : A -> bool) (l : list A) (x : A) :
  f x = true -> ∃ y, find f (l ++ [x]) = Some y.
Proof.
  intros Hx. induction l as [|z l IH]; simpl.
  - rewrite Hx. eauto.
  - destruct (f z); eauto.
Qed.

Lemma find_touch (id : string) (now : Z) (rows : list ChatSession.t)
    (session : ChatSession.t) :
  find (λ cs, String.eqb (ChatSession.ID cs) id) rows = Some session ->
  find (λ cs, String.eqb (ChatSession.ID cs) id)
       (map (λ cs, if String.eqb (ChatSession.ID cs) id
                   then ChatSession.setUpdatedAt now cs else cs) rows)
  = Some (ChatSession.setUpdatedAt now session).
Proof.
  induction rows as [|cs rows IH]; simpl; [discriminate|].
  destruct (String.eqb (ChatSession.ID cs) id) eqn:Hcs; simpl.
  - rewrite Hcs. congruence.
  - rewrite Hcs. exact IH.
Qed.

(** The rows of the sessions after a message was added. *)
Definition touched (id : string) (now : Z) (rows : list ChatSession.t)
    : list ChatSession.t :=
  map (λ cs, if String.eqb (ChatSession.ID cs) id
             then ChatSession.setUpdatedAt now cs else cs) rows.

Section ChatFacts.
Variable E : Env.
Variable V : Services.

(** [AddChatMessage] on a session that exists, the storage working: the
    message is appended and the time of the session set. *)
Lemma AddChatMessage_run sessionID role content sources s session :
  StorageDurable E ->
  find (λ cs, String.eqb (ChatSession.ID cs) sessionID) (tbl_chat_sessions s)
  = Some session ->
  let t := clock (core s) in
  let msg := ChatMessage.mk (newUUID E t) sessionID role content sources (timeNow E t) ∅ in
  ∃ found,
    AddChatMessage E sessionID role content sources s
    = (inr (inr found),
       mkSite (setClock (3 + t) (core s)) (tbl_users s)
         (touched sessionID (timeNow E t) (tbl_chat_sessions s))
         (tbl_chat_messages s ++ [msg]),
       []).
Proof.
  intros Hdur Hfind. cbv zeta.
  unfold AddChatMessage, getChatMessage. run_api. rewrite ?Hdur.
  rewrite (find_existsb _ _ _ Hfind). run_api. rewrite ?Hdur. run_api.
  rewrite ?Hdur.
  destruct (find_app_last
              (λ m, String.eqb (ChatMessage.ID m) (newUUID E (clock (core s))))
              (tbl_chat_messages s)
              (ChatMessage.mk (newUUID E (clock (core s))) sessionID role content
                 sources (timeNow E (clock (core s))) ∅))
    as [found Hfound]; [apply String.eqb_refl|].
  rewrite Hfound. exists found. destruct s as [[] ? ? ?]. reflexivity.
Qed.

Lemma GetChatSession_run sessionID s session :
  StorageDurable E ->
  find (λ cs, String.eqb (ChatSession.ID cs) sessionID) (tbl_chat_sessions s)
  = Some session ->
  GetChatSession E sessionID s
  = (inr (inr (ChatSession.setMessages
                 (selectChatMessages sessionID (tbl_chat_messages s)) session)),
     setCore (setClock (2 + clock (core s)) (core s)) s, []).
Proof.
  intros Hdur Hfind.
  unfold GetChatSession, listChatMessages. run_api. rewrite ?Hdur, Hfind. run_api.
  rewrite ?Hdur. destruct s as [[] ? ? ?]. reflexivity.
Qed.

Lemma loadForChat_loaded nb s :
  isLoaded (core s) nb = true ->
  loadForChat E nb s = (inr tt, s, []).
Proof.
  intros Hl. unfold loadForChat. run_api.
  rewrite (load_loaded E nb (core s) Hl). destruct s. reflexivity.
Qed.

Ltac step_chat :=
  unfold_cached;
  unfold serveN, mbind, N_bind, bindN, mret, N_ret, retN, replyWith;
  cbv beta iota zeta.

(** X24. [handleSendMessage] stores the question before asking.  On a
    loaded notebook, the session existing and the storage working, the
    user message is appended first, and the history handed to the chat
    with the question is read after that, so it ends up containing the
    question itself.  When the chat fails the answer is the 500 with the
    error and the question stays stored, with no reply after it; when it
    succeeds the reply is appended after the question and answered with
    the 200. *)
Theorem handleSendMessage_flow (c : Context.t) (sessionID : string)
    (req : ChatRequest.t) (s : Site) (session : ChatSession.t) :
  StorageDurable E ->
  isLoaded (core s) (Context.Param_id c) = true ->
  find (λ cs, String.eqb (ChatSession.ID cs) sessionID) (tbl_chat_sessions s)
  = Some session ->
  let out := serveN (handleSendMessage E V c sessionID (inr req)) s in
  let t := clock (core s) in
  let question :=
    ChatMessage.mk (newUUID E t) sessionID "user" (ChatRequest.Message req) []
      (timeNow E t) ∅ in
  let history := selectChatMessages sessionID (tbl_chat_messages s ++ [question]) in
  let r := Chat V (5 + t) (Context.Param_id c) (ChatRequest.Message req) history in
  chats (callsOf out) = [(Context.Param_id c, ChatRequest.Message req, history, r)]
  ∧ In question history
  ∧ match r with
    | inl err =>
        answerOf out = errorReply StatusInternalServerError ("Chat failed: " +:+ err)
        ∧ tbl_chat_messages (siteAfter out) = tbl_chat_messages s ++ [question]
    | inr response =>
        let answer :=
          ChatMessage.mk (newUUID E (6 + t)) sessionID "assistant"
            (ChatResponse.Message response)
            (map Source.ID (ChatResponse.Sources response)) (timeNow E (6 + t)) ∅ in
        answerOf out = ReplyJSON StatusOK (ChatBody response)
        ∧ tbl_chat_messages (siteAfter out) = tbl_chat_messages s ++ [question; answer]
    end.
Proof.
  intros Hdur Hl Hfind. cbv zeta.
  unfold handleSendMessage. step_chat.
  rewrite (loadForChat_loaded _ s Hl). step_chat.
  destruct (AddChatMessage_run sessionID "user" (ChatRequest.Message req) [] s
              session Hdur Hfind) as [found Hadd].
  cbv zeta in Hadd. rewrite Hadd. step_chat.
  match goal with
  | |- context [GetChatSession E sessionID ?s1] =>
      rewrite (GetChatSession_run sessionID s1
                 (ChatSession.setUpdatedAt (timeNow E (clock (core s))) session) Hdur
                 (find_touch _ _ _ _ Hfind))
  end.
  step_chat. unfold agent_Chat, tickN, liftM, tick, call. step_chat. simpl.
  assert (Hq : In (ChatMessage.mk (newUUID E (clock (core s))) sessionID "user"
                     (ChatRequest.Message req) [] (timeNow E (clock (core s))) ∅)
                  (selectChatMessages sessionID
                     (tbl_chat_messages s
                        ++ [ChatMessage.mk (newUUID E (clock (core s))) sessionID "user"
                              (ChatRequest.Message req) [] (timeNow E (clock (core s))) ∅]))).
  { apply selectChatMessages_In. split; [|reflexivity].
    apply in_or_app. right. left. reflexivity. }
  destruct (Chat V _ _ _ _) as [err|response] eqn:Hchat; step_chat; simpl.
  { repeat split; auto. }
  match goal with
  | |- context [AddChatMessage E sessionID "assistant" ?m ?srcs ?s1] =>
      destruct (AddChatMessage_run sessionID "assistant" m srcs s1
                  (ChatSession.setUpdatedAt (timeNow E (clock (core s))) session) Hdur
                  (find_touch _ _ _ _ Hfind)) as [found2 Hadd2];
      cbv zeta in Hadd2; rewrite Hadd2
  end.
  step_chat. simpl. rewrite <- app_assoc. repeat split; auto.
Qed.

(** X25. [handleChat] asks before it stores.  On a loaded notebook, for
    a request that names a session that exists, the storage working, the
    history handed to the chat is that of the session as it was, without
    the question.  When the chat fails the answer is the 500 with the
    error and nothing is stored; when it succeeds the question and the
    reply are appended, in this order, and the 200 carries the reply with
    the id of the session. *)
Theorem handleChat_flow (c : Context.t) (req : ChatRequest.t) (s : Site)
    (session : ChatSession.t) :
  StorageDurable E ->
  isLoaded (core s) (Context.Param_id c) = true ->
  ChatRequest.SessionID req ≠ "" ->
  find (λ cs, String.eqb (ChatSession.ID cs) (ChatRequest.SessionID req))
       (tbl_chat_sessions s) = Some session ->
  let out := serveN (handleChat E V c (inr req)) s in
  let t := clock (core s) in
  let sessionID := ChatRequest.SessionID req in
  let history := selectChatMessages sessionID (tbl_chat_messages s) in
  let r := Chat V (2 + t) (Context.Param_id c) (ChatRequest.Message req) history in
  chats (callsOf out) = [(Context.Param_id c, ChatRequest.Message req, history, r)]
  ∧ match r with
    | inl err =>
        answerOf out = errorReply StatusInternalServerError ("Chat failed: " +:+ err)
        ∧ tbl_chat_messages (siteAfter out) = tbl_chat_messages s
    | inr response =>
        let question :=
          ChatMessage.mk (newUUID E (3 + t)) sessionID "user" (ChatRequest.Message req)
            [] (timeNow E (3 + t)) ∅ in
        let answer :=
          ChatMessage.mk (newUUID E (6 + t)) sessionID "assistant"
            (ChatResponse.Message response)
            (map Source.ID (ChatResponse.Sources response)) (timeNow E (6 + t)) ∅ in
        answerOf out = ReplyJSON StatusOK
                    (ChatBody (ChatResponse.setSessionID sessionID response))
        ∧ tbl_chat_messages (siteAfter out) = tbl_chat_messages s ++ [question; answer]
    end.
Proof.
  intros Hdur Hl Hsid Hfind. cbv zeta. apply String.eqb_neq in Hsid.
  unfold handleChat. step_chat.
  rewrite (loadForChat_loaded _ s Hl). step_chat. rewrite Hsid. step_chat.
  rewrite (GetChatSession_run _ s session Hdur Hfind).
  step_chat. unfold agent_Chat, tickN, liftM, tick, call. step_chat. simpl.
  destruct (Chat V _ _ _ _) as [err|response] eqn:Hchat; step_chat; simpl.
  { repeat split; auto. }
  match goal with
  | |- context [AddChatMessage E ?sid "user" ?m ?srcs ?s1] =>
      destruct (AddChatMessage_run sid "user" m srcs s1 session Hdur Hfind)
        as [found1 Hadd1];
      cbv zeta in Hadd1; rewrite Hadd1
  end.
  step_chat.
  match goal with
  | |- context [AddChatMessage E ?sid "assistant" ?m ?srcs ?s1] =>
      destruct (AddChatMessage_run sid "assistant" m srcs s1
                  (ChatSession.setUpdatedAt
                     (timeNow E (S (S (S (clock (core s)))))) session) Hdur
                  (find_touch _ _ _ _ Hfind)) as [found2 Hadd2];
      cbv zeta in Hadd2; rewrite Hadd2
  end.
  step_chat. simpl. rewrite <- app_assoc. repeat split; auto.
Qed.

(** X26. A session nobody knows.  When no session has the id,
    [handleSendMessage] answers 500 "Failed to add message" (the insert
    of the question fails) and [handleChat] answers 500 "Failed to get
    session"; neither asks the chat, and neither stores anything. *)
Theorem chat_unknown_session (c : Context.t) (req : ChatRequest.t) (s : Site) :
  StorageDurable E ->
  isLoaded (core s) (Context.Param_id c) = true ->
  ChatRequest.SessionID req ≠ "" ->
  find (λ cs, String.eqb (ChatSession.ID cs) (ChatRequest.SessionID req))
       (tbl_chat_sessions s) = None ->
  let sent := serveN (handleSendMessage E V c (ChatRequest.SessionID req) (inr req)) s in
  let asked := serveN (handleChat E V c (inr req)) s in
  answerOf sent = errorReply StatusInternalServerError "Failed to add message"
  ∧ answerOf asked = errorReply StatusInternalServerError "Failed to get session"
  ∧ chats (callsOf sent) = [] ∧ chats (callsOf asked) = []
  ∧ tbl_chat_messages (siteAfter sent) = tbl_chat_messages s
  ∧ tbl_chat_messages (siteAfter asked) = tbl_chat_messages s
  ∧ tbl_chat_sessions (siteAfter sent) = tbl_chat_sessions s
  ∧ tbl_chat_sessions (siteAfter asked) = tbl_chat_sessions s.
Proof.
  intros Hdur Hl Hsid Hnone. cbv zeta. apply String.eqb_neq in Hsid.
  assert (Hex : existsb (λ cs, String.eqb (ChatSession.ID cs) (ChatRequest.SessionID req))
                  (tbl_chat_sessions s) = false).
  { apply not_true_is_false. intros Hex. apply existsb_exists in Hex.
    destruct Hex as (cs & Hin & Hid).
    exact (eq_true_false_abs _ Hid (find_none _ _ Hnone cs Hin)). }
  unfold handleSendMessage, handleChat. step_chat.
  rewrite (loadForChat_loaded _ s Hl). step_chat. rewrite Hsid. step_chat.
  unfold_cached. unfold AddChatMessage, GetChatSession. run_api.
  rewrite ?Hdur, Hex, Hnone.
  repeat split; reflexivity.
Qed.

(** X27. A question can be stored and still refused.  [AddChatMessage]
    runs three statements one after the other; when the insert works and
    the update of the session's time fails, [handleSendMessage] answers
    500 "Failed to add message" although the question is in the table; the
    chat is not asked. *)
Theorem handleSendMessage_half_added (c : Context.t) (sessionID : string)
    (req : ChatRequest.t) (s : Site) (session : ChatSession.t) (err : string) :
  isLoaded (core s) (Context.Param_id c) = true ->
  find (λ cs, String.eqb (ChatSession.ID cs) sessionID) (tbl_chat_sessions s)
  = Some session ->
  storageFault E (clock (core s)) = None ->
  storageFault E (S (clock (core s))) = Some err ->
  let out := serveN (handleSendMessage E V c sessionID (inr req)) s in
  let t := clock (core s) in
  answerOf out = errorReply StatusInternalServerError "Failed to add message"
  ∧ tbl_chat_messages (siteAfter out)
    = tbl_chat_messages s
      ++ [ChatMessage.mk (newUUID E t) sessionID "user" (ChatRequest.Message req) []
            (timeNow E t) ∅]
  ∧ tbl_chat_sessions (siteAfter out) = tbl_chat_sessions s
  ∧ chats (callsOf out) = [].
Proof.
  intros Hl Hfind Hok Hfail. cbv zeta.
  unfold handleSendMessage. step_chat.
  rewrite (loadForChat_loaded _ s Hl). step_chat.
  unfold_cached. unfold AddChatMessage. run_api.
  rewrite Hok, (find_existsb _ _ _ Hfind). run_api.
  rewrite Hfail. repeat split; reflexivity.
Qed.

(** X28. An answer can be given and not stored.  [handleChat] does not
    look at what [AddChatMessage] returns: when the session is read and
    the chat answers, but the inserts of the question and of the reply
    fail, the answer is still the 200 with the reply, and the messages
    table is as it was. *)
Theorem handleChat_unsaved (c : Context.t) (req : ChatRequest.t) (s : Site)
    (session : ChatSession.t) (response : ChatResponse.t) (e1 e2 : string) :
  isLoaded (core s) (Context.Param_id c) = true ->
  ChatRequest.SessionID req ≠ "" ->
  find (λ cs, String.eqb (ChatSession.ID cs) (ChatRequest.SessionID req))
       (tbl_chat_sessions s) = Some session ->
  let t := clock (core s) in
  storageFault E t = None ->
  storageFault E (1 + t) = None ->
  Chat V (2 + t) (Context.Param_id c) (ChatRequest.Message req)
    (selectChatMessages (ChatRequest.SessionID req) (tbl_chat_messages s))
  = inr response ->
  storageFault E (3 + t) = Some e1 ->
  storageFault E (4 + t) = Some e2 ->
  let out := serveN (handleChat E V c (inr req)) s in
  answerOf out = ReplyJSON StatusOK
              (ChatBody (ChatResponse.setSessionID (ChatRequest.SessionID req) response))
  ∧ tbl_chat_messages (siteAfter out) = tbl_chat_messages s
  ∧ tbl_chat_sessions (siteAfter out) = tbl_chat_sessions s.
Proof.
  intros Hl Hsid Hfind. cbv zeta. intros H0 H1 Hchat H3 H4.
  apply String.eqb_neq in Hsid. simpl in H1, Hchat, H3, H4.
  unfold handleChat. step_chat.
  rewrite (loadForChat_loaded _ s Hl). step_chat. rewrite Hsid. step_chat.
  unfold_cached. unfold GetChatSession, listChatMessages, agent_Chat, AddChatMessage.
  run_api.
  rewrite H0, Hfind. run_api. rewrite H1. run_api. rewrite Hchat. run_api.
  rewrite H3. run_api. rewrite H4. repeat split; reflexivity.
Qed.

(** [CreateChatSession] in a notebook that exists, the storage working
    and the new id fresh. *)
Lemma CreateChatSession_run notebookID title s :
  StorageDurable E ->
  (∃ n, In n (tbl_notebooks (core s)) ∧ Notebook.ID n = notebookID) ->
  (∀ cs, In cs (tbl_chat_sessions s) ->
         ChatSession.ID cs ≠ newUUID E (clock (core s))) ->
  let t := clock (core s) in
  let opened :=
    ChatSession.mk (newUUID E t) notebookID
      (if String.eqb title "" then "New Chat" else title) (timeNow E t) (timeNow E t) [] ∅ in
  CreateChatSession E notebookID title s
  = (inr (inr (ChatSession.setMessages
                 (selectChatMessages (newUUID E t) (tbl_chat_messages s)) opened)),
     mkSite (setClock (3 + t) (core s)) (tbl_users s)
       (tbl_chat_sessions s ++ [opened]) (tbl_chat_messages s), []).
Proof.
  intros Hdur (n & Hn & Hid) Hfresh. cbv zeta.
  assert (Hex : existsb (λ n, String.eqb (Notebook.ID n) notebookID)
                  (tbl_notebooks (core s)) = true).
  { apply existsb_exists. exists n. split; [exact Hn|]. apply String.eqb_eq, Hid. }
  unfold CreateChatSession, GetChatSession, listChatMessages. run_api.
  rewrite ?Hdur, Hex. run_api. rewrite ?Hdur.
  rewrite find_app_fresh by (intros cs Hcs; apply String.eqb_neq, Hfresh, Hcs).
  simpl. rewrite String.eqb_refl. run_api. rewrite ?Hdur.
  destruct s as [[] ? ? ?]. reflexivity.
Qed.

(** X29. [handleChat] opens a session when none is named.  On a loaded
    notebook that exists, the storage working and the new id fresh, a
    request without a session id gets a new session of this notebook,
    titled "New Chat"; the chat is asked with the history of that session,
    and a 200 carries the new id.  When the chat fails, the answer is the
    500 and the new session stays behind, without messages of this
    request. *)
Theorem handleChat_opens_session (c : Context.t) (req : ChatRequest.t) (s : Site) :
  StorageDurable E ->
  isLoaded (core s) (Context.Param_id c) = true ->
  ChatRequest.SessionID req = "" ->
  (∃ n, In n (tbl_notebooks (core s)) ∧ Notebook.ID n = Context.Param_id c) ->
  (∀ cs, In cs (tbl_chat_sessions s) ->
         ChatSession.ID cs ≠ newUUID E (clock (core s))) ->
  let out := serveN (handleChat E V c (inr req)) s in
  let t := clock (core s) in
  let id := newUUID E t in
  let opened :=
    ChatSession.mk id (Context.Param_id c) "New Chat" (timeNow E t) (timeNow E t) [] ∅ in
  let history := selectChatMessages id (tbl_chat_messages s) in
  let r := Chat V (5 + t) (Context.Param_id c) (ChatRequest.Message req) history in
  chats (callsOf out) = [(Context.Param_id c, ChatRequest.Message req, history, r)]
  ∧ match r with
    | inl err =>
        answerOf out = errorReply StatusInternalServerError ("Chat failed: " +:+ err)
        ∧ tbl_chat_sessions (siteAfter out) = tbl_chat_sessions s ++ [opened]
        ∧ tbl_chat_messages (siteAfter out) = tbl_chat_messages s
    | inr response =>
        let question :=
          ChatMessage.mk (newUUID E (6 + t)) id "user" (ChatRequest.Message req)
            [] (timeNow E (6 + t)) ∅ in
        let answer :=
          ChatMessage.mk (newUUID E (9 + t)) id "assistant"
            (ChatResponse.Message response)
            (map Source.ID (ChatResponse.Sources response)) (timeNow E (9 + t)) ∅ in
        answerOf out = ReplyJSON StatusOK (ChatBody (ChatResponse.setSessionID id response))
        ∧ tbl_chat_sessions (siteAfter out)
          = touched id (timeNow E (9 + t))
              (touched id (timeNow E (6 + t)) (tbl_chat_sessions s ++ [opened]))
        ∧ tbl_chat_messages (siteAfter out) = tbl_chat_messages s ++ [question; answer]
    end.
Proof.
  intros Hdur Hl Hsid Hnb Hfresh. cbv zeta.
  unfold handleChat. step_chat.
  rewrite (loadForChat_loaded _ s Hl). step_chat. rewrite Hsid. step_chat.
  change (String.eqb "" "") with true. cbv iota.
  pose proof (CreateChatSession_run (Context.Param_id c) "" s Hdur Hnb Hfresh) as Hopen.
  cbv zeta in Hopen. step_chat. rewrite Hopen. step_chat. simpl ChatSession.ID.
  set (opened := ChatSession.mk (newUUID E (clock (core s))) (Context.Param_id c)
                   (if String.eqb "" "" then "New Chat" else "")
                   (timeNow E (clock (core s))) (timeNow E (clock (core s))) [] ∅) in *.
  assert (Hfind : find (λ cs, String.eqb (ChatSession.ID cs) (newUUID E (clock (core s))))
                    (tbl_chat_sessions s ++ [opened]) = Some opened).
  { rewrite find_app_fresh by (intros cs Hcs; apply String.eqb_neq, Hfresh, Hcs).
    simpl. rewrite String.eqb_refl. reflexivity. }
  match goal with
  | |- context [GetChatSession E ?sid ?s1] =>
      rewrite (GetChatSession_run sid s1 opened Hdur Hfind)
  end.
  step_chat. unfold agent_Chat, tickN, liftM, tick, call. step_chat. simpl.
  destruct (Chat V _ _ _ _) as [err|response] eqn:Hchat; step_chat; simpl.
  { repeat split; auto. }
  match goal with
  | |- context [AddChatMessage E ?sid "user" ?m ?srcs ?s1] =>
      destruct (AddChatMessage_run sid "user" m srcs s1 opened Hdur Hfind)
        as [found1 Hadd1];
      cbv zeta in Hadd1; rewrite Hadd1
  end.
  step_chat.
  match goal with
  | |- context [AddChatMessage E ?sid "assistant" ?m ?srcs ?s1] =>
      destruct (AddChatMessage_run sid "assistant" m srcs s1
                  (ChatSession.setUpdatedAt
                     (timeNow E (6 + clock (core s))) opened) Hdur
                  (find_touch _ _ _ _ Hfind)) as [found2 Hadd2];
      cbv zeta in Hadd2; rewrite Hadd2
  end.
  step_chat. simpl. rewrite <- app_assoc. repeat split; auto.
Qed.
End ChatFacts.

(** * A small site to run the handlers on *)

Definition demoServices (page : Result string) (reply : Result ChatResponse.t)
    : Services :=
  {| ExtractFromURL := λ _ _, page;
     Chat := λ _ _ _ _, reply |}.

Definition demoSession : ChatSession.t := ChatSession.mk "c1" "nb" "Talk" 20 20 [] ∅.
Definition demoMessage : ChatMessage.t := ChatMessage.mk "m1" "c1" "user" "hello" [] 21 ∅.

Definition demoReply : ChatResponse.t := ChatResponse.mk "hi" [demoSource] "".

(** The small server with one chat session of one message, before and
    after the index of its notebook was loaded. *)
Definition demoSite : Site := mkSite demoWorld [] [demoSession] [demoMessage].
Definition loadedSite : Site := mkSite loadedWorld [] [demoSession] [demoMessage].

Definition answering : Services := demoServices (inr "fetched text") (inr demoReply).
Definition silent : Services :=
  demoServices (inl "connection refused") (inl "model overloaded").

Lemma demo_MayUse : MayUse demoWorld "nb" "u".
Proof. exists (Notebook.mk "nb" "u" "N"). split; [reflexivity|]. right. reflexivity. Defined.

Lemma demo_OwnedByOther : OwnedByOther demoWorld "nb" "someone else".
Proof.
  exists (Notebook.mk "nb" "u" "N"). split; [reflexivity|]. split; discriminate.
Defined.

Lemma reliable_durable : StorageDurable reliableEnv.
Proof. intros t. reflexivity. Defined.

Lemma strangers_are_refused_witness :
  answerOf (serveN (handleListSources reliableEnv strangerContext) demoSite)
  = errorReply StatusForbidden "access denied"
  ∧ answerOf (serveN (handleAddSource reliableEnv answering strangerContext (inl "EOF"))
                demoSite)
    = errorReply StatusForbidden "access denied"
  ∧ answerOf (serveN (handleDeleteNotebook reliableEnv strangerContext) demoSite)
    = errorReply StatusForbidden "Access denied".
Proof.
  destruct (strangers_are_refused reliableEnv answering strangerContext
              (inl "EOF") demoSite reliable_durable demo_OwnedByOther)
    as (Hlist & Hadd & Hdelete & _).
  split; [exact Hlist|]. split; [exact Hadd | exact Hdelete].
Defined.

(** A page posted with a URL and with content of its own. *)
Definition pageRequest : AddSourceRequest.t :=
  AddSourceRequest.mk "page" "url" "https://example.org/a" "posted text" ∅.

(** A text posted without a URL. *)
Definition textRequest : AddSourceRequest.t :=
  AddSourceRequest.mk "memo" "text" "" "abcdefghij" ∅.

Lemma handleAddSource_url_decides_witness :
  ∃ source,
    (answerOf (serveN (handleAddSource reliableEnv answering (demoContext "summary")
               (inr pageRequest)) demoSite))
    = ReplyJSON StatusCreated (SourceBody source)
    ∧ Source.Content source = "fetched text".
Proof.
  destruct (handleAddSource_url_decides reliableEnv answering (demoContext "summary")
              pageRequest demoSite reliable_durable demo_MayUse)
    as [_ (source & stored & Hreply & Hcontent & _)]; [discriminate|].
  exists source. split; [exact Hreply | exact Hcontent].
Defined.


Lemma add_then_load_ingests_twice_witness :
  let out := serveN (handleAddSource reliableEnv answering (demoContext "summary")
                       (inr textRequest)) demoSite in
  ingestArgs (coreCalls (callsOf out)) = [("nb", "memo", "abcdefghij")]
  ∧ In ("nb", "memo", "abcdefghij")
       (ingestArgs (events_of (loadNotebookVectorIndex reliableEnv "nb" (core (siteAfter out))))).
Proof.
  cbv zeta.
  destruct (add_then_load_ingests_twice reliableEnv answering (demoContext "summary")
              textRequest demoSite reliable_durable demo_MayUse)
    as (_ & _ & Hadd & Hload & _).
  - reflexivity.
  - discriminate.
  - reflexivity.
  - split; [exact Hadd | exact Hload].
Defined.

Definition summaryByHand : CreateNoteRequest.t :=
  CreateNoteRequest.mk "My summary" "written by hand" "summary" ["s1"].

Lemma handleCreateNote_unchecked_witness :
  ∃ note,
    (answerOf (serveN (handleCreateNote strictEnv strangerContext (inr summaryByHand))
            (mkSite worldWithSummary [] [] [])))
    = ReplyJSON StatusCreated (OfBody (NoteBody note))
    ∧ Note.Type_ note = "summary".
Proof.
  destruct (handleCreateNote_unchecked strictEnv strangerContext summaryByHand
              (mkSite worldWithSummary [] [] []))
    as (note & Hreply & _ & _ & Htype & _).
  - intros t. reflexivity.
  - exists (Notebook.mk "nb" "u" "N"). split; [left|]; reflexivity.
  - exists note. split; [exact Hreply | exact Htype].
Defined.

Lemma handleDeleteNote_unchecked_witness :
  (answerOf (serveN (handleDeleteNote strictEnv "n1") (mkSite worldWithSummary [] [] [])))
  = ReplyStatus StatusNoContent
  ∧ (answerOf (serveN (handleDeleteNote strictEnv "no such note")
            (mkSite worldWithSummary [] [] [])))
    = ReplyStatus StatusNoContent.
Proof.
  split.
  - apply (handleDeleteNote_unchecked strictEnv "n1" (mkSite worldWithSummary [] [] [])).
    intros t. reflexivity.
  - apply (handleDeleteNote_unchecked strictEnv "no such note"
             (mkSite worldWithSummary [] [] [])).
    intros t. reflexivity.
Defined.

Lemma handleDeleteNotebook_cascade_witness :
  let out := serveN (handleDeleteNotebook reliableEnv (demoContext "summary")) loadedSite in
  answerOf out = ReplyStatus StatusNoContent
  ∧ vectorStore (core (siteAfter out)) = vectorStore loadedWorld.
Proof.
  cbv zeta.
  destruct (handleDeleteNotebook_cascade reliableEnv (demoContext "summary") loadedSite
              reliable_durable)
    as (Hreply & _ & _ & _ & _ & _ & Hindex & _).
  - exists (Notebook.mk "nb" "u" "N"). split; [reflexivity|]. right. reflexivity.
  - split; [exact Hreply | exact Hindex].
Defined.

Definition question (sessionID : string) : ChatRequest.t :=
  ChatRequest.mk "what is this about?" sessionID.

Lemma handleSendMessage_flow_witness :
  let out := serveN (handleSendMessage reliableEnv silent (demoContext "summary") "c1"
                       (inr (question "c1"))) loadedSite in
  answerOf out = errorReply StatusInternalServerError "Chat failed: model overloaded"
  ∧ tbl_chat_messages (siteAfter out)
    = [demoMessage;
       ChatMessage.mk "id-3" "c1" "user" "what is this about?" [] 103 ∅].
Proof.
  cbv zeta.
  destruct (handleSendMessage_flow reliableEnv silent (demoContext "summary") "c1"
              (question "c1") loadedSite demoSession reliable_durable eq_refl eq_refl)
    as (_ & _ & Hfail).
  exact Hfail.
Defined.

Lemma handleChat_flow_witness :
  let out := serveN (handleChat reliableEnv answering (demoContext "summary")
                       (inr (question "c1"))) loadedSite in
  answerOf out = ReplyJSON StatusOK (ChatBody (ChatResponse.mk "hi" [demoSource] "c1"))
  ∧ tbl_chat_messages (siteAfter out)
    = [demoMessage;
       ChatMessage.mk "id-6" "c1" "user" "what is this about?" [] 106 ∅;
       ChatMessage.mk "id-9" "c1" "assistant" "hi" ["s1"] 109 ∅].
Proof.
  cbv zeta.
  destruct (handleChat_flow reliableEnv answering (demoContext "summary")
              (question "c1") loadedSite demoSession reliable_durable eq_refl)
    as (_ & Hok).
  - discriminate.
  - reflexivity.
  - exact Hok.
Defined.

Lemma chat_unknown_session_witness :
  (answerOf (serveN (handleSendMessage reliableEnv answering (demoContext "summary") "c9"
             (inr (question "c9"))) loadedSite))
  = errorReply StatusInternalServerError "Failed to add message"
  ∧ (answerOf (serveN (handleChat reliableEnv answering (demoContext "summary")
               (inr (question "c9"))) loadedSite))
    = errorReply StatusInternalServerError "Failed to get session".
Proof.
  destruct (chat_unknown_session reliableEnv answering (demoContext "summary")
              (question "c9") loadedSite reliable_durable eq_refl)
    as (Hsent & Hasked & _).
  - discriminate.
  - reflexivity.
  - split; [exact Hsent | exact Hasked].
Defined.

(** The storage fails at the given moments and works at all others. *)
Definition failingAt (moments : list nat) : Env :=
  demoEnv true (λ t, if existsb (Nat.eqb t) moments then Some "disk full" else None)
          never demoText (λ _, inr "/img.png") [].

Lemma handleSendMessage_half_added_witness :
  let out := serveN (handleSendMessage (failingAt [4]) answering (demoContext "summary")
                       "c1" (inr (question "c1"))) loadedSite in
  answerOf out = errorReply StatusInternalServerError "Failed to add message"
  ∧ tbl_chat_messages (siteAfter out)
    = [demoMessage;
       ChatMessage.mk "id-3" "c1" "user" "what is this about?" [] 103 ∅].
Proof.
  cbv zeta.
  destruct (handleSendMessage_half_added (failingAt [4]) answering
              (demoContext "summary") "c1" (question "c1") loadedSite demoSession
              "disk full" eq_refl eq_refl eq_refl eq_refl)
    as (Hreply & Hstored & _).
  split; [exact Hreply | exact Hstored].
Defined.

Lemma handleChat_unsaved_witness :
  let out := serveN (handleChat (failingAt [6; 7]) answering (demoContext "summary")
                       (inr (question "c1"))) loadedSite in
  answerOf out = ReplyJSON StatusOK (ChatBody (ChatResponse.mk "hi" [demoSource] "c1"))
  ∧ tbl_chat_messages (siteAfter out) = [demoMessage].
Proof.
  cbv zeta.
  destruct (handleChat_unsaved (failingAt [6; 7]) answering (demoContext "summary")
              (question "c1") loadedSite demoSession demoReply "disk full" "disk full"
              eq_refl)
    as (Hreply & Hsame & _); try reflexivity; try discriminate.
  split; [exact Hreply | exact Hsame].
Defined.

Lemma handleChat_opens_session_witness :
  let out := serveN (handleChat reliableEnv silent (demoContext "summary")
                       (inr (question ""))) loadedSite in
  answerOf out = errorReply StatusInternalServerError "Chat failed: model overloaded"
  ∧ tbl_chat_sessions (siteAfter out)
    = [demoSession; ChatSession.mk "id-3" "nb" "New Chat" 103 103 [] ∅].
Proof.
  cbv zeta.
  destruct (handleChat_opens_session reliableEnv silent (demoContext "summary")
              (question "") loadedSite reliable_durable eq_refl eq_refl)
    as (_ & Hfail & Hopened & _).
  - exists (Notebook.mk "nb" "u" "N"). split; [left|]; reflexivity.
  - intros cs [<-|[]]. discriminate.
  - split; [exact Hfail | exact Hopened].
Defined.

(** * Users *)

Lemma find_map_same {A : Type} (p : A -> bool) (f : A -> A) (l : list A) :
  (∀ x, p (f x) = p x) -> find p (map f l) = option_map f (find p l).
Proof.
  intros Hp. induction l as [|x l IH]; simpl; [reflexivity|].
  rewrite Hp. destruct (p x); [reflexivity | exact IH].
Qed.

Section UserFacts.
Variable E : Env.

(** X30. [CreateUser] creates or updates by email.  With the storage
    working: when a row has the email, no row is added; the caller's
    record gets the id and the creation time of that row, the rows keep
    their ids, emails and creation times, rows with another id are
    untouched, and [GetUserByEmail] then finds the old id with the new
    name, avatar, provider and update time.  When no row has the email,
    the record is appended, under the id it brings or, if it brings none, a
    new one (which no row may have), and [GetUserByEmail] finds it. *)
Theorem CreateUser_upsert (user : User.t) (s : Site) :
  StorageDurable E ->
  let out := CreateUser E user s in
  let t := clock (core s) in
  let now := timeNow E t in
  match find (λ u, String.eqb (User.Email u) (User.Email user)) (tbl_users s) with
  | Some existing =>
      ∃ saved row,
        reply_of out = inr (saved, None)
        ∧ User.ID saved = User.ID existing
        ∧ User.CreatedAt saved = User.CreatedAt existing
        ∧ map User.ID (tbl_users (site_of out)) = map User.ID (tbl_users s)
        ∧ map User.Email (tbl_users (site_of out)) = map User.Email (tbl_users s)
        ∧ map User.CreatedAt (tbl_users (site_of out)) = map User.CreatedAt (tbl_users s)
        ∧ (∀ u, In u (tbl_users s) -> User.ID u ≠ User.ID existing ->
                In u (tbl_users (site_of out)))
        ∧ reply_of (GetUserByEmail E (User.Email user) (site_of out)) = inr (inr row)
        ∧ User.ID row = User.ID existing
        ∧ User.CreatedAt row = User.CreatedAt existing
        ∧ User.Name row = User.Name user
        ∧ User.AvatarURL row = User.AvatarURL user
        ∧ User.Provider row = User.Provider user
        ∧ User.UpdatedAt row = now
  | None =>
      let id := if String.eqb (User.ID user) "" then newUUID E (2 + t)
                else User.ID user in
      (∀ u, In u (tbl_users s) -> User.ID u ≠ id) ->
      ∃ saved,
        reply_of out = inr (saved, None)
        ∧ tbl_users (site_of out) = tbl_users s ++ [saved]
        ∧ User.ID saved = id
        ∧ User.Email saved = User.Email user
        ∧ User.Name saved = User.Name user
        ∧ User.CreatedAt saved
          = match User.CreatedAt user with None => Some now | Some at_ => Some at_ end
        ∧ User.UpdatedAt saved = now
        ∧ reply_of (GetUserByEmail E (User.Email user) (site_of out)) = inr (inr saved)
  end.
Proof.
  intros Hdur. cbv zeta.
  destruct user as [id email name avatar provider created updated].
  unfold CreateUser, GetUserByEmail, reply_of, site_of. simpl.
  destruct created as [created|]; run_api; rewrite ?Hdur.
  all: destruct (find _ (tbl_users _)) as [existing|] eqn:Hfind;
    run_api; rewrite ?Hdur; run_api; rewrite ?Hdur.
  all: try (rewrite find_map_same
              by (intros x; destruct (String.eqb (User.ID x) (User.ID existing));
                  reflexivity);
            rewrite Hfind; simpl; rewrite String.eqb_refl;
            eexists _, _; do 3 (split; [reflexivity|]);
            (split; [|split; [|split; [|split; [|repeat split; reflexivity]]]]);
            [ rewrite map_map; apply map_ext; intros u;
              destruct (String.eqb (User.ID u) (User.ID existing)); reflexivity
            | rewrite map_map; apply map_ext; intros u;
              destruct (String.eqb (User.ID u) (User.ID existing)); reflexivity
            | rewrite map_map; apply map_ext; intros u;
              destruct (String.eqb (User.ID u) (User.ID existing)); reflexivity
            | intros u Hu Hne; apply in_map_iff; exists u; split; [|exact Hu];
              apply String.eqb_neq in Hne; rewrite Hne; reflexivity ]).
  all: intros Hfresh.
  all: destruct (String.eqb id "") eqn:Hid; simpl in *.
  all: match goal with
       | |- context [existsb ?p (tbl_users ?s0)] =>
           assert (Hex : existsb p (tbl_users s0) = false);
             [ apply not_true_is_false; intros Hex; apply existsb_exists in Hex;
               destruct Hex as (u & Hu & Hsame); apply orb_true_iff in Hsame;
               destruct Hsame as [Hsame|Hsame];
               [ apply String.eqb_eq in Hsame; exact (Hfresh u Hu Hsame)
               | pose proof (find_none _ _ Hfind u Hu) as Hno; simpl in Hno; congruence ]
             | rewrite Hex ]
       end.
  all: run_api; rewrite ?Hdur.
  all: rewrite find_app_fresh by (intros u Hu; exact (find_none _ _ Hfind u Hu)).
  all: simpl; rewrite String.eqb_refl.
  all: eexists; repeat split; reflexivity.
Qed.
End UserFacts.

Definition ada : User.t :=
  User.mk "u" "ada@example.org" "Ada" "" "github" (Some 10%Z) 10.

(** The same person signing in again, under another name and through
    another provider. *)
Definition adaAgain : User.t :=
  User.mk "" "ada@example.org" "Ada L." "/ada.png" "google" None 0.

Lemma CreateUser_upsert_witness :
  ∃ saved row,
    reply_of (CreateUser reliableEnv adaAgain (mkSite demoWorld [ada] [] []))
    = inr (saved, None)
    ∧ User.ID saved = "u"
    ∧ User.CreatedAt saved = Some 10%Z
    ∧ User.Name row = "Ada L.".
Proof.
  destruct (CreateUser_upsert reliableEnv adaAgain (mkSite demoWorld [ada] [] [])
              reliable_durable)
    as (saved & row & Hsaved & Hid & Hcreated & _ & _ & _ & _ & _ & _ & _ & Hname & _).
  exists saved, row. auto.
Defined.
